(** * E-commerce backend: cart, checkout, catalog and auth handlers

    A shallow embedding of the request handlers of the backend
    (controllers/cartController.js, controllers/paymentController.js,
    controllers/productController.js, controllers/authController.js and the
    middleware wired in front of them in routes/authRoutes.js,
    routes/cartRoutes.js, routes/productRoutes.js and
    middleware/authMiddleware.js), followed by the properties the
    specification states about them and by further properties of the
    handlers: how they compose, what they keep and what they refuse.

    Conventions of the embedding:
    - a handler is a function from the request and the world (document
      store, in-memory lockout map, log of payment-processor calls) to the
      response sent and the world afterwards; [await]ed calls are
      sequential, so the handler body is read top to bottom, and every
      [return res.status(..).json(..)] is a leaf of the expression;
    - a MongoDB ObjectId is a number; a collection looked up only by [_id]
      is a [gmap], a collection searched by other fields is a list in
      natural order, and [save] writes a loaded document back in place;
      an id of the path, of the token or of the field [cartId] is the
      ObjectId that Mongoose casts it to, while the [productId] of a cart
      request stays the string of the body, because the cart handlers
      compare it as text with [item.product.toString()];
    - stock and quantities are integers ([Z]); the [quantity] of a cart
      request is the value of the body, a JSON number or a JSON string,
      which [<], [+] and Mongoose convert as JavaScript does; prices are
      JavaScript Numbers, whose arithmetic is the interface [JSNumber];
    - [Date.now()] is an argument of the handlers that read the clock. *)

From Stdlib Require Import ZArith Floats Ascii String Lia.
From Stdlib Require HexString.
From stdpp Require Import base option list gmap strings pretty.

Open Scope string_scope.
Open Scope list_scope.
Open Scope Z_scope.

(** ** JavaScript Numbers *)

(** The operations on Numbers used by the handlers.  The handlers and the
    statements about them are written over this interface, and a statement
    that needs a law of the arithmetic says so; IEEE-754 doubles are the
    instance below. *)
Class JSNumber (num : Type) := {
  num_of_Z : Z → num;
  num_add : num → num → num;
  num_mul : num → num → num;
  num_div : num → num → num;
  Math_round : num → num;
  num_ltb : num → num → bool;
  num_leb : num → num → bool;
  num_isNaN : num → bool;
  num_truthy : num → bool
}.

(** IEEE-754 doubles, the Numbers the handlers run on.  [Number(z)] of an
    integer is the nearest double; [Math.round] gives the nearest integer,
    a tie going towards +infinity, and keeps NaN, the infinities, the zeros
    and every double that is already an integer. *)
Definition float_of_Z (z : Z) : float :=
  SF2Prim (binary_normalize prec emax z 0 false).

Definition float_round (x : float) : float :=
  match Prim2SF x with
  | S754_finite s m e =>
    if 0 <=? e then x
    else
      let v := if s then Z.neg m else Z.pos m in
      let n := (2 * v + 2 ^ (- e)) / 2 ^ (1 - e) in
      if n =? 0 then (if s then PrimFloat.opp 0 else 0%float) else float_of_Z n
  | _ => x
  end.

#[export] Instance float_JSNumber : JSNumber float := {|
  num_of_Z := float_of_Z;
  num_add := PrimFloat.add;
  num_mul := PrimFloat.mul;
  num_div := PrimFloat.div;
  Math_round := float_round;
  num_ltb := PrimFloat.ltb;
  num_leb := PrimFloat.leb;
  num_isNaN := PrimFloat.is_nan;
  num_truthy x := negb (PrimFloat.eqb x 0 || PrimFloat.is_nan x)
|}.

(** ** Documents *)

Abbreviation ObjectId := N (only parsing).

(** ** ObjectIds as text *)

(** [/^[0-9a-fA-F]{24}$/.test(s)] *)
Definition ObjectId_test (s : string) : bool :=
  (String.length s =? 24)%nat
  && forallb (λ a, bool_decide (is_Some (HexString.ascii_to_digit a)))
       (list_ascii_of_string s).

(** What Mongoose casts a string to where the schema has an ObjectId: the
    id that 24 hexadecimal digits write, in either case of the letters;
    any other string is refused with a CastError (by bson 5 and later;
    earlier drivers also read a string of 12 characters as 12 bytes). *)
Definition ObjectId_cast (s : string) : option ObjectId :=
  if ObjectId_test s then Some (HexString.Raw.to_N s 0) else None.

(** [id.toString()]: the hexadecimal digits of the id in lower case, filled
    up with zeros to 24 digits, which hold every id of 12 bytes. *)
Definition ObjectId_toString (o : ObjectId) : string :=
  let digits :=
    match o with
    | N0 => ""
    | Npos p => HexString.Raw.of_pos p ""
    end in
  string_of_list_ascii (replicate (24 - String.length digits) "0"%char) +:+ digits.

(** The string spells the id as [toString()] does. *)
Definition canonical_id (s : string) : Prop :=
  match ObjectId_cast s with
  | Some o => ObjectId_toString o = s
  | None => True
  end.

(** ** Strings *)

Definition is_space (a : ascii) : bool :=
  let n := nat_of_ascii a in
  ((9 <=? n) && (n <=? 13) || (n =? 32))%nat.

Fixpoint trim_start (l : list ascii) : list ascii :=
  match l with
  | a :: r => if is_space a then trim_start r else l
  | [] => []
  end.

(** [String.prototype.trim] *)
Definition String_trim (s : string) : string :=
  string_of_list_ascii
    (rev (trim_start (rev (trim_start (list_ascii_of_string s))))).

(** ** Values of a request body *)

(** A value of a JSON body that a handler uses as a number: a JSON number,
    an integer like every quantity of the model, or a JSON string. *)
Inductive JSValue :=
| VNumber (n : Z)
| VString (s : string).

(** A Number as far as the handlers tell Numbers apart, which they do by
    comparing with an integer and by [Number.isInteger]: NaN, an integer, a
    Number strictly between [n] and [n + 1], or an infinity. *)
Inductive Numeric :=
| NNaN
| NInt (n : Z)
| NBetween (n : Z)
| NInfinity (negative : bool).

(** [x < k], [x > k] and [x <= k] for an integer [k]; a comparison with NaN
    is false. *)
Definition Numeric_ltb (x : Numeric) (k : Z) : bool :=
  match x with
  | NNaN => false
  | NInt n => n <? k
  | NBetween n => n <? k
  | NInfinity negative => negative
  end.

Definition Numeric_gtb (x : Numeric) (k : Z) : bool :=
  match x with
  | NNaN => false
  | NInt n => k <? n
  | NBetween n => k <=? n
  | NInfinity negative => negb negative
  end.

Definition Numeric_leb (x : Numeric) (k : Z) : bool :=
  match x with
  | NNaN => false
  | NInt n => n <=? k
  | NBetween n => n <? k
  | NInfinity negative => negative
  end.

Definition isNaN (x : Numeric) : bool :=
  match x with NNaN => true | _ => false end.

(** [Number.isInteger] *)
Definition Number_isInteger (x : Numeric) : bool :=
  match x with NInt _ => true | _ => false end.

(** The double nearest to [a / b] for positive [a] and [b], a tie going to
    the even one: the quotient is taken to 64 bits or more, a bit is added
    that says whether anything was left, and the result is rounded to a
    double. *)
Definition nearest_double (negative : bool) (a b : Z) : spec_float :=
  let s := Z.max 0 (Z.log2 b - Z.log2 a + 64) in
  let m := 2 * (a * 2 ^ s / b) + (if a * 2 ^ s mod b =? 0 then 0 else 1) in
  binary_normalize prec emax (if negative then - m else m) (- s - 1) false.

Definition Numeric_of_double (x : spec_float) : Numeric :=
  match x with
  | S754_zero _ => NInt 0
  | S754_infinity negative => NInfinity negative
  | S754_nan => NNaN
  | S754_finite negative m e =>
    let v := if negative then Z.neg m else Z.pos m in
    if 0 <=? e then NInt (v * 2 ^ e)
    else if v mod 2 ^ (- e) =? 0 then NInt (v / 2 ^ (- e))
    else NBetween (v / 2 ^ (- e))
  end.

(** The Number that the numeral [m * 10^e] is read as, for [0 <= m]. *)
Definition decimal_Number (negative : bool) (m e : Z) : Numeric :=
  if m =? 0 then NInt 0
  else if 0 <=? e then Numeric_of_double (nearest_double negative (m * 10 ^ e) 1)
  else Numeric_of_double (nearest_double negative m (10 ^ (- e))).

Definition is_digit (a : ascii) : bool :=
  let n := nat_of_ascii a in
  ((48 <=? n) && (n <=? 57))%nat.

(** The decimal digits at the head of the text, and what follows them. *)
Fixpoint span_digits (l : list ascii) : list ascii * list ascii :=
  match l with
  | a :: r =>
    if is_digit a then let '(ds, rest) := span_digits r in (a :: ds, rest)
    else ([], l)
  | [] => ([], [])
  end.

Definition digits_value (ds : list ascii) : Z :=
  fold_left (λ acc a, 10 * acc + (Z.of_nat (nat_of_ascii a) - 48)) ds 0.

(** The sign in front of a numeral. *)
Definition take_sign (l : list ascii) : bool * list ascii :=
  match l with
  | "-"%char :: r => (true, r)
  | "+"%char :: r => (false, r)
  | _ => (false, l)
  end.

(** What is left after the digits of a decimal numeral: nothing, or an
    exponent part, [e] or [E], a sign if any, and digits. *)
Definition exponent_part (l : list ascii) : option Z :=
  match l with
  | [] => Some 0
  | a :: r =>
    if bool_decide (a = "e"%char ∨ a = "E"%char) then
      let '(negative, r) := take_sign r in
      match span_digits r with
      | (d :: ds, []) =>
        Some (if negative then - digits_value (d :: ds) else digits_value (d :: ds))
      | _ => None
      end
    else None
  end.

(** A decimal numeral: a sign if any, then [Infinity], or digits with a
    point somewhere and an exponent part if any. *)
Definition StrDecimalLiteral (l : list ascii) : Numeric :=
  let '(negative, l) := take_sign l in
  if bool_decide (l = list_ascii_of_string "Infinity") then NInfinity negative
  else
    let '(int_part, r1) := span_digits l in
    let '(frac_part, r2) :=
      match r1 with
      | "."%char :: r => span_digits r
      | _ => ([], r1)
      end in
    match int_part ++ frac_part, exponent_part r2 with
    | d :: ds, Some e =>
      decimal_Number negative (digits_value (d :: ds))
        (e - Z.of_nat (length frac_part))
    | _, _ => NNaN
    end.

(** A numeral in base 16, 8 or 2: one digit or more, no sign. *)
Definition radix_Number (base : N) (l : list ascii) : Numeric :=
  let digit a :=
    d ← HexString.ascii_to_digit a; if (d <? base)%N then Some d else None in
  match l with
  | [] => NNaN
  | _ =>
    match fold_left (λ acc a, n ← acc; d ← digit a; Some (base * n + d)%N)
                    l (Some 0%N) with
    | Some n => decimal_Number false (Z.of_N n) 0
    | None => NNaN
    end
  end.

(** [Number(s)] for a string: white space around the numeral is dropped
    (the white space of [String_trim], that of ASCII), the empty string is
    0, a numeral is read as the nearest double, and a string that is no
    numeral is NaN. *)
Definition StringToNumber (s : string) : Numeric :=
  match list_ascii_of_string (String_trim s) with
  | [] => NInt 0
  | "0"%char :: c :: r =>
    if bool_decide (c = "x"%char ∨ c = "X"%char) then radix_Number 16 r
    else if bool_decide (c = "o"%char ∨ c = "O"%char) then radix_Number 8 r
    else if bool_decide (c = "b"%char ∨ c = "B"%char) then radix_Number 2 r
    else StrDecimalLiteral ("0"%char :: c :: r)
  | l => StrDecimalLiteral l
  end.

(** [Number(v)] *)
Definition ToNumber (v : JSValue) : Numeric :=
  match v with
  | VNumber n => NInt n
  | VString s => StringToNumber s
  end.

(** [v] under [if (v)]: 0 and the empty string are falsy. *)
Definition truthy (v : JSValue) : bool :=
  match v with
  | VNumber n => negb (n =? 0)
  | VString s => negb (String.eqb s "")
  end.

(** [`${v}`]; a quantity of the model prints in decimal digits, as a Number
    below 10^21 does. *)
Definition ToString (v : JSValue) : string :=
  match v with
  | VNumber n => pretty n
  | VString s => s
  end.

(** [n + v] for a Number [n]: the sum with a Number, and with a string the
    digits of [n] followed by the string. *)
Definition js_add (n : Z) (v : JSValue) : JSValue :=
  match v with
  | VNumber m => VNumber (n + m)
  | VString s => VString (pretty n +:+ s)
  end.

(** What Mongoose throws: a CastError where a value cannot be cast to the
    type of the path, a ValidationError where [save] refuses the value of a
    path. *)
Inductive MongooseError :=
| CastError (kind : string) (value : JSValue) (path : string)
| ValidationError (path : string) (value : JSValue).

Section Shop.
Context {num : Type} `{JSNumber num}.
Set Default Proof Using "Type".

(** models/Product.js *)
Record Product := mkProduct {
  p_name : string;
  p_description : string;
  p_price : num;
  p_category : string;
  p_image : string;
  p_stock : Z;
  p_createdAt : Z;
  p_updatedAt : Z
}.

(** Modelled from the spec: models/Cart.js is not among the sources; a cart
    belongs to one user and holds an ordered list of lines, each a product
    reference and an integer quantity.  The line identifier is the
    subdocument [_id] the handlers look lines up by. *)
Record CartItem := mkCartItem {
  ci_id : ObjectId;
  ci_product : ObjectId;
  ci_quantity : Z
}.

Record Cart := mkCart {
  c_id : ObjectId;
  c_user : ObjectId;
  c_items : list CartItem
}.

(** Modelled from the spec: models/User.js is not among the sources; a user
    has an identifier, a unique username, a password hash and a role. *)
Record User := mkUser {
  u_id : ObjectId;
  u_username : string;
  u_password : string;
  u_role : string
}.

(** models/Order.js, the fields the checkout flow could fill in. *)
Record OrderItem := mkOrderItem {
  oi_product : ObjectId;
  oi_name : string;
  oi_price : num;
  oi_quantity : Z
}.

Record Order := mkOrder {
  o_user : ObjectId;
  o_items : list OrderItem;
  o_totalAmount : num;
  o_orderStatus : string;
  o_paymentStatus : string;
  o_stripeSessionId : option string
}.

(** One entry of the in-memory [accountLockouts] map of routes/authRoutes.js. *)
Record LockoutInfo := mkLockoutInfo {
  attempts : Z;
  lockedUntil : Z
}.

(** The argument of [stripe.checkout.sessions.create]. *)
Record LineItem := mkLineItem {
  li_name : string;
  li_description : string;
  li_unit_amount : num;
  li_quantity : Z
}.

Record SessionData := mkSessionData {
  sd_line_items : list LineItem;
  sd_userId : ObjectId;
  sd_cartId : ObjectId;
  sd_itemCount : nat;
  sd_success_url : string;
  sd_cancel_url : string;
  sd_expires_at : Z;
  sd_customer_email : option string
}.

(** A checkout session as the payment processor returns it. *)
Record StripeSession := mkStripeSession {
  ss_id : string;
  ss_url : string;
  ss_payment_status : string;
  ss_metadata_userId : ObjectId;
  ss_metadata_cartId : ObjectId;
  ss_amount_total : num;
  ss_currency : string
}.

(** ** The world the handlers run in *)

Record World := mkWorld {
  users : list User;
  products : gmap ObjectId Product;
  carts : list Cart;
  orders : list Order;
  accountLockouts : gmap string LockoutInfo;
  stripe_create_calls : list SessionData;
  oid_counter : ObjectId
}.

Definition set_users (us : list User) (w : World) : World :=
  mkWorld us (products w) (carts w) (orders w) (accountLockouts w)
          (stripe_create_calls w) (oid_counter w).

Definition set_products (ps : gmap ObjectId Product) (w : World) : World :=
  mkWorld (users w) ps (carts w) (orders w) (accountLockouts w)
          (stripe_create_calls w) (oid_counter w).

Definition set_carts (cs : list Cart) (w : World) : World :=
  mkWorld (users w) (products w) cs (orders w) (accountLockouts w)
          (stripe_create_calls w) (oid_counter w).

Definition set_accountLockouts (m : gmap string LockoutInfo) (w : World) : World :=
  mkWorld (users w) (products w) (carts w) (orders w) m
          (stripe_create_calls w) (oid_counter w).

Definition set_stripe_create_calls (l : list SessionData) (w : World) : World :=
  mkWorld (users w) (products w) (carts w) (orders w) (accountLockouts w)
          l (oid_counter w).

(** A new document or subdocument takes the next ObjectId. *)
Definition new_ObjectId (w : World) : ObjectId * World :=
  (oid_counter w,
   mkWorld (users w) (products w) (carts w) (orders w) (accountLockouts w)
           (stripe_create_calls w) (N.succ (oid_counter w))).

(** ** Responses *)

(** A line of the cart as [getCart] returns it. *)
Record CartItemView := mkCartItemView {
  v_id : ObjectId;
  v_productId : ObjectId;
  v_name : string;
  v_price : num;
  v_quantity : Z;
  v_image : string;
  v_stock : Z;
  v_category : string;
  v_description : string
}.

(** One entry of [stockUpdates] in the payment-success response. *)
Record StockUpdate := mkStockUpdate {
  su_productId : ObjectId;
  su_productName : string;
  su_quantityPurchased : Z;
  su_previousStock : Z;
  su_newStock : Z
}.

(** The JSON bodies the handlers send, one constructor per shape;
    [JCaught err fallback] is [{ error: err.message || fallback }] for an
    error thrown by Mongoose. *)
Inductive Body :=
| JError (error : string)
| JErrorMessage (error message : string)
| JErrorIssues (error : string) (issues : list string)
| JErrorDetails (error : string) (details : list string)
| JMessage (message : string)
| JItemAdded (message : string) (cartId : ObjectId) (itemCount : nat)
| JCartItems (cartItems : list CartItemView)
| JItemUpdated (message : string) (itemId : ObjectId) (newQuantity : JSValue)
| JSummary (totalItems : Z) (totalPrice : num) (itemCount : nat)
           (cartId : option ObjectId)
| JCheckout (url sessionId message : string) (issues : option (list string))
| JPaid (message sessionId orderId : string)
        (stockUpdates : list StockUpdate) (itemsProcessed : nat)
        (totalAmount : num) (currency : string)
| JRegistered (message : string) (userId : ObjectId) (role : string)
| JLoggedIn (message token role : string) (userId : ObjectId)
            (username : string)
| JProductUpdated (message : string) (product : Product)
| JCaught (err : MongooseError) (fallback : string).

Record Response := mkResponse {
  status : Z;
  json : Body
}.

(** [res.json(body)] without [res.status] answers 200. *)
Definition res_json (b : Body) : Response := mkResponse 200 b.

(** ** External collaborators *)

(** The collaborators outside the repository, by their contracts: password
    hashing, token signing, the validation Mongoose runs from the User
    schema on [save] ([Some msg] is a ValidationError), the payment
    processor's session calls ([inl msg] is a thrown error) and the URL
    parser behind [new URL(v)]. *)
Variable bcrypt_hashSync : string → Z → string.
Variable bcrypt_compareSync : string → string → bool.
Variable jwt_sign : ObjectId → string → string → string.
Variable User_validate : User → option string.
Variable stripe_sessions_create : SessionData → string + StripeSession.
Variable stripe_sessions_retrieve : string → string + StripeSession.
Variable URL_valid : string → bool.

(** ** Cart controller (controllers/cartController.js) *)

(** [Cart.findOne({ _id: cartId, user: userId })] when the request names a
    cart, [Cart.findOne({ user: userId })] otherwise; the index is where
    [save] writes the document back. *)
Definition Cart_findOne (cartId : option ObjectId) (userId : ObjectId)
    (cs : list Cart) : option (nat * Cart) :=
  match cartId with
  | Some cid => list_find (λ c, c_id c = cid ∧ c_user c = userId) cs
  | None => list_find (λ c, c_user c = userId) cs
  end.

(** [Cart.findOne({ "items._id": id, user: userId })] *)
Definition Cart_findOne_item (id userId : ObjectId) (cs : list Cart)
    : option (nat * Cart) :=
  list_find (λ c, Exists (λ it, ci_id it = id) (c_items c) ∧ c_user c = userId) cs.

(** [cart.items.findIndex(item => item.product.toString() === productId)],
    for the string [productId] of the body *)
Definition findIndex_product (productId : string) (its : list CartItem)
    : option (nat * CartItem) :=
  list_find (λ it, ObjectId_toString (ci_product it) = productId) its.

(** [cart.items.id(id)] *)
Definition items_id (id : ObjectId) (its : list CartItem)
    : option (nat * CartItem) :=
  list_find (λ it, ci_id it = id) its.

Definition set_quantity (q : Z) (it : CartItem) : CartItem :=
  mkCartItem (ci_id it) (ci_product it) q.

Definition set_items (its : list CartItem) (c : Cart) : Cart :=
  mkCart (c_id c) (c_user c) its.

(** [cart.save()]: a document loaded from slot [i] is written back there, a
    document made by [new Cart] is inserted. *)
Definition Cart_save (slot : option nat) (c : Cart) (w : World) : World :=
  match slot with
  | Some i => set_carts (<[i := c]> (carts w)) w
  | None => set_carts (carts w ++ [c]) w
  end.

(** A string-valued field or variable under [if (x)]: [undefined] and the
    empty string are falsy. *)
Definition truthy_str (o : option string) : option string :=
  match o with
  | Some "" => None
  | _ => o
  end.

(** Modelled from the spec: models/Cart.js is not among the sources; the
    specification gives the quantity of a line as an integer of at least 1.
    The value assigned to [quantity] is cast with [Number(v)] when it is a
    string, and [save] throws when what comes out is not such an integer. *)
Definition Cart_quantity (v : JSValue) : option Z :=
  match ToNumber v with
  | NInt q => if 1 <=? q then Some q else None
  | _ => None
  end.

(** The body of a request to the cart routes. *)
Record AddToCartBody := mkAddToCartBody {
  add_cartId : option ObjectId;
  add_productId : option string;
  add_quantity : option JSValue
}.

Definition addToCart (userId : ObjectId) (body : AddToCartBody) (w : World)
    : Response * World :=
  match truthy_str (add_productId body), add_quantity body with
  | Some productId, Some quantity =>
    if negb (truthy quantity) then
      (mkResponse 400 (JError "productId & quantity required"), w)
    else if Numeric_leb (ToNumber quantity) 0 then
      (mkResponse 400 (JError "Quantity must be greater than 0"), w)
    else
      let '(slot, cart, w1) :=
        match Cart_findOne (add_cartId body) userId (carts w) with
        | Some (i, c) => (Some i, c, w)
        | None => let '(oid, w') := new_ObjectId w in
                  (None, mkCart oid userId [], w')
        end in
      match ObjectId_cast productId with
      | None =>
        (mkResponse 500 (JCaught (CastError "ObjectId" (VString productId) "_id")
                           "Failed to add item to cart"), w1)
      | Some product_id =>
        match products w1 !! product_id with
        | None => (mkResponse 404 (JError "Product not found"), w1)
        | Some product =>
          if Numeric_gtb (ToNumber quantity) (p_stock product) then
            (mkResponse 400 (JError ("Insufficient stock. Only "
               +:+ pretty (p_stock product) +:+ " items available")), w1)
          else
            match findIndex_product productId (c_items cart) with
            | Some (existingItemIndex, existing) =>
              let newQuantity := js_add (ci_quantity existing) quantity in
              if Numeric_gtb (ToNumber newQuantity) (p_stock product) then
                (mkResponse 400 (JError ("Cannot add " +:+ ToString quantity
                   +:+ " more items. Maximum " +:+ pretty (p_stock product)
                   +:+ " available")), w1)
              else
                match Cart_quantity newQuantity with
                | None =>
                  (mkResponse 500 (JCaught (ValidationError "quantity" newQuantity)
                                     "Failed to add item to cart"), w1)
                | Some q =>
                  let cart' := set_items (<[existingItemIndex :=
                                 set_quantity q existing]> (c_items cart)) cart in
                  (res_json (JItemAdded "Item added to cart" (c_id cart')
                               (length (c_items cart'))),
                   Cart_save slot cart' w1)
                end
            | None =>
              let '(lid, w2) := new_ObjectId w1 in
              match Cart_quantity quantity with
              | None =>
                (mkResponse 500 (JCaught (ValidationError "quantity" quantity)
                                   "Failed to add item to cart"), w2)
              | Some q =>
                let cart' :=
                  set_items (c_items cart ++ [mkCartItem lid product_id q]) cart in
                (res_json (JItemAdded "Item added to cart" (c_id cart')
                             (length (c_items cart'))),
                 Cart_save slot cart' w2)
              end
            end
        end
      end
  | _, _ => (mkResponse 400 (JError "productId & quantity required"), w)
  end.

(** [.populate("items.product")]: each line joined with the product it
    refers to, [None] when that product no longer exists. *)
Definition populate (ps : gmap ObjectId Product) (its : list CartItem)
    : list (CartItem * option Product) :=
  (λ it, (it, ps !! ci_product it)) <$> its.

(** [items.filter(item => item.product)] *)
Definition validItems_of (pop : list (CartItem * option Product))
    : list (CartItem * Product) :=
  omap (λ x, match x.2 with Some p => Some (x.1, p) | None => None end) pop.

(** [a || b] on strings: the empty string is falsy. *)
Definition str_or (a b : string) : string :=
  match a with "" => b | _ => a end.

Definition cartItem_view (x : CartItem * Product) : CartItemView :=
  mkCartItemView (ci_id x.1) (ci_product x.1) (p_name x.2) (p_price x.2)
    (ci_quantity x.1) (str_or (p_image x.2) "") (p_stock x.2)
    (p_category x.2) (p_description x.2).

Definition getCart (userId : ObjectId) (cartId : option ObjectId) (w : World)
    : Response * World :=
  match Cart_findOne cartId userId (carts w) with
  | None => (res_json (JCartItems []), w)
  | Some (i, cart) =>
    let validItems := validItems_of (populate (products w) (c_items cart)) in
    let w' :=
      if bool_decide (length validItems ≠ length (c_items cart))
      then Cart_save (Some i) (set_items (validItems.*1) cart) w
      else w in
    (res_json (JCartItems (cartItem_view <$> validItems)), w')
  end.

Definition updateCartItem (userId id : ObjectId) (quantity : option JSValue)
    (w : World) : Response * World :=
  match quantity with
  | None => (mkResponse 400 (JError "Valid quantity required"), w)
  | Some quantity =>
    if negb (truthy quantity) || Numeric_ltb (ToNumber quantity) 1 then
      (mkResponse 400 (JError "Valid quantity required"), w)
    else
      match Cart_findOne_item id userId (carts w) with
      | None => (mkResponse 404 (JError "Cart item not found"), w)
      | Some (i, cart) =>
        match items_id id (c_items cart) with
        | None => (mkResponse 404 (JError "Item not found"), w)
        | Some (j, item) =>
          match products w !! ci_product item with
          | None => (mkResponse 404 (JError "Product no longer available"), w)
          | Some product =>
            if Numeric_gtb (ToNumber quantity) (p_stock product) then
              (mkResponse 400 (JError ("Insufficient stock. Only "
                 +:+ pretty (p_stock product) +:+ " items available")), w)
            else
              match Cart_quantity quantity with
              | None =>
                (mkResponse 500 (JCaught (ValidationError "quantity" quantity)
                                   "Failed to update cart item"), w)
              | Some q =>
                (res_json (JItemUpdated "Cart item updated successfully" id quantity),
                 Cart_save (Some i)
                   (set_items (<[j := set_quantity q item]> (c_items cart)) cart) w)
              end
          end
        end
      end
  end.

Definition getCartSummary (userId : ObjectId) (w : World) : Response * World :=
  match Cart_findOne None userId (carts w) with
  | None => (res_json (JSummary 0 (num_of_Z 0) 0 None), w)
  | Some (_, cart) =>
    let validItems := validItems_of (populate (products w) (c_items cart)) in
    let totalItems :=
      fold_left (λ sum item, sum + ci_quantity item.1) validItems 0 in
    let totalPrice :=
      fold_left (λ sum item,
                   num_add sum (num_mul (p_price item.2) (num_of_Z (ci_quantity item.1))))
                validItems (num_of_Z 0) in
    (res_json (JSummary totalItems
                 (num_div (Math_round (num_mul totalPrice (num_of_Z 100)))
                          (num_of_Z 100))
                 (length validItems) (Some (c_id cart))), w)
  end.


(** ** Payment controller (controllers/paymentController.js) *)

(** [process.env], the variables the payment controller reads. *)
Record Env := mkEnv {
  STRIPE_SECRET_KEY : option string;
  CLIENT_URL : option string
}.

(** The body of the [for (const item of cart.items)] loop of
    [createCheckoutSession], on the two arrays it fills. *)
Definition checkout_step (acc : list (CartItem * Product) * list string)
    (item : CartItem * option Product) : list (CartItem * Product) * list string :=
  let '(validItems, issues) := acc in
  match item.2 with
  | None => (validItems, issues ++ ["Product not found for cart item"])
  | Some product =>
    if p_stock product <? ci_quantity item.1 then
      if p_stock product =? 0 then
        (validItems, issues ++ [p_name product +:+ " is out of stock"])
      else
        (validItems ++ [(set_quantity (p_stock product) item.1, product)],
         issues ++ ["Only " +:+ pretty (p_stock product) +:+ " "
                      +:+ p_name product +:+ " available"])
    else (validItems ++ [(item.1, product)], issues)
  end.

Definition checkout_partition (pop : list (CartItem * option Product))
    : list (CartItem * Product) * list string :=
  fold_left checkout_step pop ([], []).

(** One entry of [line_items]; [parseFloat] of a Number is that Number. *)
Definition line_item (item : CartItem * Product) : LineItem :=
  mkLineItem (p_name item.2)
    (str_or (p_description item.2)
            (p_category item.2 +:+ " - Eco-friendly product"))
    (Math_round (num_mul (p_price item.2) (num_of_Z 100)))
    (ci_quantity item.1).

Definition createCheckoutSession (env : Env) (now : Z) (userId : ObjectId)
    (email : option string) (cartId : option ObjectId) (w : World)
    : Response * World :=
  match truthy_str (STRIPE_SECRET_KEY env) with
  | None => (mkResponse 500 (JError "Stripe not configured"), w)
  | Some _ =>
    match Cart_findOne cartId userId (carts w) with
    | None => (mkResponse 400 (JError "Cart is empty"), w)
    | Some (_, cart) =>
      if bool_decide (length (c_items cart) = 0%nat) then
        (mkResponse 400 (JError "Cart is empty"), w)
      else
        let '(validItems, issues) :=
          checkout_partition (populate (products w) (c_items cart)) in
        if bool_decide (length validItems = 0%nat) then
          (mkResponse 400 (JErrorIssues "No items available for checkout" issues), w)
        else
          let clientUrl :=
            match truthy_str (CLIENT_URL env) with
            | Some u => u
            | None => "http://localhost:3000"
            end in
          let sessionData :=
            mkSessionData (line_item <$> validItems) userId (c_id cart)
              (length validItems)
              (clientUrl +:+ "/success?session_id={CHECKOUT_SESSION_ID}")
              (clientUrl +:+ "/cart")
              (now / 1000 + 30 * 60)
              (truthy_str email) in
          let w' := set_stripe_create_calls (stripe_create_calls w ++ [sessionData]) w in
          match stripe_sessions_create sessionData with
          | inl msg =>
            (mkResponse 500 (JErrorMessage "Failed to create checkout session" msg), w')
          | inr session =>
            (res_json (JCheckout (ss_url session) (ss_id session)
               (if bool_decide (0 < length issues)%nat
                then "Some items were adjusted due to stock availability"
                else "Checkout session created successfully")
               (if bool_decide (0 < length issues)%nat then Some issues else None)),
             w')
          end
    end
  end.

(** [Product.findByIdAndUpdate(id, { $inc: { stock: delta }, updatedAt: now },
    { new: true })]: the updated document, [None] when there is none. *)
Definition Product_inc_stock (id : ObjectId) (delta now : Z)
    (ps : gmap ObjectId Product) : option (Product * gmap ObjectId Product) :=
  match ps !! id with
  | None => None
  | Some cur =>
    let updated := mkProduct (p_name cur) (p_description cur) (p_price cur)
                     (p_category cur) (p_image cur) (p_stock cur + delta)
                     (p_createdAt cur) now in
    Some (updated, <[id := updated]> ps)
  end.

(** The [for (const item of cart.items)] loop of [handlePaymentSuccess] over
    the lines as populated when the cart was loaded.  The second component
    is [None] when [updatedProduct.stock] throws on a missing document; the
    decrements made before that stay.  The clock is read once for the
    request. *)
Fixpoint process_stock (now : Z) (pop : list (CartItem * option Product))
    (ps : gmap ObjectId Product) (stockUpdates : list StockUpdate)
    : gmap ObjectId Product * option (list StockUpdate) :=
  match pop with
  | [] => (ps, Some stockUpdates)
  | item :: rest =>
    match item.2 with
    | Some product =>
      if p_stock product >=? ci_quantity item.1 then
        match Product_inc_stock (ci_product item.1) (- ci_quantity item.1) now ps with
        | None => (ps, None)
        | Some (updatedProduct, ps') =>
          process_stock now rest ps'
            (stockUpdates ++ [mkStockUpdate (ci_product item.1) (p_name product)
                                (ci_quantity item.1) (p_stock product)
                                (p_stock updatedProduct)])
        end
      else process_stock now rest ps stockUpdates
    | None => process_stock now rest ps stockUpdates
    end
  end.

Definition handlePaymentSuccess (now : Z) (sessionId : option string) (w : World)
    : Response * World :=
  match truthy_str sessionId with
  | None => (mkResponse 400 (JError "Session ID is required"), w)
  | Some sessionId =>
    match stripe_sessions_retrieve sessionId with
    | inl msg => (mkResponse 500 (JError msg), w)
    | inr session =>
      if negb (String.eqb (ss_payment_status session) "paid") then
        (mkResponse 400 (JError "Payment not completed"), w)
      else
        match Cart_findOne (Some (ss_metadata_cartId session))
                (ss_metadata_userId session) (carts w) with
        | None => (mkResponse 404 (JError "Cart not found"), w)
        | Some (i, cart) =>
          match process_stock now (populate (products w) (c_items cart))
                  (products w) [] with
          | (ps, None) =>
            (mkResponse 500 (JError "Cannot read properties of null (reading 'stock')"),
             set_products ps w)
          | (ps, Some stockUpdates) =>
            (res_json (JPaid "Payment successful and order processed" sessionId
                         ("ECO-" +:+ pretty now) stockUpdates (length stockUpdates)
                         (num_div (ss_amount_total session) (num_of_Z 100))
                         (ss_currency session)),
             Cart_save (Some i) (set_items [] cart) (set_products ps w))
          end
        end
    end
  end.

(** ** Auth (middleware/securityMiddleware.js, controllers/authController.js,
       routes/authRoutes.js) *)

(** [validator.isLength(str, { min, max })] *)
Definition validator_isLength (str : string) (min max : nat) : bool :=
  (min <=? String.length str)%nat && (String.length str <=? max)%nat.

Definition is_alnum (a : ascii) : bool :=
  let n := nat_of_ascii a in
  ((48 <=? n) && (n <=? 57) || (65 <=? n) && (n <=? 90)
   || (97 <=? n) && (n <=? 122))%nat.

(** [validator.isAlphanumeric(str)], the pattern [/^[0-9A-Z]+$/i] *)
Definition validator_isAlphanumeric (str : string) : bool :=
  negb (String.eqb str "") && forallb is_alnum (list_ascii_of_string str).

Record AuthBody := mkAuthBody {
  ab_username : option string;
  ab_password : option string;
  ab_role : option string
}.

(** A middleware either answers ([Some] response) or calls [next()]. *)
Definition validateAuth (body : AuthBody) : option Response :=
  match truthy_str (ab_username body), truthy_str (ab_password body) with
  | Some username, Some password =>
    if negb (validator_isLength username 3 20) then
      Some (mkResponse 400 (JError "Username must be 3-20 characters long"))
    else if negb (validator_isAlphanumeric username) then
      Some (mkResponse 400 (JError "Username must contain only letters and numbers"))
    else if negb (validator_isLength password 6 100) then
      Some (mkResponse 400 (JError "Password must be 6-100 characters long"))
    else None
  | _, _ => Some (mkResponse 400 (JError "Username and password are required"))
  end.

(** [User.findOne({ username })] *)
Definition User_findOne (username : string) (us : list User) : option (nat * User) :=
  list_find (λ u, u_username u = username) us.

Definition register (body : AuthBody) (w : World) : Response * World :=
  match truthy_str (ab_username body), truthy_str (ab_password body) with
  | Some username, Some password =>
    match User_findOne username (users w) with
    | Some _ => (mkResponse 400 (JError "Username already taken"), w)
    | None =>
      let hashed := bcrypt_hashSync password 8 in
      let '(oid, w1) := new_ObjectId w in
      let newUser :=
        mkUser oid username hashed
          (match truthy_str (ab_role body) with
           | Some role => role
           | None => "user"
           end) in
      match User_validate newUser with
      | Some msg => (mkResponse 500 (JError msg), w1)
      | None =>
        (res_json (JRegistered "User registered" (u_id newUser) (u_role newUser)),
         set_users (users w1 ++ [newUser]) w1)
      end
    end
  | _, _ => (mkResponse 400 (JError "Username & password required"), w)
  end.

(** The public route: [registerLimiter] (the rate-limiting library) aside,
    [router.post("/register", validateInput.validateAuth, register)]; no
    token is verified on the way. *)
Definition register_route (body : AuthBody) (w : World) : Response * World :=
  match validateAuth body with
  | Some r => (r, w)
  | None => register body w
  end.

Definition login (body : AuthBody) (w : World) : Response :=
  match truthy_str (ab_username body), truthy_str (ab_password body) with
  | Some username, Some password =>
    match User_findOne username (users w) with
    | None => mkResponse 401 (JError "Invalid credentials")
    | Some (_, user) =>
      if negb (bcrypt_compareSync password (u_password user)) then
        mkResponse 401 (JError "Invalid credentials")
      else
        res_json (JLoggedIn "Login successful"
                    (jwt_sign (u_id user) (u_username user) (u_role user))
                    (u_role user) (u_id user) (u_username user))
    end
  | _, _ => mkResponse 400 (JError "Username & password required")
  end.

(** [Math.ceil(x / d)] for integers [x] and [d > 0]. *)
Definition ceil_div (x d : Z) : Z := - ((- x) / d).

Definition checkAccountLockout (now : Z) (body : AuthBody)
    (m : gmap string LockoutInfo) : option Response :=
  match truthy_str (ab_username body) with
  | None => None
  | Some username =>
    match m !! username with
    | Some lockoutInfo =>
      if lockedUntil lockoutInfo >? now then
        let minutesLeft := ceil_div (lockedUntil lockoutInfo - now) (60 * 1000) in
        Some (mkResponse 423 (JErrorMessage "Account temporarily locked"
                ("Account locked due to multiple failed login attempts. Try again in "
                   +:+ pretty minutesLeft +:+ " minutes.")))
      else None
    | None => None
    end
  end.

(** [response.error] and [response.token] of a body. *)
Definition body_error (b : Body) : option string :=
  match b with
  | JError e | JErrorMessage e _ | JErrorIssues e _ | JErrorDetails e _ => Some e
  | _ => None
  end.

Definition body_token (b : Body) : option string :=
  match b with
  | JLoggedIn _ token _ _ _ => Some token
  | _ => None
  end.

(** The [res.send] that [trackFailedLogin] installs, as the update it makes
    to [accountLockouts] when the response goes out at time [now]. *)
Definition trackFailedLogin_send (username : string) (now : Z) (r : Response)
    (m : gmap string LockoutInfo) : gmap string LockoutInfo :=
  if (status r =? 401) && bool_decide (body_error (json r) = Some "Invalid credentials") then
    let lockoutInfo := default (mkLockoutInfo 0 0) (m !! username) in
    let attempts' := attempts lockoutInfo + 1 in
    let lockoutInfo' :=
      if attempts' >=? 5
      then mkLockoutInfo attempts' (now + 30 * 60 * 1000)
      else mkLockoutInfo attempts' (lockedUntil lockoutInfo) in
    <[username := lockoutInfo']> m
  else if (status r =? 200) && bool_decide (is_Some (truthy_str (body_token (json r)))) then
    delete username m
  else m.

(** [router.post("/login", loginLimiter, checkAccountLockout,
    validateInput.validateAuth, trackFailedLogin, login)], the rate-limiting
    library aside.  [now] is the clock when the lockout is checked,
    [now_sent] when the response is sent. *)
Definition login_route (now now_sent : Z) (body : AuthBody) (w : World)
    : Response * World :=
  match checkAccountLockout now body (accountLockouts w) with
  | Some r => (r, w)
  | None =>
    match validateAuth body with
    | Some r => (r, w)
    | None =>
      let r := login body w in
      match truthy_str (ab_username body) with
      | None => (r, w)
      | Some username =>
        (r, set_accountLockouts
              (trackFailedLogin_send username now_sent r (accountLockouts w)) w)
      end
    end
  end.

Record ChangePasswordBody := mkChangePasswordBody {
  currentPassword : option string;
  newPassword : option string
}.

(** The inline middleware of [router.put("/change-password", ...)]. *)
Definition changePassword_check (body : ChangePasswordBody) : option Response :=
  match truthy_str (currentPassword body), truthy_str (newPassword body) with
  | Some current, Some new =>
    if ((String.length new <? 6) || (100 <? String.length new))%nat then
      Some (mkResponse 400 (JError "New password must be 6-100 characters long"))
    else if String.eqb current new then
      Some (mkResponse 400 (JError "New password must be different from current password"))
    else None
  | _, _ =>
    Some (mkResponse 400 (JError "Current password and new password are required"))
  end.

Definition set_password (hash : string) (u : User) : User :=
  mkUser (u_id u) (u_username u) hash (u_role u).

Definition changePassword (userId : ObjectId) (body : ChangePasswordBody)
    (w : World) : Response * World :=
  match truthy_str (currentPassword body), truthy_str (newPassword body) with
  | Some current, Some new =>
    match list_find (λ u, u_id u = userId) (users w) with
    | None => (mkResponse 404 (JError "User not found"), w)
    | Some (i, user) =>
      if negb (bcrypt_compareSync current (u_password user)) then
        (mkResponse 401 (JError "Current password is incorrect"), w)
      else if (String.length new <? 6)%nat then
        (mkResponse 400 (JError "New password must be at least 6 characters long"), w)
      else
        let hashedNewPassword := bcrypt_hashSync new 8 in
        (res_json (JMessage "Password changed successfully"),
         set_users (<[i := set_password hashedNewPassword user]> (users w)) w)
    end
  | _, _ =>
    (mkResponse 400 (JError "Current password and new password are required"), w)
  end.

(** [router.put("/change-password", verifyToken, passwordChangeLimiter,
    <the check above>, changePassword)] for a request whose token
    [verifyToken] accepted as the user [userId]. *)
Definition changePassword_route (userId : ObjectId) (body : ChangePasswordBody)
    (w : World) : Response * World :=
  match changePassword_check body with
  | Some r => (r, w)
  | None => changePassword userId body w
  end.

(** ** Catalog (routes/productRoutes.js, controllers/productController.js,
       models/Product.js) *)

(** The class [[a-zA-Z0-9\s\-_.,()&]] of the product-name pattern. *)
Definition is_name_char (a : ascii) : bool :=
  is_alnum a || is_space a
  || bool_decide (a ∈ list_ascii_of_string "-_.,()&").

Definition validCategories : list string :=
  ["Eco Bags"; "Water Bottles"; "Reusable Items"; "Solar Products";
   "Organic"; "General"].

(** The fields of a product request body; [None] is [undefined]. *)
Record ProductBody := mkProductBody {
  pb_name : option string;
  pb_description : option string;
  pb_price : option num;
  pb_category : option string;
  pb_image : option string;
  pb_stock : option Z
}.

Definition validateProductData (body : ProductBody) : option Response :=
  let errors :=
    match pb_name body with
    | None => []
    | Some name =>
      if String.eqb name "" then ["Product name is required and must be a string"]
      else if ((String.length (String_trim name) <? 1)
               || (100 <? String.length (String_trim name)))%nat
      then ["Product name must be 1-100 characters long"]
      else if negb (forallb is_name_char (list_ascii_of_string (String_trim name)))
      then ["Product name contains invalid characters"]
      else []
    end ++
    match pb_description body with
    | None => []
    | Some description =>
      if String.eqb description ""
      then ["Product description is required and must be a string"]
      else if ((String.length (String_trim description) <? 1)
               || (1000 <? String.length (String_trim description)))%nat
      then ["Product description must be 1-1000 characters long"]
      else []
    end ++
    match pb_price body with
    | None => []
    | Some numPrice =>
      if num_isNaN numPrice || num_leb numPrice (num_of_Z 0)
         || num_ltb (num_of_Z 999999) numPrice
      then ["Price must be a valid number between 0.01 and 999999"]
      else []
    end ++
    match pb_stock body with
    | None => []
    | Some numStock =>
      if (numStock <? 0) || (numStock >? 999999)
      then ["Stock must be a valid integer between 0 and 999999"]
      else []
    end ++
    match pb_category body with
    | None => []
    | Some category =>
      if negb (bool_decide (category ∈ validCategories))
      then ["Category must be one of: Eco Bags, Water Bottles, Reusable Items, Solar Products, Organic, General"]
      else []
    end ++
    match pb_image body with
    | None => []
    | Some image =>
      if negb (String.eqb image "") && (5000000 <? Z.of_nat (String.length image))
      then ["Image data too large (max 5MB)"]
      else []
    end in
  if bool_decide (0 < length errors)%nat
  then Some (mkResponse 400 (JErrorDetails "Validation failed" errors))
  else None.

(** [updateData], the object [updateProduct] builds. *)
Record UpdateData := mkUpdateData {
  ud_name : option string;
  ud_description : option string;
  ud_price : option num;
  ud_category : option string;
  ud_image : option string;
  ud_stock : option Z
}.

(** The [validate] function of the [image] path of the Product schema. *)
Definition image_validator (v : string) : bool :=
  String.eqb v "" || String.prefix "data:image/" v || URL_valid v.

(** The validators of the Product schema that [runValidators: true] runs on
    the paths of an update; [Some msg] is the ValidationError raised, with
    the message of the first path that fails. *)
Definition Product_validate_update (ud : UpdateData) : option string :=
  match ud_name ud with
  | Some name =>
    if String.eqb name "" then Some "Product name is required"
    else if (100 <? String.length name)%nat
    then Some "Product name cannot exceed 100 characters" else None
  | None => None
  end ∪
  match ud_description ud with
  | Some description =>
    if String.eqb description "" then Some "Product description is required"
    else if (1000 <? String.length description)%nat
    then Some "Description cannot exceed 1000 characters" else None
  | None => None
  end ∪
  match ud_price ud with
  | Some price =>
    if negb (num_leb (num_div (num_of_Z 1) (num_of_Z 100)) price)
    then Some "Price must be greater than 0" else None
  | None => None
  end ∪
  match ud_category ud with
  | Some category =>
    if negb (bool_decide (category ∈ validCategories))
    then Some (category +:+ " is not a valid category") else None
  | None => None
  end ∪
  match ud_image ud with
  | Some image =>
    if negb (image_validator image)
    then Some "Invalid image format. Must be a valid URL or base64 string."
    else None
  | None => None
  end ∪
  match ud_stock ud with
  | Some stock => if stock <? 0 then Some "Stock cannot be negative" else None
  | None => None
  end.

(** The document after the update: a path of [updateData] is set, any
    other path is not touched. *)
Definition Product_apply (ud : UpdateData) (p : Product) : Product :=
  mkProduct (default (p_name p) (ud_name ud))
    (default (p_description p) (ud_description ud))
    (default (p_price p) (ud_price ud))
    (default (p_category p) (ud_category ud))
    (default (p_image p) (ud_image ud))
    (default (p_stock p) (ud_stock ud))
    (p_createdAt p) (p_updatedAt p).

(** The [updateData] that [updateProduct] builds from the body: [name],
    [description], [price] and [category] go in when truthy, [image] and
    [stock] when not [undefined]. *)
Definition updateData_of (body : ProductBody) : UpdateData :=
  mkUpdateData
    (String_trim <$> truthy_str (pb_name body))
    (String_trim <$> truthy_str (pb_description body))
    (match pb_price body with
     | Some price => if num_truthy price then Some price else None
     | None => None
     end)
    (truthy_str (pb_category body))
    (pb_image body)
    (pb_stock body).

Definition updateProduct (id : ObjectId) (body : ProductBody) (w : World)
    : Response * World :=
  if match pb_price body with
     | Some price => num_truthy price && num_leb price (num_of_Z 0)
     | None => false
     end
  then (mkResponse 400 (JError "Price must be greater than 0"), w)
  else if match pb_stock body with
          | Some stock => negb (stock =? 0) && (stock <? 0)
          | None => false
          end
  then (mkResponse 400 (JError "Stock cannot be negative"), w)
  else
    let updateData := updateData_of body in
    match Product_validate_update updateData with
    | Some msg => (mkResponse 400 (JError msg), w)
    | None =>
      match products w !! id with
      | None => (mkResponse 404 (JError "Product not found"), w)
      | Some p =>
        let product := Product_apply updateData p in
        (res_json (JProductUpdated "Product updated successfully" product),
         set_products (<[id := product]> (products w)) w)
      end
    end.

(** [router.put("/:id", verifyToken, isAdmin, adminProductLimiter,
    validateObjectId, validateProductData, updateProduct)] for a request
    that passed the token, role and rate checks and names a well-formed id. *)
Definition updateProduct_route (id : ObjectId) (body : ProductBody) (w : World)
    : Response * World :=
  match validateProductData body with
  | Some r => (r, w)
  | None => updateProduct id body w
  end.

(** ** Sequences of cart operations and the stock bound *)

(** The value, read as a Number, is greater than [k]; is less than [k]. *)
Definition exceeds (v : JSValue) (k : Z) : Prop :=
  Numeric_gtb (ToNumber v) k = true.

Definition below (v : JSValue) (k : Z) : Prop :=
  Numeric_ltb (ToNumber v) k = true.

(** The cart [addToCart] works on: the cart it finds, or a new one. *)
Definition cart_of_add (userId : ObjectId) (body : AddToCartBody) (w : World)
    : Cart :=
  match Cart_findOne (add_cartId body) userId (carts w) with
  | Some (_, c) => c
  | None => mkCart (oid_counter w) userId []
  end.

(** The value [addToCart] assigns to the quantity of the line, for a
    request that names no cart: the quantity asked added by [+] to the
    quantity of the line found under the text of the product id, or the
    quantity asked where no line is found. *)
Definition quantity_assigned (userId : ObjectId) (productId : string)
    (quantity : JSValue) (w : World) : JSValue :=
  match Cart_findOne None userId (carts w) with
  | Some (_, c) =>
    match findIndex_product productId (c_items c) with
    | Some (_, line) => js_add (ci_quantity line) quantity
    | None => quantity
    end
  | None => quantity
  end.

Inductive CartOp :=
| OpAdd (userId : ObjectId) (body : AddToCartBody)
| OpUpdate (userId id : ObjectId) (quantity : option JSValue).

Definition cart_step (w : World) (op : CartOp) : Response * World :=
  match op with
  | OpAdd userId body => addToCart userId body w
  | OpUpdate userId id quantity => updateCartItem userId id quantity w
  end.

Fixpoint cart_run (w : World) (ops : list CartOp) : World :=
  match ops with
  | [] => w
  | op :: rest => cart_run (cart_step w op).2 rest
  end.

(** No line of the cart asks for more than the stock of its product. *)
Definition within_stock (ps : gmap ObjectId Product) (c : Cart) : Prop :=
  ∀ it p, it ∈ c_items c → ps !! ci_product it = Some p →
          ci_quantity it ≤ p_stock p.

Definition carts_within_stock (w : World) : Prop :=
  Forall (within_stock (products w)) (carts w).

(** ** The lines of a cart whose product still exists *)

Definition line_exists (ps : gmap ObjectId Product) (it : CartItem) : Prop :=
  is_Some (ps !! ci_product it).

(** The lines of a cart that still have a product, in the order of the cart. *)
Definition kept_lines (ps : gmap ObjectId Product) (its : list CartItem)
    : list CartItem :=
  filter (line_exists ps) its.

(** A line as [getCart] shows it, when its product exists. *)
Definition line_view (ps : gmap ObjectId Product) (it : CartItem)
    : option CartItemView :=
  p ← ps !! ci_product it; Some (cartItem_view (it, p)).

(** ** The totals of a cart *)

(** What a line contributes to the price of the cart, when its product
    exists: the product's price times the quantity of the line. *)
Definition line_amount (ps : gmap ObjectId Product) (it : CartItem) : option num :=
  p ← ps !! ci_product it; Some (num_mul (p_price p) (num_of_Z (ci_quantity it))).

(** The sum of a list of Numbers, added up from the left, starting at 0. *)
Definition sum_num (l : list num) : num := fold_left num_add l (num_of_Z 0).

Definition sum_Z (l : list Z) : Z := foldr Z.add 0 l.

(** [Math.round(x * 100) / 100] *)
Definition round2 (x : num) : num :=
  num_div (Math_round (num_mul x (num_of_Z 100))) (num_of_Z 100).

(** ** The checkout partition, line by line *)

(** What the loop of [createCheckoutSession] pushes to [validItems] for one
    populated line, and what it pushes to [issues]. *)
Definition retained_line (item : CartItem * option Product)
    : option (CartItem * Product) :=
  match item.2 with
  | None => None
  | Some product =>
    if p_stock product <? ci_quantity item.1 then
      if p_stock product =? 0 then None
      else Some (set_quantity (p_stock product) item.1, product)
    else Some (item.1, product)
  end.

Definition advisory (item : CartItem * option Product) : option string :=
  match item.2 with
  | None => Some "Product not found for cart item"
  | Some product =>
    if p_stock product <? ci_quantity item.1 then
      if p_stock product =? 0 then Some (p_name product +:+ " is out of stock")
      else Some ("Only " +:+ pretty (p_stock product) +:+ " "
                   +:+ p_name product +:+ " available")
    else None
  end.

(** ** What a confirmed payment takes from the stock *)

(** The test a line passes before [handlePaymentSuccess] decrements the
    stock of its product: the product exists and its stock, as read when
    the cart was loaded, covers the quantity. *)
Definition stock_covers (ps : gmap ObjectId Product) (it : CartItem) : bool :=
  match ps !! ci_product it with
  | Some p => p_stock p >=? ci_quantity it
  | None => false
  end.

(** The units a checkout bills for the product [id]: the quantities of the
    lines of that product that the loop keeps, clamped where it clamps,
    added up. *)
Definition billed (ps : gmap ObjectId Product) (its : list CartItem)
    (id : ObjectId) : Z :=
  sum_Z ((λ x : CartItem * Product, ci_quantity x.1)
           <$> filter (λ x : CartItem * Product, ci_product x.1 = id)
                 (omap retained_line (populate ps its))).

(** The lines of the cart that are charged to the product [id]. *)
Definition charged_lines (ps : gmap ObjectId Product) (its : list CartItem)
    (id : ObjectId) : list CartItem :=
  filter (λ it, ci_product it = id ∧ stock_covers ps it = true) its.

Definition charged (ps : gmap ObjectId Product) (its : list CartItem)
    (id : ObjectId) : Z :=
  sum_Z (ci_quantity <$> charged_lines ps its id).

(** Two product documents that differ in stock and update time only. *)
Definition same_product (p p' : Product) : Prop :=
  p_name p' = p_name p ∧ p_description p' = p_description p
  ∧ p_price p' = p_price p ∧ p_category p' = p_category p
  ∧ p_image p' = p_image p ∧ p_createdAt p' = p_createdAt p.

(** ** Login attempts over time *)

(** A login request with the two readings of the clock made for it. *)
Record LoginAttempt := mkLoginAttempt {
  la_now : Z;
  la_now_sent : Z;
  la_body : AuthBody
}.

Definition login_attempt (w : World) (a : LoginAttempt) : Response * World :=
  login_route (la_now a) (la_now_sent a) (la_body a) w.

(** A sequence of login requests, handled one after the other. *)
Fixpoint login_run (w : World) (tr : list LoginAttempt) : list Response * World :=
  match tr with
  | [] => ([], w)
  | a :: rest =>
    let '(r, w1) := login_attempt w a in
    let '(rs, w2) := login_run w1 rest in
    (r :: rs, w2)
  end.

(** The request is for the username [u]. *)
Definition for_user (u : string) (a : LoginAttempt) : bool :=
  bool_decide (truthy_str (ab_username (la_body a)) = Some u).

(** The times at which the requests for [u] of a run were answered 401. *)
Definition failure_times (u : string) (tr : list LoginAttempt) (rs : list Response)
    : list Z :=
  omap (λ ar : LoginAttempt * Response,
          if for_user u ar.1 && (status ar.2 =? 401)
          then Some (la_now_sent ar.1) else None)
       (zip tr rs).

(** No request for [u] of the run was answered 200. *)
Definition no_success (u : string) (tr : list LoginAttempt) (rs : list Response)
    : Prop :=
  Forall (λ ar : LoginAttempt * Response,
            for_user u ar.1 = true → status ar.2 ≠ 200)
         (zip tr rs).

(** The entry of a username after one more failed login at time [now]. *)
Definition record_failure (now : Z) (e : option LockoutInfo) : LockoutInfo :=
  let lockoutInfo := default (mkLockoutInfo 0 0) e in
  if attempts lockoutInfo + 1 >=? 5
  then mkLockoutInfo (attempts lockoutInfo + 1) (now + 30 * 60 * 1000)
  else mkLockoutInfo (attempts lockoutInfo + 1) (lockedUntil lockoutInfo).

Definition after_failures (e : option LockoutInfo) (times : list Z)
    : option LockoutInfo :=
  fold_left (λ e now, Some (record_failure now e)) times e.

(** What one answered request does to the entry of [u]. *)
Definition entry_step (u : string) (e : option LockoutInfo)
    (ar : LoginAttempt * Response) : option LockoutInfo :=
  if for_user u ar.1 then
    if status ar.2 =? 401 then Some (record_failure (la_now_sent ar.1) e)
    else if status ar.2 =? 200 then None
    else e
  else e.

(** The failure count of an entry; a username without entry has none. *)
Definition attempts_of (e : option LockoutInfo) : Z :=
  attempts (default (mkLockoutInfo 0 0) e).

(** ** A product after a partial update *)

(** The product with the fields of the body put in: name and description
    trimmed, the rest as supplied; a field the body does not have keeps
    the stored value. *)
Definition patched (body : ProductBody) (p : Product) : Product :=
  mkProduct (from_option String_trim (p_name p) (pb_name body))
    (from_option String_trim (p_description p) (pb_description body))
    (default (p_price p) (pb_price body))
    (default (p_category p) (pb_category body))
    (default (p_image p) (pb_image body))
    (default (p_stock p) (pb_stock body))
    (p_createdAt p) (p_updatedAt p).

(** ** The other handlers: responses *)

(** The JSON bodies of the handlers below: the shapes above, and one
    constructor for each further shape. *)
Inductive Reply :=
| RBody (b : Body)
| RCart (message : string) (cartId : ObjectId)
| RItemRemoved (message : string) (removedItemId : ObjectId) (remainingItems : nat)
| RCartDeleted (message : string) (deletedCartId : ObjectId)
| RCartEmpty (valid : bool) (message : string)
| RCartValidity (valid : bool) (totalItems validItems : nat) (totalPrice : num)
                (issues : option (list string)) (message : string)
| RAdminCreated (message username : string)
| RAvailability (available : bool) (username : string)
| RUnavailable (error : string) (available : bool)
| RProduct (id : ObjectId) (product : Product)
| RProductAdded (message : string) (product : Product) (id : ObjectId)
| RProductDeleted (message : string) (deletedId : ObjectId).

Record Answer := mkAnswer {
  a_status : Z;
  a_json : Reply
}.

Definition ans_json (b : Reply) : Answer := mkAnswer 200 b.

Definition ans_error (st : Z) (error : string) : Answer :=
  mkAnswer st (RBody (JError error)).

Definition answer_of (r : Response) : Answer :=
  mkAnswer (status r) (RBody (json r)).

(** ** Cart controller, the remaining handlers *)

Definition createCart (userId : ObjectId) (w : World) : Answer * World :=
  match Cart_findOne None userId (carts w) with
  | Some (_, existingCart) =>
    (ans_json (RCart "Cart already exists" (c_id existingCart)), w)
  | None =>
    let '(oid, w1) := new_ObjectId w in
    let cart := mkCart oid userId [] in
    (ans_json (RCart "Cart created" (c_id cart)), Cart_save None cart w1)
  end.

(** [cart.items.pull(id)] *)
Definition items_pull (id : ObjectId) (its : list CartItem) : list CartItem :=
  filter (λ it, ci_id it ≠ id) its.

Definition removeFromCart (userId id : ObjectId) (w : World) : Answer * World :=
  match Cart_findOne_item id userId (carts w) with
  | None => (ans_error 404 "Cart item not found", w)
  | Some (i, cart) =>
    match items_id id (c_items cart) with
    | None => (ans_error 404 "Item not found in cart", w)
    | Some itemToRemove =>
      let cart' := set_items (items_pull id (c_items cart)) cart in
      (ans_json (RItemRemoved "Item removed from cart successfully" id
                   (length (c_items cart'))),
       Cart_save (Some i) cart' w)
    end
  end.

Definition clearCart (userId : ObjectId) (cartId : option ObjectId) (w : World)
    : Answer * World :=
  match Cart_findOne cartId userId (carts w) with
  | None => (ans_error 404 "Cart not found", w)
  | Some (i, cart) =>
    let cart' := set_items [] cart in
    (ans_json (RCart "Cart cleared successfully" (c_id cart')),
     Cart_save (Some i) cart' w)
  end.

(** [Cart.findOneAndDelete({ _id: cartId, user: userId })] removes the first
    cart that matches. *)
Definition deleteCart (userId cartId : ObjectId) (w : World) : Answer * World :=
  match Cart_findOne (Some cartId) userId (carts w) with
  | None => (ans_error 404 "Cart not found", w)
  | Some (i, cart) =>
    (ans_json (RCartDeleted "Cart deleted successfully" cartId),
     set_carts (delete i (carts w)) w)
  end.

(** ** Cart routes (routes/cartRoutes.js) *)

(** The middleware of the cart routes.  Every route is behind [verifyToken];
    the handlers below are for a request whose token was accepted as the
    user [userId], the rate-limiting library aside.  The ids of the path
    and the [cartId] of the body are ObjectIds, which pass the pattern of
    [validateObjectId]; the [productId] of the body is a string.  The
    request body of the cart routes has the three fields of
    [AddToCartBody]. *)

(** [validateObjectId], the check of [req.body.productId] *)
Definition validateObjectId (body : AddToCartBody) : option Response :=
  match truthy_str (add_productId body) with
  | Some productId =>
    if negb (ObjectId_test productId) then
      Some (mkResponse 400 (JErrorMessage "Invalid product ID format"
                              "Please provide a valid product ID"))
    else None
  | None => None
  end.

(** [post_items] is [req.method === 'POST' && req.path === '/items']. *)
Definition validateCartData (post_items : bool) (body : AddToCartBody)
    : option Response :=
  let errors :=
    (if post_items && bool_decide (truthy_str (add_productId body) = None)
     then ["Product ID is required"] else []) ++
    match add_quantity body with
    | None => []
    | Some quantity =>
      let numQuantity := ToNumber quantity in
      if isNaN numQuantity || Numeric_ltb numQuantity 1
         || Numeric_gtb numQuantity 999 || negb (Number_isInteger numQuantity)
      then ["Quantity must be a valid integer between 1 and 999"]
      else []
    end in
  if bool_decide (0 < length errors)%nat
  then Some (mkResponse 400 (JErrorDetails "Validation failed" errors))
  else None.

Definition validateCartOwnership (userId : ObjectId) (cartId itemId : option ObjectId)
    (cs : list Cart) : option Response :=
  if match cartId with
     | Some cid => bool_decide (Cart_findOne (Some cid) userId cs = None)
     | None => false
     end
  then Some (mkResponse 403 (JErrorMessage "Access denied"
                               "You can only access your own cart"))
  else if match itemId with
          | Some id => bool_decide (Cart_findOne_item id userId cs = None)
          | None => false
          end
  then Some (mkResponse 403 (JErrorMessage "Access denied"
                               "You can only modify your own cart items"))
  else None.

Definition validateProductExists (body : AddToCartBody) (ps : gmap ObjectId Product)
    : option Response :=
  match truthy_str (add_productId body) with
  | None => None
  | Some productId =>
    match ObjectId_cast productId with
    | None =>
      Some (mkResponse 500 (JErrorMessage "Validation failed"
                              "Unable to validate product"))
    | Some product_id =>
      match ps !! product_id with
      | None =>
        Some (mkResponse 404 (JErrorMessage "Product not found"
                                "The requested product does not exist"))
      | Some product =>
        if p_stock product =? 0 then
          Some (mkResponse 400 (JErrorMessage "Product out of stock"
                  (p_name product +:+ " is currently out of stock")))
        else if match add_quantity body with
                | Some quantity =>
                  truthy quantity && Numeric_gtb (ToNumber quantity) (p_stock product)
                | None => false
                end
        then
          Some (mkResponse 400 (JErrorMessage "Insufficient stock"
                  ("Only " +:+ pretty (p_stock product) +:+ " items available for "
                     +:+ p_name product)))
        else None
      end
    end
  end.

Definition validateCartSize (post_items : bool) (userId : ObjectId)
    (body : AddToCartBody) (cs : list Cart) : option Response :=
  match Cart_findOne None userId cs with
  | Some (_, cart) =>
    if (50 <=? length (c_items cart))%nat then
      let existingItem :=
        match add_productId body with
        | Some productId => findIndex_product productId (c_items cart)
        | None => None
        end in
      if bool_decide (existingItem = None) && post_items then
        Some (mkResponse 400 (JErrorMessage "Cart limit exceeded"
                "You can have maximum 50 different items in your cart"))
      else None
    else None
  | None => None
  end.

(** [router.post("/items", cartModifyLimiter, validateObjectId,
    validateCartData, validateProductExists, validateCartSize, addToCart)] *)
Definition addToCart_route (userId : ObjectId) (body : AddToCartBody) (w : World)
    : Response * World :=
  match validateObjectId body with
  | Some r => (r, w)
  | None =>
    match validateCartData true body with
    | Some r => (r, w)
    | None =>
      match validateProductExists body (products w) with
      | Some r => (r, w)
      | None =>
        match validateCartSize true userId body (carts w) with
        | Some r => (r, w)
        | None => addToCart userId body w
        end
      end
    end
  end.

(** The inline middleware of [router.put("/items/:id", ...)]: the cart is
    looked up by the line alone, [Cart.findOne({ "items._id": id })]. *)
Definition updateCartItem_check (id : ObjectId) (body : AddToCartBody) (w : World)
    : option Response :=
  match add_quantity body with
  | None => None
  | Some quantity =>
    if negb (truthy quantity) then None
    else
      match list_find (λ c, Exists (λ it, ci_id it = id) (c_items c)) (carts w) with
      | None => None
      | Some (_, cart) =>
        match items_id id (c_items cart) with
        | None => None
        | Some (_, item) =>
          match products w !! ci_product item with
          | None => None
          | Some product =>
            if Numeric_gtb (ToNumber quantity) (p_stock product) then
              Some (mkResponse 400 (JErrorMessage "Insufficient stock"
                      ("Only " +:+ pretty (p_stock product) +:+ " items available for "
                         +:+ p_name product)))
            else None
          end
        end
      end
  end.

(** [router.put("/items/:id", cartModifyLimiter, validateObjectId,
    validateCartData, validateCartOwnership, <the check above>,
    updateCartItem)] *)
Definition updateCartItem_route (userId id : ObjectId) (body : AddToCartBody)
    (w : World) : Response * World :=
  match validateObjectId body with
  | Some r => (r, w)
  | None =>
    match validateCartData false body with
    | Some r => (r, w)
    | None =>
      match validateCartOwnership userId (add_cartId body) (Some id) (carts w) with
      | Some r => (r, w)
      | None =>
        match updateCartItem_check id body w with
        | Some r => (r, w)
        | None => updateCartItem userId id (add_quantity body) w
        end
      end
    end
  end.

(** [router.delete("/items/:id", cartModifyLimiter, validateObjectId,
    validateCartOwnership, removeFromCart)] *)
Definition removeFromCart_route (userId id : ObjectId) (body : AddToCartBody)
    (w : World) : Answer * World :=
  match validateObjectId body with
  | Some r => (answer_of r, w)
  | None =>
    match validateCartOwnership userId (add_cartId body) (Some id) (carts w) with
    | Some r => (answer_of r, w)
    | None => removeFromCart userId id w
    end
  end.

(** [router.delete("/:cartId?", cartClearLimiter, validateObjectId,
    validateCartOwnership, <confirmation>, clearCart)]: the ownership check
    reads [req.body.cartId] and [req.params.id], and this route has no
    parameter [id]; [confirmClear] is the header [x-confirm-clear]. *)
Definition clearCart_route (userId : ObjectId) (cartId : option ObjectId)
    (body : AddToCartBody) (confirmClear : option string) (w : World)
    : Answer * World :=
  match validateObjectId body with
  | Some r => (answer_of r, w)
  | None =>
    match validateCartOwnership userId (add_cartId body) None (carts w) with
    | Some r => (answer_of r, w)
    | None =>
      if negb (bool_decide (confirmClear = Some "true")) then
        (answer_of (mkResponse 400 (JErrorMessage "Confirmation required"
           "Please include X-Confirm-Clear: true header to confirm cart clearing")), w)
      else clearCart userId cartId w
    end
  end.

(** The body of the [for (const item of cart.items)] loop of
    [router.post("/validate", ...)], on the two arrays it fills. *)
Definition validate_step (acc : list string * list (CartItem * Product))
    (item : CartItem * option Product) : list string * list (CartItem * Product) :=
  let '(issues, validItems) := acc in
  match item.2 with
  | None => (issues ++ ["Product no longer exists"], validItems)
  | Some product =>
    if p_stock product =? 0 then
      (issues ++ [p_name product +:+ " is out of stock"], validItems)
    else if p_stock product <? ci_quantity item.1 then
      (issues ++ ["Only " +:+ pretty (p_stock product) +:+ " " +:+ p_name product
                    +:+ " available (you have " +:+ pretty (ci_quantity item.1)
                    +:+ ")"], validItems)
    else (issues, validItems ++ [(item.1, product)])
  end.

(** [router.post("/validate", ...)]; it reads and writes nothing back. *)
Definition validate_route (userId : ObjectId) (w : World) : Answer :=
  match Cart_findOne None userId (carts w) with
  | None => ans_json (RCartEmpty false "Cart is empty")
  | Some (_, cart) =>
    if bool_decide (length (c_items cart) = 0%nat) then
      ans_json (RCartEmpty false "Cart is empty")
    else
      let '(issues, validItems) :=
        fold_left validate_step (populate (products w) (c_items cart)) ([], []) in
      let totalPrice :=
        fold_left (λ sum item,
                     num_add sum (num_mul (p_price item.2) (num_of_Z (ci_quantity item.1))))
                  validItems (num_of_Z 0) in
      ans_json (RCartValidity (bool_decide (length issues = 0%nat))
                  (length (c_items cart)) (length validItems)
                  (num_div (Math_round (num_mul totalPrice (num_of_Z 100)))
                           (num_of_Z 100))
                  (if bool_decide (0 < length issues)%nat then Some issues else None)
                  (if bool_decide (length issues = 0%nat)
                   then "Cart is valid for checkout"
                   else "Cart has issues that need to be resolved"))
  end.

(** ** Token check (middleware/authMiddleware.js) *)

(** The payload of a token, as [login] signs it. *)
Record TokenPayload := mkTokenPayload {
  tp_id : ObjectId;
  tp_username : string;
  tp_role : string
}.

(** [jwt.verify(token, process.env.JWT_SECRET)]; [None] when it throws. *)
Variable jwt_verify : string → option TokenPayload.

(** [s.split(sep)] for a one-character separator, as the first piece and
    the pieces after it. *)
Fixpoint split_on (sep : ascii) (s : string) : string * list string :=
  match s with
  | EmptyString => (EmptyString, [])
  | String a r =>
    let '(h, t) := split_on sep r in
    if Ascii.eqb a sep then (EmptyString, h :: t) else (String a h, t)
  end.

Definition String_split (sep : ascii) (s : string) : list string :=
  (split_on sep s).1 :: (split_on sep s).2.

(** [verifyToken]: a response, or [next()] with [req.user] set. *)
Definition verifyToken (authorization : option string) : Response + TokenPayload :=
  let token :=
    match truthy_str authorization with
    | Some authHeader => String_split " " authHeader !! 1%nat
    | None => None
    end in
  match truthy_str token with
  | None => inl (mkResponse 401 (JError "Access denied. Token missing."))
  | Some token =>
    match jwt_verify token with
    | Some payload => inr payload
    | None => inl (mkResponse 403 (JError "Invalid or expired token."))
    end
  end.

(** ** Auth, the remaining handlers *)

(** [createAdmin] for a body whose [username] and [password] are strings, as
    [validateAuth] leaves them. *)
Definition createAdmin (username password : string) (w : World) : Answer * World :=
  match User_findOne username (users w) with
  | Some _ => (ans_error 400 "Admin already exists", w)
  | None =>
    let hashed := bcrypt_hashSync password 8 in
    let '(oid, w1) := new_ObjectId w in
    let admin := mkUser oid username hashed "admin" in
    match User_validate admin with
    | Some msg => (ans_error 500 msg, w1)
    | None =>
      (ans_json (RAdminCreated "Admin created successfully" (u_username admin)),
       set_users (users w1 ++ [admin]) w1)
    end
  end.

(** [router.post("/create-admin", registerLimiter, validateInput.validateAuth,
    <the environment check>, createAdmin)]; [ALLOW_ADMIN_CREATION] is the
    environment variable of that name. *)
Definition createAdmin_route (ALLOW_ADMIN_CREATION : option string)
    (body : AuthBody) (w : World) : Answer * World :=
  match validateAuth body with
  | Some r => (answer_of r, w)
  | None =>
    if negb (bool_decide (ALLOW_ADMIN_CREATION = Some "true")) then
      (answer_of (mkResponse 403 (JErrorMessage "Admin creation disabled"
         "Admin creation is not allowed in this environment")), w)
    else
      match truthy_str (ab_username body), truthy_str (ab_password body) with
      | Some username, Some password => createAdmin username password w
      | _, _ =>
        (* not reached: [validateAuth] has answered such a body *)
        (ans_error 400 "Username and password are required", w)
      end
  end.

(** [router.get("/check-username/:username", ...)]; the pattern
    [/^[a-zA-Z0-9]+$/] is the one of [validator.isAlphanumeric]. *)
Definition check_username (username : string) (w : World) : Answer :=
  if String.eqb username "" || (String.length username <? 3)%nat
     || (20 <? String.length username)%nat
  then mkAnswer 400 (RUnavailable "Invalid username format" false)
  else if negb (validator_isAlphanumeric username)
  then mkAnswer 400 (RUnavailable "Username must contain only letters and numbers" false)
  else ans_json (RAvailability (bool_decide (User_findOne username (users w) = None))
                   username).

(** ** Catalog, the remaining handlers *)

Definition getProductById (id : ObjectId) (w : World) : Answer :=
  match products w !! id with
  | None => ans_error 404 "Product not found"
  | Some product => ans_json (RProduct id product)
  end.

(** The validators of the Product schema that [save] runs on a new
    document, path by path in the order of the schema. *)
Definition Product_validate_paths (p : Product) : list string :=
  (if String.eqb (p_name p) "" then ["name: Product name is required"]
   else if (100 <? String.length (p_name p))%nat
   then ["name: Product name cannot exceed 100 characters"] else []) ++
  (if String.eqb (p_description p) ""
   then ["description: Product description is required"]
   else if (1000 <? String.length (p_description p))%nat
   then ["description: Description cannot exceed 1000 characters"] else []) ++
  (if negb (num_leb (num_div (num_of_Z 1) (num_of_Z 100)) (p_price p))
   then ["price: Price must be greater than 0"] else []) ++
  (if negb (bool_decide (p_category p ∈ validCategories))
   then ["category: " +:+ p_category p +:+ " is not a valid category"] else []) ++
  (if negb (image_validator (p_image p))
   then ["image: Invalid image format. Must be a valid URL or base64 string."]
   else []) ++
  (if p_stock p <? 0 then ["stock: Stock cannot be negative"] else []).

(** [Some msg] is the ValidationError that [save] raises. *)
Definition Product_validate (p : Product) : option string :=
  match Product_validate_paths p with
  | [] => None
  | errors => Some ("Product validation failed: " +:+ String.concat ", " errors)
  end.

(** [addProduct]; [now] is the clock when the document is made, [now_saved]
    when the [pre('save')] hook sets [updatedAt].  The schema trims [name]
    and [description] once more when the document is made. *)
Definition addProduct (now now_saved : Z) (body : ProductBody) (w : World)
    : Answer * World :=
  match truthy_str (pb_name body), truthy_str (pb_description body),
        (match pb_price body with
         | Some price => if num_truthy price then Some price else None
         | None => None
         end) with
  | Some name, Some description, Some price =>
    if num_leb price (num_of_Z 0) then
      (ans_error 400 "Price must be greater than 0", w)
    else if match pb_stock body with
            | Some stock => stock <? 0
            | None => false
            end
    then (ans_error 400 "Stock cannot be negative", w)
    else
      let '(oid, w1) := new_ObjectId w in
      let product :=
        mkProduct (String_trim (String_trim name))
          (String_trim (String_trim description))
          price
          (match truthy_str (pb_category body) with
           | Some category => category
           | None => "General"
           end)
          (match truthy_str (pb_image body) with
           | Some image => image
           | None => ""
           end)
          (default 0 (pb_stock body))
          now now_saved in
      match Product_validate product with
      | Some msg => (ans_error 400 msg, w1)
      | None =>
        (mkAnswer 201 (RProductAdded "Product added successfully" product oid),
         set_products (<[oid := product]> (products w1)) w1)
      end
  | _, _, _ => (ans_error 400 "Name, description & price are required", w)
  end.

(** [router.post("/", verifyToken, isAdmin, adminProductLimiter,
    validateProductData, addProduct)] for a request that passed the token,
    role and rate checks. *)
Definition addProduct_route (now now_saved : Z) (body : ProductBody) (w : World)
    : Answer * World :=
  match validateProductData body with
  | Some r => (answer_of r, w)
  | None => addProduct now now_saved body w
  end.

Definition deleteProduct (id : ObjectId) (w : World) : Answer * World :=
  match products w !! id with
  | None => (ans_error 404 "Product not found", w)
  | Some product =>
    (ans_json (RProductDeleted "Product deleted successfully" id),
     set_products (delete id (products w)) w)
  end.

(** [router.delete("/:id", verifyToken, isAdmin, adminProductLimiter,
    validateObjectId, <confirmation>, deleteProduct)]; [confirmDelete] is
    the header [x-confirm-delete]. *)
Definition deleteProduct_route (confirmDelete : option string) (id : ObjectId)
    (w : World) : Answer * World :=
  if negb (bool_decide (confirmDelete = Some "true")) then
    (answer_of (mkResponse 400 (JErrorMessage "Deletion confirmation required"
       "Please include X-Confirm-Delete: true header to confirm deletion")), w)
  else deleteProduct id w.

(** ** Sequences of cart requests *)

(** A request to the cart controller, by the handler it reaches. *)
Inductive CartRequest :=
| ReqCreate
| ReqAdd (body : AddToCartBody)
| ReqGet (cartId : option ObjectId)
| ReqUpdate (id : ObjectId) (quantity : option JSValue)
| ReqRemove (id : ObjectId)
| ReqClear (cartId : option ObjectId)
| ReqSummary
| ReqDelete (cartId : ObjectId).

Definition cart_request (userId : ObjectId) (req : CartRequest) (w : World)
    : Answer * World :=
  match req with
  | ReqCreate => createCart userId w
  | ReqAdd body => prod_map answer_of id (addToCart userId body w)
  | ReqGet cartId => prod_map answer_of id (getCart userId cartId w)
  | ReqUpdate itemId quantity =>
    prod_map answer_of id (updateCartItem userId itemId quantity w)
  | ReqRemove itemId => removeFromCart userId itemId w
  | ReqClear cartId => clearCart userId cartId w
  | ReqSummary => prod_map answer_of id (getCartSummary userId w)
  | ReqDelete cartId => deleteCart userId cartId w
  end.

(** Requests, each with the user who makes it, handled one after the other. *)
Definition cart_requests (w : World) (reqs : list (ObjectId * CartRequest)) : World :=
  fold_left (λ w ur, (cart_request ur.1 ur.2 w).2) reqs w.

(** The carts of a user, in the order of the collection. *)
Definition carts_of (userId : ObjectId) (cs : list Cart) : list Cart :=
  filter (λ c, c_user c = userId) cs.

(** Every line of the cart asks for at least one unit. *)
Definition quantities_ok (c : Cart) : Prop :=
  Forall (λ it, 1 ≤ ci_quantity it) (c_items c).

(** Every line of the cart asks for at least one unit, and no two lines are
    for the same product. *)
Definition lines_ok (c : Cart) : Prop :=
  quantities_ok c ∧ NoDup (ci_product <$> c_items c).

(** A request to the cart or the payment controller. *)
Inductive ShopRequest :=
| ByUser (userId : ObjectId) (req : CartRequest)
| Checkout (env : Env) (now : Z) (userId : ObjectId) (email : option string)
           (cartId : option ObjectId)
| PaymentSuccess (now : Z) (sessionId : option string).

Definition shop_request (req : ShopRequest) (w : World) : World :=
  match req with
  | ByUser userId req => (cart_request userId req w).2
  | Checkout env now userId email cartId =>
    (createCheckoutSession env now userId email cartId w).2
  | PaymentSuccess now sessionId => (handlePaymentSuccess now sessionId w).2
  end.

Definition shop_requests (w : World) (reqs : list ShopRequest) : World :=
  fold_left (λ w req, shop_request req w) reqs w.

(** The request names its product as [toString()] spells the id: in lower
    case. *)
Definition canonical_request (req : CartRequest) : Prop :=
  match req with
  | ReqAdd body => from_option canonical_id True (add_productId body)
  | _ => True
  end.

Definition canonical_shop_request (req : ShopRequest) : Prop :=
  match req with
  | ByUser _ req => canonical_request req
  | _ => True
  end.

(** What one request may do to the lines of a cart: drop some, set the
    quantity of one to a value from 1 to the stock of its product, or
    append a line with such a quantity; where [fresh] holds, a line is
    appended only for a product the cart has no line of. *)
Inductive items_step (fresh : bool) (ps : gmap ObjectId Product)
    : list CartItem → list CartItem → Prop :=
| items_dropped its its' :
    its' `sublist_of` its → items_step fresh ps its its'
| items_set its j line q p :
    its !! j = Some line → ps !! ci_product line = Some p →
    1 ≤ q ≤ p_stock p →
    items_step fresh ps its (<[j := set_quantity q line]> its)
| items_pushed its lid productId q p :
    (fresh = true → productId ∉ ci_product <$> its) →
    ps !! productId = Some p → 1 ≤ q ≤ p_stock p →
    items_step fresh ps its (its ++ [mkCartItem lid productId q]).

(** What one request may do to the collection of carts: nothing, save a
    cart of the user with its lines changed, insert a cart of the user, or
    delete one. *)
Inductive carts_step (fresh : bool) (userId : ObjectId) (ps : gmap ObjectId Product)
    : list Cart → list Cart → Prop :=
| carts_same cs : carts_step fresh userId ps cs cs
| carts_saved cs i c its' :
    cs !! i = Some c → c_user c = userId → items_step fresh ps (c_items c) its' →
    carts_step fresh userId ps cs (<[i := set_items its' c]> cs)
| carts_inserted cs oid its' :
    items_step fresh ps [] its' →
    carts_step fresh userId ps cs (cs ++ [mkCart oid userId its'])
| carts_deleted cs i c :
    cs !! i = Some c → c_user c = userId →
    carts_step fresh userId ps cs (delete i cs).

(** ** The cart check before checkout, line by line *)

(** What the loop of the [/validate] route pushes to [issues] for one
    populated line, and what it pushes to [validItems]. *)
Definition validate_issue (item : CartItem * option Product) : option string :=
  match item.2 with
  | None => Some "Product no longer exists"
  | Some product =>
    if p_stock product =? 0 then Some (p_name product +:+ " is out of stock")
    else if p_stock product <? ci_quantity item.1 then
      Some ("Only " +:+ pretty (p_stock product) +:+ " " +:+ p_name product
              +:+ " available (you have " +:+ pretty (ci_quantity item.1) +:+ ")")
    else None
  end.

Definition validate_valid (item : CartItem * option Product)
    : option (CartItem * Product) :=
  match item.2 with
  | None => None
  | Some product =>
    if p_stock product =? 0 then None
    else if p_stock product <? ci_quantity item.1 then None
    else Some (item.1, product)
  end.

(** ** Sequences of auth requests *)

(** A request to one of the auth routes that write. *)
Inductive AuthRequest :=
| AuthRegister (body : AuthBody)
| AuthLogin (now now_sent : Z) (body : AuthBody)
| AuthChangePassword (userId : ObjectId) (body : ChangePasswordBody)
| AuthCreateAdmin (ALLOW_ADMIN_CREATION : option string) (body : AuthBody).

Definition auth_request (req : AuthRequest) (w : World) : World :=
  match req with
  | AuthRegister body => (register_route body w).2
  | AuthLogin now now_sent body => (login_route now now_sent body w).2
  | AuthChangePassword userId body => (changePassword_route userId body w).2
  | AuthCreateAdmin allow body => (createAdmin_route allow body w).2
  end.

Definition auth_requests (w : World) (reqs : list AuthRequest) : World :=
  fold_left (λ w req, auth_request req w) reqs w.

(** What identifies an account: everything but the password hash. *)
Definition account (u : User) : ObjectId * string * string :=
  (u_id u, u_username u, u_role u).

(** What one request may do to the users: nothing, insert a user under a
    name that is free, or set the password hash of one. *)
Inductive users_step : list User → list User → Prop :=
| users_same us : users_step us us
| users_inserted us u :
    User_findOne (u_username u) us = None → users_step us (us ++ [u])
| users_rehashed us i u hash :
    us !! i = Some u → users_step us (<[i := set_password hash u]> us).

(** The string has no space in it. *)
Definition no_space (s : string) : Prop :=
  " "%char ∉ list_ascii_of_string s.

(** ** Sequences of catalog requests *)

(** A request to one of the admin routes of the catalog. *)
Inductive ProductRequest :=
| ProdAdd (now now_saved : Z) (body : ProductBody)
| ProdUpdate (id : ObjectId) (body : ProductBody)
| ProdDelete (confirmDelete : option string) (id : ObjectId).

Definition product_request (req : ProductRequest) (w : World) : World :=
  match req with
  | ProdAdd now now_saved body => (addProduct_route now now_saved body w).2
  | ProdUpdate id body => (updateProduct_route id body w).2
  | ProdDelete confirmDelete id => (deleteProduct_route confirmDelete id w).2
  end.

Definition product_requests (w : World) (reqs : list ProductRequest) : World :=
  fold_left (λ w req, product_request req w) reqs w.

(** The constraints the Product schema puts on a document. *)
Definition product_ok (p : Product) : Prop :=
  p_name p ≠ "" ∧ (String.length (p_name p) ≤ 100)%nat
  ∧ p_description p ≠ "" ∧ (String.length (p_description p) ≤ 1000)%nat
  ∧ num_leb (num_div (num_of_Z 1) (num_of_Z 100)) (p_price p) = true
  ∧ p_category p ∈ validCategories
  ∧ image_validator (p_image p) = true
  ∧ 0 ≤ p_stock p.

Definition catalog_ok (ps : gmap ObjectId Product) : Prop :=
  map_Forall (λ _ p, product_ok p) ps.

(** ** A shop to run the handlers on

    Small stand-ins for the collaborators: a hash that prefixes the
    password, a token that is never empty, a User schema whose role is
    [user] or [admin], a payment processor with one paid session, and a URL
    check by scheme; three products, one user, and carts as needed. *)

Definition demo_hashSync (s : string) (rounds : Z) : string := "$2a$08$" +:+ s.

Definition demo_compareSync (s hash : string) : bool :=
  String.eqb hash ("$2a$08$" +:+ s).

Definition demo_jwt_sign (id : ObjectId) (username role : string) : string :=
  "jwt." +:+ username +:+ "." +:+ role.

Definition demo_User_validate (u : User) : option string :=
  if bool_decide (u_role u ∈ ["user"; "admin"]) then None
  else Some "User validation failed: role is not a valid enum value".

Definition demo_session : StripeSession :=
  mkStripeSession "cs_test_1" "https://checkout.stripe.com/c/pay/cs_test_1"
    "paid" 7%N 100%N (num_of_Z 1050) "usd".

Definition demo_sessions_create (sd : SessionData) : string + StripeSession :=
  inr demo_session.

Definition demo_sessions_retrieve (id : string) : string + StripeSession :=
  if String.eqb id "cs_test_1" then inr demo_session
  else inl "No such checkout.session".

Definition demo_URL_valid (v : string) : bool :=
  String.prefix "http://" v || String.prefix "https://" v.

(** Priced 19.5, 5.25 and 40. *)
Definition bag : Product :=
  mkProduct "Bag" "A cotton bag" (num_div (num_of_Z 39) (num_of_Z 2)) "Eco Bags"
    "https://img.example/bag.png" 10 0 0.

Definition bottle : Product :=
  mkProduct "Bottle" "A steel bottle" (num_div (num_of_Z 21) (num_of_Z 4))
    "Water Bottles" "" 3 0 0.

Definition lamp : Product :=
  mkProduct "Lamp" "A solar lamp" (num_of_Z 40) "Solar Products" "" 0 0 0.

Definition catalog : gmap ObjectId Product :=
  <[1%N := bag]> (<[2%N := bottle]> (<[3%N := lamp]> ∅)).

Definition alice : User :=
  mkUser 7%N "alice123" (demo_hashSync "secret1" 8) "user".

(** The three products, the user alice and no cart. *)
Definition shop : World := mkWorld [alice] catalog [] [] ∅ [] 100%N.

(** The same with a cart of alice holding the given lines. *)
Definition shop_with (items : list CartItem) : World :=
  mkWorld [alice] catalog [mkCart 100%N 7%N items] [] ∅ [] 200%N.

Definition configured : Env := mkEnv (Some "sk_test_1") None.

Definition unconfigured : Env := mkEnv None None.

(** Five wrong passwords for alice, a second apart. *)
Definition five_failures : list LoginAttempt :=
  (λ t, mkLoginAttempt t (t + 1) (mkAuthBody (Some "alice123") (Some "letmein") None))
    <$> [1000; 2000; 3000; 4000; 5000].

(** A shop in which the bag has the id that prints as
    [00000000000000000000000a], with a cart of alice holding the given
    lines. *)
Definition shop_a (items : list CartItem) : World :=
  mkWorld [alice] (<[10%N := bag]> ∅) [mkCart 100%N 7%N items] [] ∅ [] 200%N.

(** A second user, bob, with a cart of his own beside alice's, and a token
    check that knows the token of alice. *)
Definition bob : User :=
  mkUser 8%N "bob456" (demo_hashSync "hunter22" 8) "user".

Definition shop_two : World :=
  mkWorld [alice; bob] catalog
    [mkCart 100%N 7%N [mkCartItem 101%N 1%N 3];
     mkCart 110%N 8%N [mkCartItem 111%N 2%N 2]]
    [] ∅ [] 200%N.

Definition demo_jwt_verify (token : string) : option TokenPayload :=
  if String.eqb token "jwt.alice123.user"
  then Some (mkTokenPayload 7%N "alice123" "user")
  else None.

(** Fifty lines, each for a product of its own. *)
Definition fifty_lines : list CartItem :=
  (λ n, mkCartItem (1000 + N.of_nat n) (10 + N.of_nat n) 1) <$> seq 0 50.

(** * Properties *)

(** ** Lists *)

Lemma list_find_insert_same {A} (P : A → Prop) `{!∀ x, Decision (P x)}
    (l : list A) i x y :
  list_find P l = Some (i, x) → P y → list_find P (<[i := y]> l) = Some (i, y).
Proof.
  intros (Hl & _ & Hleast)%list_find_Some Hy.
  apply list_find_insert_Some. right. left.
  split_and!; eauto using lookup_lt_Some.
Qed.

Lemma elem_of_insert_inv {A} (l : list A) i x y :
  y ∈ <[i := x]> l → y = x ∨ y ∈ l.
Proof.
  intros (j & Hj)%list_elem_of_lookup.
  apply list_lookup_insert_Some in Hj as [(_ & -> & _)|(_ & Hj)]; [by left|].
  right. eauto using list_elem_of_lookup_2.
Qed.

(** ** ObjectIds and their text *)

Lemma to_N_zeros (k : nat) (s : string) :
  HexString.Raw.to_N (string_of_list_ascii (replicate k "0"%char) +:+ s) 0
  = HexString.Raw.to_N s 0.
Proof. induction k as [|k IH]; [done|]. exact IH. Qed.

Lemma to_N_toString (o : ObjectId) :
  HexString.Raw.to_N (ObjectId_toString o) 0 = o.
Proof.
  unfold ObjectId_toString. rewrite to_N_zeros.
  destruct o as [|p]; [done|]. by rewrite HexString.Raw.to_N_of_pos.
Qed.

(** The id a text is cast to is the only id that prints as that text. *)
Lemma ObjectId_cast_toString (s : string) (o o' : ObjectId) :
  ObjectId_cast s = Some o → ObjectId_toString o' = s → o' = o.
Proof.
  unfold ObjectId_cast. destruct (ObjectId_test s); [|done].
  intros [= <-] <-. by rewrite to_N_toString.
Qed.

Lemma ObjectId_cast_nonempty (s : string) (o : ObjectId) :
  ObjectId_cast s = Some o → truthy_str (Some s) = Some s.
Proof. by destruct s. Qed.

Lemma findIndex_product_line productId (its : list CartItem) j line product_id :
  findIndex_product productId its = Some (j, line) →
  ObjectId_cast productId = Some product_id →
  its !! j = Some line ∧ ci_product line = product_id.
Proof.
  intros (Hj & Hl & _)%list_find_Some Hcast. split; [done|].
  by eapply ObjectId_cast_toString.
Qed.

(** ** Values of the body as quantities *)

Lemma Cart_quantity_Some (v : JSValue) (q : Z) :
  Cart_quantity v = Some q → ToNumber v = NInt q ∧ 1 ≤ q.
Proof.
  unfold Cart_quantity. destruct (ToNumber v) as [|n|n|b]; try done.
  destruct (Z.leb_spec 1 n); [|done]. by intros [= ->].
Qed.

(** A value that is stored and was not above the stock is a quantity from 1
    to the stock. *)
Lemma Cart_quantity_bounds (v : JSValue) (q k : Z) :
  Cart_quantity v = Some q → Numeric_gtb (ToNumber v) k = false → 1 ≤ q ≤ k.
Proof.
  intros [Hv Hq]%Cart_quantity_Some. rewrite Hv. simpl.
  destruct (Z.ltb_spec k q); [done|]. lia.
Qed.

(** A value that is stored passes the first checks of the handlers. *)
Lemma Cart_quantity_checks (v : JSValue) (q k : Z) :
  Cart_quantity v = Some q → q ≤ k →
  truthy v = true ∧ Numeric_leb (ToNumber v) 0 = false
  ∧ Numeric_ltb (ToNumber v) 1 = false ∧ Numeric_gtb (ToNumber v) k = false.
Proof.
  intros Hv Hk. destruct (Cart_quantity_Some _ _ Hv) as [Hn Hq].
  rewrite Hn. simpl. split_and!.
  - destruct v as [n|s]; simpl in *.
    + injection Hn as ->. by destruct (Z.eqb_spec q 0); [lia|].
    + by destruct s.
  - destruct (Z.leb_spec q 0); [lia|done].
  - destruct (Z.ltb_spec q 1); [lia|done].
  - destruct (Z.ltb_spec k q); [lia|done].
Qed.

Lemma exceeds_number (n k : Z) : exceeds (VNumber n) k ↔ k < n.
Proof. unfold exceeds. simpl. by rewrite Z.ltb_lt. Qed.

Lemma below_number (n k : Z) : below (VNumber n) k ↔ n < k.
Proof. unfold below. simpl. by rewrite Z.ltb_lt. Qed.

(** ** The cart handlers and the stock bound *)

(** The outcomes of [addToCart]: an answer other than 200 that leaves the
    carts as they were, or the answer 200 after the line that
    [findIndex] found by the text of the id was set, or after a line was
    pushed when it found none; in both the quantity stored is from 1 to
    the stock of the product. *)
Lemma addToCart_cases userId body (w : World) :
  let r := addToCart userId body w in
  let cart := cart_of_add userId body w in
  products r.2 = products w ∧ users r.2 = users w
  ∧ ((status r.1 ≠ 200 ∧ carts r.2 = carts w)
     ∨ ∃ productId quantity product_id p q items',
         truthy_str (add_productId body) = Some productId
         ∧ add_quantity body = Some quantity
         ∧ ObjectId_cast productId = Some product_id
         ∧ products w !! product_id = Some p
         ∧ 1 ≤ q ≤ p_stock p
         ∧ ((∃ j line,
               findIndex_product productId (c_items cart) = Some (j, line)
               ∧ Cart_quantity (js_add (ci_quantity line) quantity) = Some q
               ∧ items' = <[j := set_quantity q line]> (c_items cart))
            ∨ (∃ lid,
                 findIndex_product productId (c_items cart) = None
                 ∧ Cart_quantity quantity = Some q
                 ∧ lid = match Cart_findOne (add_cartId body) userId (carts w) with
                         | Some _ => oid_counter w
                         | None => N.succ (oid_counter w)
                         end
                 ∧ items' = c_items cart ++ [mkCartItem lid product_id q]))
         ∧ r.1 = res_json (JItemAdded "Item added to cart" (c_id cart)
                             (length items'))
         ∧ carts r.2
           = match Cart_findOne (add_cartId body) userId (carts w) with
             | Some (i, _) => <[i := set_items items' cart]> (carts w)
             | None => carts w ++ [set_items items' cart]
             end).
Proof.
  cbv zeta. unfold addToCart, cart_of_add.
  destruct (truthy_str (add_productId body)) as [productId|] eqn:Hpid;
    [|by split_and!; [..|left]].
  destruct (add_quantity body) as [quantity|] eqn:Hq;
    [|by split_and!; [..|left]].
  destruct (truthy quantity); [|by split_and!; [..|left]]. cbn [negb].
  destruct (Numeric_leb (ToNumber quantity) 0); [by split_and!; [..|left]|].
  destruct (Cart_findOne (add_cartId body) userId (carts w)) as [[i c]|] eqn:Hc;
    cbn [new_ObjectId products carts users c_items c_id].
  - destruct (ObjectId_cast productId) as [product_id|] eqn:Hcast;
      [|by split_and!; [..|left]].
    destruct (products w !! product_id) as [p|] eqn:Hp;
      [|by split_and!; [..|left]].
    destruct (Numeric_gtb (ToNumber quantity) (p_stock p)) eqn:Hgt;
      [by split_and!; [..|left]|].
    destruct (findIndex_product productId (c_items c)) as [[j line]|] eqn:Hl.
    + destruct (Numeric_gtb (ToNumber (js_add (ci_quantity line) quantity))
                  (p_stock p)) eqn:Hgt'; [by split_and!; [..|left]|].
      destruct (Cart_quantity (js_add (ci_quantity line) quantity)) as [q|] eqn:Hcq;
        [|by split_and!; [..|left]].
      split_and!; [done..|]. right.
      exists productId, quantity, product_id, p, q,
        (<[j := set_quantity q line]> (c_items c)).
      pose proof (Cart_quantity_bounds _ _ _ Hcq Hgt').
      split_and!; try done; try lia. left. by exists j, line.
    + destruct (Cart_quantity quantity) as [q|] eqn:Hcq;
        [|by split_and!; [..|left]].
      split_and!; [done..|]. right.
      exists productId, quantity, product_id, p, q,
        (c_items c ++ [mkCartItem (oid_counter w) product_id q]).
      pose proof (Cart_quantity_bounds _ _ _ Hcq Hgt).
      split_and!; try done; try lia. right. by exists (oid_counter w).
  - destruct (ObjectId_cast productId) as [product_id|] eqn:Hcast;
      [|by split_and!; [..|left]].
    destruct (products w !! product_id) as [p|] eqn:Hp;
      [|by split_and!; [..|left]].
    destruct (Numeric_gtb (ToNumber quantity) (p_stock p)) eqn:Hgt;
      [by split_and!; [..|left]|].
    assert (findIndex_product productId [] = None) as -> by done.
    destruct (Cart_quantity quantity) as [q|] eqn:Hcq;
      [|by split_and!; [..|left]].
    split_and!; [done..|]. right.
    exists productId, quantity, product_id, p, q,
      [mkCartItem (N.succ (oid_counter w)) product_id q].
    pose proof (Cart_quantity_bounds _ _ _ Hcq Hgt).
    split_and!; try done; try lia. right. by exists (N.succ (oid_counter w)).
Qed.

Lemma addToCart_exceeds (w : World) userId cartId productId quantity product_id p :
  ObjectId_cast productId = Some product_id →
  products w !! product_id = Some p →
  (exceeds quantity (p_stock p) ∨
   ∃ i c j line, Cart_findOne cartId userId (carts w) = Some (i, c) ∧
     findIndex_product productId (c_items c) = Some (j, line) ∧
     exceeds (js_add (ci_quantity line) quantity) (p_stock p)) →
  let r := addToCart userId (mkAddToCartBody cartId (Some productId) (Some quantity)) w in
  status r.1 = 400 ∧ carts r.2 = carts w.
Proof.
  intros Hcast Hp Hex. unfold addToCart, exceeds in *.
  cbn [add_productId add_quantity add_cartId].
  rewrite (ObjectId_cast_nonempty _ _ Hcast).
  destruct (truthy quantity); [|done]. cbn [negb].
  destruct (Numeric_leb (ToNumber quantity) 0); [done|].
  destruct (Cart_findOne cartId userId (carts w)) as [[i c]|] eqn:Hc;
    cbn [new_ObjectId products]; rewrite Hcast, Hp.
  - destruct (Numeric_gtb (ToNumber quantity) (p_stock p)) eqn:Hgt; [done|].
    destruct Hex as [?|(i' & c' & j & line & Hc' & Hl & Hq)]; [done|].
    simplify_eq. by rewrite Hl, Hq.
  - destruct (Numeric_gtb (ToNumber quantity) (p_stock p)) eqn:Hgt; [done|].
    by destruct Hex as [?|(i' & c' & j & line & Hc' & Hl & Hq)].
Qed.

Lemma updateCartItem_below_one (w : World) userId id quantity :
  below quantity 1 →
  updateCartItem userId id (Some quantity) w
  = (mkResponse 400 (JError "Valid quantity required"), w).
Proof.
  unfold below, updateCartItem. intros ->. by rewrite orb_true_r.
Qed.

Lemma updateCartItem_exceeds (w : World) userId id quantity i c j line p :
  Cart_findOne_item id userId (carts w) = Some (i, c) →
  items_id id (c_items c) = Some (j, line) →
  products w !! ci_product line = Some p →
  exceeds quantity (p_stock p) →
  let r := updateCartItem userId id (Some quantity) w in
  status r.1 = 400 ∧ r.2 = w.
Proof.
  unfold exceeds. intros Hc Hl Hp Hq. unfold updateCartItem. simpl.
  destruct (negb (truthy quantity) || Numeric_ltb (ToNumber quantity) 1); [done|].
  by rewrite Hc, Hl, Hp, Hq.
Qed.

(** What a successful [addToCart] stored. *)
Lemma addToCart_ok (w : World) userId body r w' :
  addToCart userId body w = (r, w') → status r = 200 →
  ∃ productId product_id p cart j line,
    add_productId body = Some productId ∧
    ObjectId_cast productId = Some product_id ∧
    products w !! product_id = Some p ∧
    cart ∈ carts w' ∧ c_user cart = userId ∧
    c_items cart !! j = Some line ∧ ci_product line = product_id ∧
    1 ≤ ci_quantity line ≤ p_stock p.
Proof.
  intros Hr H200.
  destruct (addToCart_cases userId body w) as (_ & _ & Hcases).
  rewrite Hr in Hcases. cbn [fst snd] in Hcases.
  destruct Hcases as [[? _]|(productId & quantity & product_id & p & q & items'
    & Hpid & _ & Hcast & Hp & Hq & Hitems & _ & Hcarts)]; [done|].
  assert (add_productId body = Some productId) as Hbody.
  { by destruct (add_productId body) as [[]|]. }
  assert (c_user (cart_of_add userId body w) = userId
          ∧ set_items items' (cart_of_add userId body w) ∈ carts w') as [Hu Hin].
  { rewrite Hcarts. unfold cart_of_add.
    destruct (Cart_findOne (add_cartId body) userId (carts w)) as [[i c]|] eqn:Hc.
    - unfold Cart_findOne in Hc. destruct (add_cartId body);
        apply list_find_Some in Hc as (Hi%lookup_lt_Some & Hf & _);
        (split; [apply Hf|by apply list_elem_of_insert]).
    - split; [done|]. apply elem_of_app. right. by apply list_elem_of_singleton. }
  destruct Hitems as [(j & line & Hl & _ & ->)|(lid & _ & _ & _ & ->)].
  - destruct (findIndex_product_line _ _ _ _ _ Hl Hcast) as [Hj Hpl].
    exists productId, product_id, p,
      (set_items (<[j := set_quantity q line]> (c_items (cart_of_add userId body w)))
         (cart_of_add userId body w)), j, (set_quantity q line).
    split_and!; try done; try apply Hq.
    simpl. apply list_lookup_insert_eq. by eapply lookup_lt_Some.
  - exists productId, product_id, p,
      (set_items (c_items (cart_of_add userId body w) ++ [mkCartItem lid product_id q])
         (cart_of_add userId body w)),
      (length (c_items (cart_of_add userId body w))), (mkCartItem lid product_id q).
    split_and!; try done; try apply Hq.
    simpl. by rewrite lookup_app_r, Nat.sub_diag.
Qed.

Lemma updateCartItem_ok (w : World) userId id quantity r w' :
  updateCartItem userId id quantity w = (r, w') → status r = 200 →
  ∃ v q i cart j line p,
    quantity = Some v ∧ Cart_quantity v = Some q ∧ 1 ≤ q ∧
    Cart_findOne_item id userId (carts w) = Some (i, cart) ∧
    items_id id (c_items cart) = Some (j, line) ∧
    products w !! ci_product line = Some p ∧ q ≤ p_stock p ∧
    w' = Cart_save (Some i)
           (set_items (<[j := set_quantity q line]> (c_items cart)) cart) w.
Proof.
  unfold updateCartItem.
  destruct quantity as [v|]; [|by intros [= <- <-]].
  destruct (negb (truthy v) || Numeric_ltb (ToNumber v) 1); [by intros [= <- <-]|].
  destruct (Cart_findOne_item id userId (carts w)) as [[i cart]|] eqn:Hc;
    [|by intros [= <- <-]].
  destruct (items_id id (c_items cart)) as [[j line]|] eqn:Hl;
    [|by intros [= <- <-]].
  destruct (products w !! ci_product line) as [p|] eqn:Hp; [|by intros [= <- <-]].
  destruct (Numeric_gtb (ToNumber v) (p_stock p)) eqn:Hgt; [by intros [= <- <-]|].
  destruct (Cart_quantity v) as [q|] eqn:Hq; [|by intros [= <- <-]].
  intros [= <- <-] _. exists v, q, i, cart, j, line, p.
  pose proof (Cart_quantity_bounds _ _ _ Hq Hgt). by split_and!; try lia.
Qed.

(** An answer of [updateCartItem] other than 200 changes nothing. *)
Lemma updateCartItem_failed (w : World) userId id quantity :
  status (updateCartItem userId id quantity w).1 ≠ 200 →
  (updateCartItem userId id quantity w).2 = w.
Proof. unfold updateCartItem. by repeat case_match. Qed.

Lemma within_stock_set_quantity ps (c : Cart) j line q p :
  within_stock ps c → ps !! ci_product line = Some p → q ≤ p_stock p →
  within_stock ps (set_items (<[j := set_quantity q line]> (c_items c)) c).
Proof.
  intros Hc Hp Hq it p' [->|Hit]%elem_of_insert_inv Hp'; simpl in *.
  - by simplify_eq.
  - by eapply Hc.
Qed.

Lemma within_stock_push ps (c : Cart) lid productId q p :
  within_stock ps c → ps !! productId = Some p → q ≤ p_stock p →
  within_stock ps (set_items (c_items c ++ [mkCartItem lid productId q]) c).
Proof.
  intros Hc Hp Hq it p' [Hit|Hit%list_elem_of_singleton]%elem_of_app Hp';
    simpl in *.
  - by eapply Hc.
  - subst it. simpl in *. by simplify_eq.
Qed.

Lemma Cart_findOne_lookup cartId userId (cs : list Cart) i c :
  Cart_findOne cartId userId cs = Some (i, c) →
  cs !! i = Some c ∧ c_user c = userId.
Proof.
  unfold Cart_findOne.
  destruct cartId; intros (? & Hf & _)%list_find_Some; split; by try apply Hf.
Qed.

Lemma addToCart_within_stock (w : World) userId body :
  carts_within_stock w →
  carts_within_stock (addToCart userId body w).2
  ∧ products (addToCart userId body w).2 = products w.
Proof.
  intros Hw. unfold carts_within_stock.
  destruct (addToCart_cases userId body w) as (Hps & _ & Hcases).
  rewrite Hps. split; [|done].
  destruct Hcases as [[_ ->]|(productId & quantity & product_id & p & q & items'
    & _ & _ & Hcast & Hp & Hq & Hitems & _ & ->)]; [done|].
  assert (within_stock (products w) (cart_of_add userId body w)
          → within_stock (products w)
              (set_items items' (cart_of_add userId body w))) as Hstep.
  { intros Hcw.
    destruct Hitems as [(j & line & Hl & _ & ->)|(lid & _ & _ & _ & ->)].
    - destruct (findIndex_product_line _ _ _ _ _ Hl Hcast) as [Hj Hpl].
      eapply within_stock_set_quantity; [done| |apply Hq]. by rewrite Hpl.
    - eapply within_stock_push; [done..|apply Hq]. }
  unfold cart_of_add in *.
  destruct (Cart_findOne (add_cartId body) userId (carts w)) as [[i c]|] eqn:Hc.
  - apply Cart_findOne_lookup in Hc as [Hi _].
    apply Forall_insert; [done|]. apply Hstep.
    by apply (Forall_lookup_1 _ _ _ _ Hw Hi).
  - apply Forall_app. split; [done|]. apply Forall_singleton, Hstep.
    intros ?? Hit. simpl in Hit. by apply elem_of_nil in Hit.
Qed.

Lemma updateCartItem_within_stock (w : World) userId id quantity :
  carts_within_stock w →
  carts_within_stock (updateCartItem userId id quantity w).2
  ∧ products (updateCartItem userId id quantity w).2 = products w.
Proof.
  intros Hw.
  destruct (decide (status (updateCartItem userId id quantity w).1 = 200)) as [Hr|Hr].
  - destruct (updateCartItem userId id quantity w) as [r w'] eqn:Hu. simpl in *.
    destruct (updateCartItem_ok _ _ _ _ _ _ Hu Hr)
      as (v & q & i & cart & j & line & p & -> & _ & _ & Hc & Hl & Hp & Hq & ->).
    split; [|done]. apply Forall_insert; [done|].
    apply list_find_Some in Hc as (Hi & _).
    eapply within_stock_set_quantity; [|done..].
    eapply (Forall_lookup_1 _ _ _ _ Hw Hi).
  - by rewrite updateCartItem_failed.
Qed.

Lemma cart_run_within_stock (ops : list CartOp) (w : World) :
  carts_within_stock w →
  carts_within_stock (cart_run w ops) ∧ products (cart_run w ops) = products w.
Proof.
  revert w. induction ops as [|op ops IH]; intros w Hw; [done|]. simpl.
  assert (carts_within_stock (cart_step w op).2
          ∧ products (cart_step w op).2 = products w) as [Hs Hp].
  { destruct op; simpl;
      [by apply addToCart_within_stock|by apply updateCartItem_within_stock]. }
  destruct (IH _ Hs) as [? Hp']. split; [done|]. by rewrite Hp'.
Qed.

(** X27.  Each line of a cart stays within the stock of its product.
    Add-to-cart answers 400 and leaves the carts as they were when the
    quantity asked exceeds the product's stock, and when the line that the
    cart has under the text of the product id would exceed it once the
    quantity is added: the sum for a quantity sent as a number, and for one
    sent as a string the number that the digits of the line's quantity
    followed by that string write.  Update-line-quantity answers 400 and
    changes nothing when the new quantity is below 1 or above the stock of
    the line's product.  A successful add or update stores one line,
    whose quantity is from 1 to the stock the operation read, and so over
    any sequence of the two operations no line of any cart exceeds the
    stock of its product. *)
Theorem cart_quantity_bounded_by_stock (w : World) :
  (∀ userId cartId productId quantity product_id p,
     ObjectId_cast productId = Some product_id →
     products w !! product_id = Some p →
     (exceeds quantity (p_stock p) ∨
      ∃ i c j line, Cart_findOne cartId userId (carts w) = Some (i, c) ∧
        findIndex_product productId (c_items c) = Some (j, line) ∧
        exceeds (js_add (ci_quantity line) quantity) (p_stock p)) →
     let r := addToCart userId
                (mkAddToCartBody cartId (Some productId) (Some quantity)) w in
     status r.1 = 400 ∧ carts r.2 = carts w)
  ∧ (∀ userId id quantity,
       below quantity 1 →
       let r := updateCartItem userId id (Some quantity) w in
       status r.1 = 400 ∧ r.2 = w)
  ∧ (∀ userId id quantity i c j line p,
       Cart_findOne_item id userId (carts w) = Some (i, c) →
       items_id id (c_items c) = Some (j, line) →
       products w !! ci_product line = Some p →
       exceeds quantity (p_stock p) →
       let r := updateCartItem userId id (Some quantity) w in
       status r.1 = 400 ∧ r.2 = w)
  ∧ (∀ userId body r w',
       addToCart userId body w = (r, w') → status r = 200 →
       ∃ productId product_id p cart j line,
         add_productId body = Some productId ∧
         ObjectId_cast productId = Some product_id ∧
         products w !! product_id = Some p ∧
         cart ∈ carts w' ∧ c_user cart = userId ∧
         c_items cart !! j = Some line ∧ ci_product line = product_id ∧
         1 ≤ ci_quantity line ≤ p_stock p)
  ∧ (∀ userId id quantity r w',
       updateCartItem userId id quantity w = (r, w') → status r = 200 →
       ∃ v q i cart j line p,
         quantity = Some v ∧ Cart_quantity v = Some q ∧ 1 ≤ q ∧
         Cart_findOne_item id userId (carts w) = Some (i, cart) ∧
         items_id id (c_items cart) = Some (j, line) ∧
         products w !! ci_product line = Some p ∧ q ≤ p_stock p ∧
         w' = Cart_save (Some i)
                (set_items (<[j := set_quantity q line]> (c_items cart)) cart) w)
  ∧ (∀ n k, (exceeds (VNumber n) k ↔ k < n) ∧ (below (VNumber n) k ↔ n < k))
  ∧ (∀ ops,
       carts_within_stock w →
       carts_within_stock (cart_run w ops)
       ∧ products (cart_run w ops) = products w).
Proof.
  split_and!.
  - intros. by eapply addToCart_exceeds.
  - intros ??? Hq. cbv zeta. by rewrite updateCartItem_below_one.
  - intros. by eapply updateCartItem_exceeds.
  - intros. by eapply addToCart_ok.
  - intros. by eapply updateCartItem_ok.
  - intros. split; [apply exceeds_number|apply below_number].
  - intros. by apply cart_run_within_stock.
Qed.

(** ** Reading a cart *)

Lemma validItems_of_cons ps (it : CartItem) (its : list CartItem) :
  validItems_of (populate ps (it :: its))
  = match ps !! ci_product it with
    | Some p => (it, p) :: validItems_of (populate ps its)
    | None => validItems_of (populate ps its)
    end.
Proof. unfold validItems_of, populate. simpl. by destruct (ps !! ci_product it). Qed.

Lemma validItems_of_lines ps (its : list CartItem) :
  (validItems_of (populate ps its)).*1 = kept_lines ps its.
Proof.
  induction its as [|it its IH]; [done|].
  rewrite validItems_of_cons. unfold kept_lines, line_exists in *.
  rewrite filter_cons. destruct (ps !! ci_product it) as [p|] eqn:Hp.
  - rewrite decide_True by done. by rewrite fmap_cons, IH.
  - rewrite decide_False by (by intros [??]). done.
Qed.

Lemma validItems_of_views ps (its : list CartItem) :
  cartItem_view <$> validItems_of (populate ps its) = omap (line_view ps) its.
Proof.
  induction its as [|it its IH]; [done|].
  rewrite validItems_of_cons. simpl. unfold line_view at 1.
  destruct (ps !! ci_product it) as [p|]; [rewrite fmap_cons|]; by rewrite IH.
Qed.

Lemma validItems_of_kept ps (its : list CartItem) :
  validItems_of (populate ps (kept_lines ps its)) = validItems_of (populate ps its).
Proof.
  induction its as [|it its IH]; [done|].
  rewrite validItems_of_cons. unfold kept_lines, line_exists in *.
  rewrite filter_cons. destruct (ps !! ci_product it) as [p|] eqn:Hp.
  - rewrite decide_True by done.
    rewrite validItems_of_cons, Hp. by rewrite IH.
  - rewrite decide_False by (by intros [??]). done.
Qed.

Lemma filter_length_eq {A} (P : A → Prop) `{!∀ x, Decision (P x)} (l : list A) :
  length (filter P l) = length l → filter P l = l.
Proof.
  induction l as [|x l IH]; [done|]. rewrite filter_cons.
  destruct (decide (P x)); simpl.
  - intros [= Hl]. by rewrite IH.
  - intros Hl. pose proof (length_filter P l). lia.
Qed.

Lemma Cart_findOne_insert cartId userId (cs : list Cart) i c its :
  Cart_findOne cartId userId cs = Some (i, c) →
  Cart_findOne cartId userId (<[i := set_items its c]> cs)
  = Some (i, set_items its c).
Proof.
  unfold Cart_findOne. destruct cartId; intros Hf;
    (apply list_find_insert_same with (x := c); [done|]);
    by apply list_find_Some in Hf as (_ & ? & _).
Qed.

Lemma getCart_found (w : World) userId cartId i cart :
  Cart_findOne cartId userId (carts w) = Some (i, cart) →
  getCart userId cartId w
  = (res_json (JCartItems (omap (line_view (products w)) (c_items cart))),
     set_carts (<[i := set_items (kept_lines (products w) (c_items cart)) cart]>
                  (carts w)) w).
Proof.
  intros Hc. unfold getCart. rewrite Hc.
  rewrite validItems_of_views. f_equal.
  rewrite <- (length_fmap fst), validItems_of_lines.
  case_bool_decide as Hlen; [done|].
  apply filter_length_eq in Hlen.
  unfold kept_lines. rewrite Hlen.
  apply Cart_findOne_lookup in Hc as [Hi _].
  destruct w, cart. unfold set_carts, set_items. simpl in *.
  by rewrite list_insert_id.
Qed.

Lemma kept_lines_idemp ps (its : list CartItem) :
  kept_lines ps (kept_lines ps its) = kept_lines ps its.
Proof.
  rewrite <- (validItems_of_lines ps (kept_lines ps its)), validItems_of_kept.
  apply validItems_of_lines.
Qed.

(** C5. When the cart of a get-cart request exists, the result is its
    lines joined with their products, the lines whose product no longer
    exists left out and the others as they were, in order; the stored cart
    is left holding exactly the lines whose product exists, so that a
    second fetch returns the same result and changes nothing. *)
Theorem getCart_drops_lines_of_deleted_products (w : World) userId cartId i cart :
  Cart_findOne cartId userId (carts w) = Some (i, cart) →
  let kept := kept_lines (products w) (c_items cart) in
  let r := getCart userId cartId w in
  r.1 = res_json (JCartItems (omap (line_view (products w)) (c_items cart)))
  ∧ r.2 = set_carts (<[i := set_items kept cart]> (carts w)) w
  ∧ (∀ it, it ∈ kept ↔ it ∈ c_items cart ∧ line_exists (products w) it)
  ∧ Cart_findOne cartId userId (carts r.2) = Some (i, set_items kept cart)
  ∧ getCart userId cartId r.2 = r.
Proof.
  intros Hc kept r. subst r. rewrite (getCart_found _ _ _ _ _ Hc). simpl.
  split_and!; try done.
  - intros it. unfold kept, kept_lines. rewrite list_elem_of_filter.
    apply and_comm.
  - by apply Cart_findOne_insert.
  - rewrite (getCart_found _ _ _ i (set_items kept cart))
      by (by apply Cart_findOne_insert).
    simpl. unfold kept. rewrite kept_lines_idemp.
    rewrite <- !validItems_of_views, validItems_of_kept.
    f_equal. unfold set_carts. simpl. f_equal.
    by rewrite list_insert_insert_eq.
Qed.

(** ** The cart summary *)

Lemma fold_left_fmap {A B C} (f : A → C → A) (g : B → C) (l : list B) (a : A) :
  fold_left (λ acc x, f acc (g x)) l a = fold_left f (g <$> l) a.
Proof. revert a. induction l as [|x l IH]; intros a; [done|]. apply IH. Qed.

Lemma fold_left_add_sum_Z (l : list Z) (a : Z) :
  fold_left Z.add l a = a + sum_Z l.
Proof.
  revert a. induction l as [|x l IH]; intros a; simpl; [lia|].
  rewrite IH. lia.
Qed.

Lemma validItems_of_amounts ps (its : list CartItem) :
  (λ item : CartItem * Product,
     num_mul (p_price item.2) (num_of_Z (ci_quantity item.1)))
    <$> validItems_of (populate ps its)
  = omap (line_amount ps) its.
Proof.
  induction its as [|it its IH]; [done|].
  rewrite validItems_of_cons. simpl. unfold line_amount at 1.
  destruct (ps !! ci_product it) as [p|]; [rewrite fmap_cons|]; by rewrite IH.
Qed.

Lemma kept_lines_amounts ps (its : list CartItem) :
  Forall2 (λ it a, ∃ p, ps !! ci_product it = Some p
                        ∧ a = num_mul (p_price p) (num_of_Z (ci_quantity it)))
          (kept_lines ps its) (omap (line_amount ps) its).
Proof.
  induction its as [|it its IH]; [constructor|].
  unfold kept_lines, line_exists in *. rewrite filter_cons.
  change (omap (line_amount ps) (it :: its))
    with (match line_amount ps it with
          | Some a => a :: omap (line_amount ps) its
          | None => omap (line_amount ps) its
          end).
  unfold line_amount at 1.
  destruct (ps !! ci_product it) as [p|] eqn:Hp.
  - rewrite decide_True by done. constructor; [|done]. by exists p.
  - rewrite decide_False by (by intros [??]). done.
Qed.

Lemma kept_lines_all ps (its : list CartItem) :
  Forall (line_exists ps) its → kept_lines ps its = its.
Proof.
  intros Hall. unfold kept_lines. induction Hall as [|it its Hit _ IH]; [done|].
  rewrite filter_cons, decide_True by done. by rewrite IH.
Qed.

(** C6. The summary of a user's cart: totalItems is the sum of the
    quantities of the lines whose product exists, totalPrice is the sum,
    over the same lines in order, of the product's price times the
    quantity, put through [Math.round(total * 100) / 100]; a line whose
    product was deleted adds to neither, and when every line has its
    product the sums run over all the lines of the cart. *)
Theorem getCartSummary_totals (w : World) userId i cart :
  Cart_findOne None userId (carts w) = Some (i, cart) →
  let kept := kept_lines (products w) (c_items cart) in
  let amounts := omap (line_amount (products w)) (c_items cart) in
  getCartSummary userId w
  = (res_json (JSummary (sum_Z (ci_quantity <$> kept)) (round2 (sum_num amounts))
                 (length kept) (Some (c_id cart))), w)
  ∧ Forall2 (λ it a, ∃ p, products w !! ci_product it = Some p
                          ∧ a = num_mul (p_price p) (num_of_Z (ci_quantity it)))
            kept amounts
  ∧ (Forall (line_exists (products w)) (c_items cart) → kept = c_items cart).
Proof.
  intros Hc. cbv zeta. split_and!.
  - unfold getCartSummary. rewrite Hc. do 3 f_equal.
    + rewrite (fold_left_fmap Z.add (λ item : CartItem * Product, ci_quantity item.1)).
      rewrite fold_left_add_sum_Z. simpl.
      rewrite <- (validItems_of_lines (products w)), <- list_fmap_compose. done.
    + unfold round2, sum_num. do 3 f_equal.
      rewrite <- validItems_of_amounts. apply fold_left_fmap.
    + rewrite <- (length_fmap fst). by rewrite validItems_of_lines.
  - apply kept_lines_amounts.
  - apply kept_lines_all.
Qed.

(** ** Checkout *)

Lemma checkout_step_split acc item :
  checkout_step acc item
  = (acc.1 ++ option_list (retained_line item),
     acc.2 ++ option_list (advisory item)).
Proof.
  destruct acc as [validItems issues], item as [it [p|]];
    unfold checkout_step, retained_line, advisory; simpl;
    repeat case_match; simpl; by rewrite ?app_nil_r.
Qed.

Lemma checkout_fold pop acc :
  fold_left checkout_step pop acc
  = (acc.1 ++ omap retained_line pop, acc.2 ++ omap advisory pop).
Proof.
  revert acc. induction pop as [|item pop IH]; intros acc.
  - simpl. rewrite !app_nil_r. by destruct acc.
  - simpl. rewrite IH, checkout_step_split. simpl.
    rewrite <- !app_assoc. f_equal; f_equal.
    + by destruct (retained_line item).
    + by destruct (advisory item).
Qed.

Lemma checkout_partition_lines pop :
  checkout_partition pop = (omap retained_line pop, omap advisory pop).
Proof. unfold checkout_partition. by rewrite checkout_fold. Qed.

Lemma line_clamped it p :
  0 < p_stock p < ci_quantity it →
  retained_line (it, Some p) = Some (set_quantity (p_stock p) it, p)
  ∧ advisory (it, Some p)
    = Some ("Only " +:+ pretty (p_stock p) +:+ " " +:+ p_name p +:+ " available").
Proof.
  intros [??]. unfold retained_line, advisory. simpl.
  destruct (Z.ltb_spec (p_stock p) (ci_quantity it)); [|lia].
  destruct (Z.eqb_spec (p_stock p) 0); [lia|done].
Qed.

Lemma line_dropped it p :
  p_stock p = 0 → 1 ≤ ci_quantity it →
  retained_line (it, Some p) = None
  ∧ advisory (it, Some p) = Some (p_name p +:+ " is out of stock").
Proof.
  intros Hs ?. unfold retained_line, advisory. simpl. rewrite Hs.
  destruct (Z.ltb_spec 0 (ci_quantity it)); [done|lia].
Qed.

Lemma line_retained it p :
  ci_quantity it ≤ p_stock p →
  retained_line (it, Some p) = Some (it, p) ∧ advisory (it, Some p) = None.
Proof.
  intros ?. unfold retained_line, advisory. simpl.
  destruct (Z.ltb_spec (p_stock p) (ci_quantity it)); [lia|done].
Qed.


Lemma createCheckoutSession_empty env now userId email cartId (w : World) :
  is_Some (truthy_str (STRIPE_SECRET_KEY env)) →
  (Cart_findOne cartId userId (carts w) = None
   ∨ ∃ i cart, Cart_findOne cartId userId (carts w) = Some (i, cart)
               ∧ c_items cart = []) →
  createCheckoutSession env now userId email cartId w
  = (mkResponse 400 (JError "Cart is empty"), w).
Proof.
  intros [k Hk] Hc. unfold createCheckoutSession. rewrite Hk.
  destruct Hc as [->|(i & cart & -> & ->)]; done.
Qed.


(** C2, as the code has it.  With the processor's secret key configured and
    a cart that has lines, the lines joined with their products are gone
    through in order.  A line whose product has stock above 0 and below the
    quantity is kept with the quantity lowered to the stock, and an advisory
    is recorded; a line (of quantity 1 or more) whose product has stock 0 is
    dropped and an advisory recorded; a line whose product has enough stock
    is kept as it is, with no advisory.  When no line is kept the request is
    answered 400 with the advisories and no session is created; otherwise
    one session is requested, with one item per line kept.  The stored cart
    is not changed in either case. *)
Theorem checkout_partitions_lines env now userId email cartId (w : World) i cart :
  is_Some (truthy_str (STRIPE_SECRET_KEY env)) →
  Cart_findOne cartId userId (carts w) = Some (i, cart) →
  c_items cart ≠ [] →
  let pop := populate (products w) (c_items cart) in
  let validItems := omap retained_line pop in
  let issues := omap advisory pop in
  let r := createCheckoutSession env now userId email cartId w in
  checkout_partition pop = (validItems, issues)
  ∧ (∀ it p,
       (0 < p_stock p < ci_quantity it →
        retained_line (it, Some p) = Some (set_quantity (p_stock p) it, p)
        ∧ advisory (it, Some p)
          = Some ("Only " +:+ pretty (p_stock p) +:+ " " +:+ p_name p
                    +:+ " available"))
       ∧ (p_stock p = 0 → 1 ≤ ci_quantity it →
          retained_line (it, Some p) = None
          ∧ advisory (it, Some p) = Some (p_name p +:+ " is out of stock"))
       ∧ (ci_quantity it ≤ p_stock p →
          retained_line (it, Some p) = Some (it, p)
          ∧ advisory (it, Some p) = None))
  ∧ (validItems = [] →
     r = (mkResponse 400 (JErrorIssues "No items available for checkout" issues), w))
  ∧ (validItems ≠ [] →
     ∃ sessionData,
       sd_line_items sessionData = line_item <$> validItems
       ∧ r.2 = set_stripe_create_calls (stripe_create_calls w ++ [sessionData]) w
       ∧ (status r.1 = 200 ∨ status r.1 = 500))
  ∧ carts r.2 = carts w.
Proof.
  intros [k Hk] Hc Hne. cbv zeta.
  split; [apply checkout_partition_lines|].
  split.
  { intros it p. split_and!.
    - apply line_clamped.
    - apply line_dropped.
    - apply line_retained. }
  unfold createCheckoutSession. rewrite Hk, Hc.
  rewrite bool_decide_eq_false_2
    by (intros Hl; by apply nil_length_inv in Hl).
  rewrite checkout_partition_lines.
  destruct (omap retained_line (populate (products w) (c_items cart)))
    as [|v vs] eqn:Hv.
  - split_and!; done.
  - rewrite bool_decide_eq_false_2 by done.
    split_and!; [done| |].
    + intros _. eexists. split; [|split].
      2:{ destruct (stripe_sessions_create _); reflexivity. }
      * done.
      * destruct (stripe_sessions_create _); simpl; auto.
    + by destruct (stripe_sessions_create _).
Qed.

(** ** Payment success *)

Lemma charged_cons ps it its id :
  charged ps (it :: its) id
  = (if bool_decide (ci_product it = id) && stock_covers ps it
     then ci_quantity it else 0) + charged ps its id.
Proof.
  unfold charged, charged_lines. rewrite filter_cons.
  case_bool_decide as Hid; simpl.
  - destruct (stock_covers ps it) eqn:Hg.
    + by rewrite decide_True.
    + rewrite decide_False; [done|]. by intros [_ ?].
  - rewrite decide_False; [done|]. by intros [? _].
Qed.

Lemma process_stock_cons now ps0 it (its : list CartItem) ps stockUpdates :
  process_stock now (populate ps0 (it :: its)) ps stockUpdates
  = match ps0 !! ci_product it with
    | Some product =>
      if p_stock product >=? ci_quantity it then
        match Product_inc_stock (ci_product it) (- ci_quantity it) now ps with
        | None => (ps, None)
        | Some (updatedProduct, ps') =>
          process_stock now (populate ps0 its) ps'
            (stockUpdates ++ [mkStockUpdate (ci_product it) (p_name product)
                                (ci_quantity it) (p_stock product)
                                (p_stock updatedProduct)])
        end
      else process_stock now (populate ps0 its) ps stockUpdates
    | None => process_stock now (populate ps0 its) ps stockUpdates
    end.
Proof. reflexivity. Qed.

Lemma stock_covers_eq ps it :
  stock_covers ps it
  = match ps !! ci_product it with
    | Some p => p_stock p >=? ci_quantity it
    | None => false
    end.
Proof. reflexivity. Qed.

Lemma process_stock_spec now ps0 (its : list CartItem) :
  ∀ ps stockUpdates,
    (∀ id, is_Some (ps0 !! id) → is_Some (ps !! id)) →
    ∃ ps' stockUpdates',
      process_stock now (populate ps0 its) ps stockUpdates
      = (ps', Some stockUpdates')
      ∧ length stockUpdates'
        = (length stockUpdates + length (filter (λ it, stock_covers ps0 it = true) its))%nat
      ∧ ∀ id,
          match ps !! id with
          | Some cur => ∃ p', ps' !! id = Some p'
                              ∧ p_stock p' = p_stock cur - charged ps0 its id
                              ∧ same_product cur p'
          | None => ps' !! id = None
          end.
Proof.
  induction its as [|it its IH]; intros ps stockUpdates Hdom.
  - exists ps, stockUpdates. simpl. split_and!; [done|lia|].
    intros id. destruct (ps !! id) as [cur|]; [|done].
    exists cur. unfold charged. simpl. split_and!; [done|lia|done].
  - rewrite process_stock_cons, filter_cons.
    pose proof (stock_covers_eq ps0 it) as Hsc.
    destruct (ps0 !! ci_product it) as [p|] eqn:Hp.
    + destruct (p_stock p >=? ci_quantity it) eqn:Hg.
      * unfold Product_inc_stock.
        destruct (Hdom (ci_product it)) as [cur Hcur]; [by rewrite Hp|].
        rewrite Hcur.
        set (upd := mkProduct _ _ _ _ _ _ _ _).
        destruct (IH (<[ci_product it := upd]> ps)
                    (stockUpdates ++ [mkStockUpdate (ci_product it) (p_name p)
                       (ci_quantity it) (p_stock p) (p_stock upd)]))
          as (ps' & acc' & Hrun & Hlen & Hps').
        { intros id Hid. rewrite lookup_insert. case_decide; [done|auto]. }
        exists ps', acc'. split_and!; [done| |].
        { rewrite Hlen, length_app. rewrite decide_True by done. simpl. lia. }
        intros id. specialize (Hps' id). rewrite lookup_insert in Hps'.
        rewrite charged_cons, Hsc.
        case_decide as Hid.
        -- subst id. rewrite Hcur. rewrite bool_decide_eq_true_2 by done.
           destruct Hps' as (p' & ? & Hst & Hsame). exists p'.
           split_and!; [done| |].
           ++ rewrite Hst. subst upd. simpl. lia.
           ++ subst upd. unfold same_product in *. simpl in *. done.
        -- rewrite bool_decide_eq_false_2 by done. simpl.
           destruct (ps !! id) as [cur'|]; [|done].
           destruct Hps' as (p' & ? & Hst & Hsame). exists p'.
           split_and!; [done|lia|done].
      * destruct (IH ps stockUpdates Hdom) as (ps' & acc' & Hrun & Hlen & Hps').
        exists ps', acc'. split_and!; [done| |].
        { rewrite Hlen. by rewrite decide_False by (by rewrite Hsc). }
        intros id. specialize (Hps' id).
        rewrite charged_cons, Hsc, andb_false_r. done.
    + destruct (IH ps stockUpdates Hdom) as (ps' & acc' & Hrun & Hlen & Hps').
      exists ps', acc'. split_and!; [done| |].
      { rewrite Hlen. by rewrite decide_False by (by rewrite Hsc). }
      intros id. specialize (Hps' id).
      rewrite charged_cons, Hsc, andb_false_r. done.
Qed.

Lemma charged_absent ps (its : list CartItem) id :
  id ∉ ci_product <$> its → charged ps its id = 0.
Proof.
  induction its as [|it its IH]; [done|].
  rewrite fmap_cons, not_elem_of_cons. intros [Hne Hnot].
  rewrite charged_cons, bool_decide_eq_false_2 by done. simpl. by apply IH.
Qed.

Lemma charged_one_line_per_product ps (its : list CartItem) id p :
  NoDup (ci_product <$> its) → ps !! id = Some p → 0 ≤ p_stock p →
  charged ps its id ≤ p_stock p.
Proof.
  intros Hnd Hp Hpos. induction its as [|it its IH]; [done|].
  rewrite fmap_cons in Hnd. apply NoDup_cons in Hnd as [Hnot Hnd].
  rewrite charged_cons. case_bool_decide as Hid; simpl.
  - rewrite charged_absent by (by rewrite <- Hid).
    rewrite stock_covers_eq, Hid, Hp.
    destruct (Z.geb_spec (p_stock p) (ci_quantity it)); lia.
  - by apply IH.
Qed.

Lemma truthy_str_nonempty (s : string) : s ≠ "" → truthy_str (Some s) = Some s.
Proof. by destruct s. Qed.

(** C3, as the code has it.  On the payment-success callback for a paid
    session whose cart is found, a line is charged to the stock only when
    its product exists and the product's stock, as read with the cart,
    covers the quantity of the line; any other line is skipped.  Each
    product's stock goes down by the quantities of the lines charged to it
    and nothing else of the product changes but the update time, so with
    one line per product a stock that was not negative does not become
    negative.  The cart is then emptied, no order is stored, and the
    response carries the identifier [ECO-] followed by the clock reading. *)
Theorem payment_success_charges_covered_lines now sessionId session (w : World) i cart :
  sessionId ≠ "" →
  stripe_sessions_retrieve sessionId = inr session →
  ss_payment_status session = "paid" →
  Cart_findOne (Some (ss_metadata_cartId session)) (ss_metadata_userId session)
    (carts w) = Some (i, cart) →
  let r := handlePaymentSuccess now (Some sessionId) w in
  (∃ stockUpdates,
     r.1 = res_json (JPaid "Payment successful and order processed" sessionId
                       ("ECO-" +:+ pretty now) stockUpdates (length stockUpdates)
                       (num_div (ss_amount_total session) (num_of_Z 100))
                       (ss_currency session))
     ∧ length stockUpdates
       = length (filter (λ it, stock_covers (products w) it = true) (c_items cart)))
  ∧ carts r.2 = <[i := set_items [] cart]> (carts w)
  ∧ orders r.2 = orders w
  ∧ (∀ id,
       match products w !! id with
       | Some p => ∃ p', products r.2 !! id = Some p'
                         ∧ p_stock p' = p_stock p - charged (products w) (c_items cart) id
                         ∧ same_product p p'
       | None => products r.2 !! id = None
       end)
  ∧ (∀ it, stock_covers (products w) it = false →
           it ∉ charged_lines (products w) (c_items cart) (ci_product it))
  ∧ (NoDup (ci_product <$> c_items cart) →
     ∀ id p p', products w !! id = Some p → products r.2 !! id = Some p' →
                0 ≤ p_stock p → 0 ≤ p_stock p').
Proof.
  intros Hs Hret Hpaid Hc. cbv zeta.
  destruct (process_stock_spec now (products w) (c_items cart) (products w) [])
    as (ps' & stockUpdates & Hrun & Hlen & Hps'); [done|].
  assert (handlePaymentSuccess now (Some sessionId) w
          = (res_json (JPaid "Payment successful and order processed" sessionId
                         ("ECO-" +:+ pretty now) stockUpdates (length stockUpdates)
                         (num_div (ss_amount_total session) (num_of_Z 100))
                         (ss_currency session)),
             Cart_save (Some i) (set_items [] cart) (set_products ps' w))) as ->.
  { unfold handlePaymentSuccess.
    rewrite truthy_str_nonempty, Hret, Hpaid, Hc, Hrun by done. done. }
  simpl. split_and!; try done.
  - by exists stockUpdates.
  - intros it Hcov [[_ Hcov'] _]%list_elem_of_filter. congruence.
  - intros Hnd id p p' Hp Hp' Hpos. specialize (Hps' id). rewrite Hp in Hps'.
    destruct Hps' as (p'' & Hp'' & Hst & _). simplify_eq.
    pose proof (charged_one_line_per_product _ _ _ _ Hnd Hp Hpos). lia.
Qed.

(** ** Login and the lockout map *)

Lemma validateAuth_next body :
  validateAuth body = None →
  ∃ username password,
    truthy_str (ab_username body) = Some username
    ∧ truthy_str (ab_password body) = Some password.
Proof.
  unfold validateAuth.
  destruct (truthy_str (ab_username body)) as [username|]; [|done].
  destruct (truthy_str (ab_password body)) as [password|]; [|done].
  intros _. by exists username, password.
Qed.

(** The answers [login] can give. *)
Lemma login_answers body (w : World) :
  login body w = mkResponse 400 (JError "Username & password required")
  ∨ login body w = mkResponse 401 (JError "Invalid credentials")
  ∨ ∃ user, login body w
            = res_json (JLoggedIn "Login successful"
                          (jwt_sign (u_id user) (u_username user) (u_role user))
                          (u_role user) (u_id user) (u_username user)).
Proof.
  unfold login. repeat case_match; eauto.
Qed.

Section Lockout.
Hypothesis jwt_sign_nonempty : ∀ id username role, jwt_sign id username role ≠ "".

Lemma trackFailedLogin_send_login username now body (w : World) m :
  trackFailedLogin_send username now (login body w) m
  = if status (login body w) =? 401
    then <[username := record_failure now (m !! username)]> m
    else if status (login body w) =? 200 then delete username m
    else m.
Proof using jwt_sign_nonempty.
  unfold trackFailedLogin_send.
  destruct (login_answers body w) as [->|[->|[user ->]]]; try done.
  pose proof (jwt_sign_nonempty (u_id user) (u_username user) (u_role user)).
  unfold res_json. cbn [status json body_error body_token].
  change (200 =? 401) with false. change (200 =? 200) with true. cbn [andb].
  rewrite truthy_str_nonempty by done.
  by rewrite bool_decide_eq_true_2 by (by eexists).
Qed.

Lemma login_route_entry u a (w : World) :
  accountLockouts (login_attempt w a).2 !! u
  = entry_step u (accountLockouts w !! u) (a, (login_attempt w a).1)
  ∧ users (login_attempt w a).2 = users w.
Proof using jwt_sign_nonempty.
  unfold login_attempt, login_route, entry_step, for_user. simpl.
  destruct (checkAccountLockout _ _ _) as [r|] eqn:Hlock.
  { simpl. unfold checkAccountLockout in Hlock.
    repeat case_match; simplify_eq; simpl; done. }
  destruct (validateAuth (la_body a)) as [r|] eqn:Hval.
  { simpl. unfold validateAuth in Hval.
    repeat case_match; simplify_eq; simpl; done. }
  destruct (validateAuth_next _ Hval) as (username & password & Hu & Hp).
  rewrite Hu. simpl. split; [|done].
  rewrite trackFailedLogin_send_login.
  case_bool_decide as Heq.
  - simplify_eq. repeat case_match; by rewrite ?lookup_insert_eq, ?lookup_delete_eq.
  - assert (username ≠ u) by congruence.
    repeat case_match; by rewrite ?lookup_insert_ne, ?lookup_delete_ne.
Qed.

Lemma login_run_entry u tr :
  ∀ w : World,
    accountLockouts (login_run w tr).2 !! u
    = fold_left (entry_step u) (zip tr (login_run w tr).1) (accountLockouts w !! u)
    ∧ length (login_run w tr).1 = length tr.
Proof using jwt_sign_nonempty.
  induction tr as [|a tr IH]; intros w; [done|]. simpl.
  destruct (login_attempt w a) as [r w1] eqn:Ha.
  destruct (login_run w1 tr) as [rs w2] eqn:Hrun. simpl.
  destruct (IH w1) as [IH1 IH2]. rewrite Hrun in IH1, IH2. simpl in *.
  rewrite IH1, IH2. split; [|done]. f_equal.
  pose proof (login_route_entry u a w) as [He _]. by rewrite Ha in He.
Qed.

End Lockout.

Lemma entry_steps_failures u (ars : list (LoginAttempt * Response)) e :
  Forall (λ ar, for_user u ar.1 = true → status ar.2 ≠ 200) ars →
  fold_left (entry_step u) ars e
  = after_failures e
      (omap (λ ar : LoginAttempt * Response,
               if for_user u ar.1 && (status ar.2 =? 401)
               then Some (la_now_sent ar.1) else None) ars).
Proof.
  intros Hall. revert e. induction Hall as [|[a r] ars Har _ IH]; intros e; [done|].
  simpl in *. rewrite IH. unfold entry_step. simpl.
  destruct (for_user u a); simpl; [|done].
  destruct (Z.eqb_spec (status r) 401); [done|].
  destruct (Z.eqb_spec (status r) 200); [by destruct Har|done].
Qed.

Lemma record_failure_attempts now e :
  attempts (record_failure now e) = attempts_of e + 1.
Proof. unfold record_failure, attempts_of. by case_match. Qed.

Lemma after_failures_snoc e times now :
  after_failures e (times ++ [now])
  = Some (record_failure now (after_failures e times)).
Proof. unfold after_failures. by rewrite fold_left_app. Qed.

Lemma after_failures_attempts e times :
  attempts_of (after_failures e times) = attempts_of e + Z.of_nat (length times).
Proof.
  induction times as [|now times IH] using rev_ind; [simpl; lia|].
  rewrite after_failures_snoc, length_app. simpl.
  unfold attempts_of at 1. simpl. rewrite record_failure_attempts. lia.
Qed.

Lemma after_failures_locked e times :
  0 ≤ attempts_of e → (5 ≤ length times)%nat →
  ∃ now info,
    last times = Some now ∧ after_failures e times = Some info
    ∧ attempts info = attempts_of e + Z.of_nat (length times)
    ∧ lockedUntil info = now + 30 * 60 * 1000.
Proof.
  intros He Hlen.
  destruct times as [|now times _] using rev_ind; [simpl in Hlen; lia|].
  exists now, (record_failure now (after_failures e times)).
  rewrite last_snoc, after_failures_snoc, record_failure_attempts,
    after_failures_attempts, length_app in *. simpl in *.
  split_and!; [done..|lia|].
  unfold record_failure.
  fold (attempts_of (after_failures e times)). rewrite after_failures_attempts.
  destruct (Z.geb_spec (attempts_of e + Z.of_nat (length times) + 1) 5);
    [done|lia].
Qed.

Lemma login_route_locked now now_sent body (w : World) u info :
  truthy_str (ab_username body) = Some u →
  accountLockouts w !! u = Some info →
  now < lockedUntil info →
  status (login_route now now_sent body w).1 = 423
  ∧ (login_route now now_sent body w).2 = w.
Proof.
  intros Hu He Hnow. unfold login_route, checkAccountLockout.
  rewrite Hu, He.
  destruct (Z.gtb_spec (lockedUntil info) now); [done|lia].
Qed.

(** C9.  Take any run of login requests in which no request for the
    username [u] is answered 200 and five or more of them are answered 401:
    afterwards the lockout map holds for [u] a count of at least 5 and a
    lock that lasts 30 minutes from the last of those failures.  While that
    lock is active any login request for [u] is answered 423 by the lockout
    check, whatever the stored users and the password, and changes nothing.
    A login for [u] answered 200 removes the entry of [u]. *)
Theorem lockout_after_five_failures u (w0 : World) tr :
  (∀ id username role, jwt_sign id username role ≠ "") →
  0 ≤ attempts_of (accountLockouts w0 !! u) →
  let rs := (login_run w0 tr).1 in
  let w := (login_run w0 tr).2 in
  no_success u tr rs →
  (5 ≤ length (failure_times u tr rs))%nat →
  ∃ t info,
    last (failure_times u tr rs) = Some t
    ∧ accountLockouts w !! u = Some info
    ∧ 5 ≤ attempts info
    ∧ lockedUntil info = t + 30 * 60 * 1000
    ∧ (∀ now now_sent body (w' : World),
         accountLockouts w' !! u = Some info →
         truthy_str (ab_username body) = Some u →
         now < lockedUntil info →
         status (login_route now now_sent body w').1 = 423
         ∧ (login_route now now_sent body w').2 = w')
    ∧ (∀ now now_sent body (w' : World),
         truthy_str (ab_username body) = Some u →
         status (login_route now now_sent body w').1 = 200 →
         accountLockouts (login_route now now_sent body w').2 !! u = None).
Proof.
  intros Hjwt He0. cbv zeta. intros Hns Hfail.
  destruct (after_failures_locked _ _ He0 Hfail) as (t & info & Hlast & Haf & Hatt & Hlock).
  exists t, info. split_and!; [done| |lia|done| |].
  - destruct (login_run_entry Hjwt u tr w0) as [-> _].
    by rewrite entry_steps_failures.
  - intros. by eapply login_route_locked.
  - intros now now_sent body w' Hu H200.
    destruct (login_route_entry Hjwt u (mkLoginAttempt now now_sent body) w')
      as [He _].
    unfold login_attempt in He. simpl in He. rewrite He.
    unfold entry_step, for_user. simpl.
    rewrite bool_decide_eq_true_2, H200 by done. done.
Qed.

(** ** Registration *)

(** C4.  A register request with a username that is not taken creates a
    user whenever the schema accepts the document, and the role of that
    user is the role field of the body when the field is supplied and not
    empty, admin included, and [user] only when the field is absent or
    empty.  The route runs the format checks of [validateAuth] and then
    [register]; no credential is asked for. *)
Theorem register_role_from_body body (w : World) username password :
  truthy_str (ab_username body) = Some username →
  truthy_str (ab_password body) = Some password →
  User_findOne username (users w) = None →
  let role := default "user" (truthy_str (ab_role body)) in
  let newUser := mkUser (oid_counter w) username (bcrypt_hashSync password 8) role in
  (User_validate newUser = None →
   register body w
   = (res_json (JRegistered "User registered" (oid_counter w) role),
      set_users (users w ++ [newUser]) (new_ObjectId w).2))
  ∧ (∀ r w', register body w = (r, w') → status r = 200 →
             users w' = users w ++ [newUser])
  ∧ (∀ r, ab_role body = Some r → r ≠ "" → role = r)
  ∧ (ab_role body = None ∨ ab_role body = Some "" → role = "user")
  ∧ (validateAuth body = None → register_route body w = register body w).
Proof.
  intros Hu Hp Hfree. cbv zeta.
  assert (∀ o, match truthy_str o with Some r => r | None => "user" end
               = default "user" (truthy_str o)) as Hrole
    by (intros o; by destruct (truthy_str o)).
  split_and!.
  - intros Hok. unfold register. rewrite Hu, Hp, Hfree. simpl.
    rewrite Hrole, Hok. done.
  - intros r w'. unfold register. rewrite Hu, Hp, Hfree. simpl.
    rewrite Hrole. destruct (User_validate _); intros [= <- <-]; [done|].
    done.
  - intros r -> Hr. by rewrite truthy_str_nonempty.
  - by intros [->| ->].
  - intros Hv. unfold register_route. by rewrite Hv.
Qed.

(** ** Changing the password *)

(** C10.  A change-password request whose current and new password are the
    same value is answered 400 by the check in front of the controller, so
    the controller, with its hash comparison and its update, does not run,
    and the world, the user record in it, stays as it was. *)
Theorem changePassword_same_value_rejected userId (w : World) (s : string) :
  let body := mkChangePasswordBody (Some s) (Some s) in
  ∃ r, changePassword_check body = Some r
       ∧ status r = 400
       ∧ changePassword_route userId body w = (r, w).
Proof.
  cbv zeta. unfold changePassword_route, changePassword_check. simpl.
  destruct s as [|a s]; simpl; [by eexists|].
  rewrite Ascii.eqb_refl, String.eqb_refl.
  destruct (_ || _); by eexists.
Qed.

(** ** Updating a product *)

Lemma updateProduct_cases id body (w : World) :
  (updateProduct id body w).2 = w ∧ status (updateProduct id body w).1 ≠ 200
  ∨ ∃ p, products w !! id = Some p
         ∧ Product_validate_update (updateData_of body) = None
         ∧ updateProduct id body w
           = (res_json (JProductUpdated "Product updated successfully"
                          (Product_apply (updateData_of body) p)),
              set_products (<[id := Product_apply (updateData_of body) p]>
                              (products w)) w).
Proof.
  unfold updateProduct.
  destruct (match pb_price body with Some _ => _ | None => _ end); [by left|].
  destruct (match pb_stock body with Some _ => _ | None => _ end); [by left|].
  destruct (Product_validate_update _) eqn:Hv; [by left|].
  destruct (products w !! id) as [p|] eqn:Hp; [|by left].
  right. by exists p.
Qed.

Lemma updateProduct_route_cases id body (w : World) :
  (updateProduct_route id body w).2 = w
  ∧ status (updateProduct_route id body w).1 ≠ 200
  ∨ ∃ p, products w !! id = Some p
         ∧ validateProductData body = None
         ∧ Product_validate_update (updateData_of body) = None
         ∧ updateProduct_route id body w
           = (res_json (JProductUpdated "Product updated successfully"
                          (Product_apply (updateData_of body) p)),
              set_products (<[id := Product_apply (updateData_of body) p]>
                              (products w)) w).
Proof.
  unfold updateProduct_route.
  destruct (validateProductData body) as [r|] eqn:Hv.
  - left. unfold validateProductData in Hv. case_bool_decide; by simplify_eq.
  - destruct (updateProduct_cases id body w) as [?|(p & ? & ? & ?)]; [by left|].
    right. by exists p.
Qed.

(** A field that the body does not have is not in [updateData]. *)
Lemma Product_apply_absent body p :
  let p' := Product_apply (updateData_of body) p in
  (pb_name body = None → p_name p' = p_name p)
  ∧ (pb_description body = None → p_description p' = p_description p)
  ∧ (pb_price body = None → p_price p' = p_price p)
  ∧ (pb_category body = None → p_category p' = p_category p)
  ∧ (pb_image body = None → p_image p' = p_image p)
  ∧ (pb_stock body = None → p_stock p' = p_stock p)
  ∧ p_createdAt p' = p_createdAt p ∧ p_updatedAt p' = p_updatedAt p.
Proof.
  unfold Product_apply, updateData_of. simpl.
  split_and!; try done; by intros ->.
Qed.

(** What the checks of [validateProductData] leave through. *)
Lemma validateProductData_next body :
  validateProductData body = None →
  (∀ name, pb_name body = Some name → name ≠ "")
  ∧ (∀ description, pb_description body = Some description → description ≠ "")
  ∧ (∀ price, pb_price body = Some price →
              num_isNaN price = false ∧ num_leb price (num_of_Z 0) = false)
  ∧ (∀ category, pb_category body = Some category → category ≠ "").
Proof.
  unfold validateProductData. case_bool_decide as Hlen; [done|]. intros _.
  assert (∀ l : list string, ¬ (0 < length l)%nat → l = []) as Hnil
    by (intros [|??] ?; [done|simpl in *; lia]).
  apply Hnil in Hlen.
  repeat (apply app_eq_nil in Hlen as [? Hlen]).
  split_and!.
  - intros name Hn ->. by rewrite Hn in *.
  - intros d Hd ->. by rewrite Hd in *.
  - intros price Hpr. rewrite Hpr in *.
    destruct (num_isNaN price); [done|].
    destruct (num_leb price (num_of_Z 0)); done.
  - intros c Hc ->. by rewrite Hc in *.
Qed.

Lemma updateData_of_valid body :
  (∀ n, num_isNaN n = false → num_leb n (num_of_Z 0) = false →
        num_truthy n = true) →
  validateProductData body = None →
  ∀ p, Product_apply (updateData_of body) p = patched body p.
Proof.
  intros Hlaw (Hn & Hd & Hpr & Hc)%validateProductData_next p.
  unfold Product_apply, updateData_of, patched. simpl. f_equal.
  - destruct (pb_name body) as [name|]; [|done].
    by rewrite truthy_str_nonempty by eauto.
  - destruct (pb_description body) as [d|]; [|done].
    by rewrite truthy_str_nonempty by eauto.
  - destruct (pb_price body) as [price|]; [|done].
    destruct (Hpr price) as [??]; [done|]. by rewrite Hlaw.
  - destruct (pb_category body) as [c|]; [|done].
    by rewrite truthy_str_nonempty by eauto.
Qed.

(** C8.  A product-update request changes no product but the one it names,
    and of that one no field that the body does not have: an absent image
    leaves the stored image as it is.  When the update is applied (200),
    the product holds the fields of the body, name and description
    trimmed, and its other fields as before.  A body whose only field is
    the empty image clears the image of an existing product. *)
Theorem updateProduct_patches_present_fields id body (w : World) :
  let r := updateProduct_route id body w in
  (∀ id' p,
     products w !! id' = Some p →
     ∃ p', products r.2 !! id' = Some p'
           ∧ (id' ≠ id → p' = p)
           ∧ (pb_name body = None → p_name p' = p_name p)
           ∧ (pb_description body = None → p_description p' = p_description p)
           ∧ (pb_price body = None → p_price p' = p_price p)
           ∧ (pb_category body = None → p_category p' = p_category p)
           ∧ (pb_image body = None → p_image p' = p_image p)
           ∧ (pb_stock body = None → p_stock p' = p_stock p)
           ∧ p_createdAt p' = p_createdAt p ∧ p_updatedAt p' = p_updatedAt p)
  ∧ ((∀ n, num_isNaN n = false → num_leb n (num_of_Z 0) = false →
           num_truthy n = true) →
     status r.1 = 200 →
     ∃ p, products w !! id = Some p
          ∧ r = (res_json (JProductUpdated "Product updated successfully"
                             (patched body p)),
                 set_products (<[id := patched body p]> (products w)) w))
  ∧ (∀ p, body = mkProductBody None None None None (Some "") None →
          products w !! id = Some p →
          status r.1 = 200
          ∧ ∃ p', products r.2 !! id = Some p' ∧ p_image p' = ""
                  ∧ p_name p' = p_name p ∧ p_description p' = p_description p
                  ∧ p_price p' = p_price p ∧ p_category p' = p_category p
                  ∧ p_stock p' = p_stock p).
Proof.
  cbv zeta. split_and!.
  - intros id' p Hp.
    destruct (updateProduct_route_cases id body w)
      as [[-> _]|(p0 & Hp0 & _ & _ & ->)].
    { exists p. by split_and!. }
    simpl. destruct (decide (id' = id)) as [->|Hne].
    + rewrite lookup_insert_eq. simplify_eq. eexists. split; [done|].
      split; [done|]. apply Product_apply_absent.
    + rewrite lookup_insert_ne by done. exists p. by split_and!.
  - intros Hlaw H200.
    destruct (updateProduct_route_cases id body w)
      as [[_ ?]|(p & Hp & Hv & _ & ->)]; [done|].
    exists p. split; [done|]. by rewrite updateData_of_valid.
  - intros p -> Hp. unfold updateProduct_route, updateProduct. simpl.
    rewrite Hp. simpl. split; [done|]. rewrite lookup_insert_eq.
    eexists. split; [done|]. by split_and!.
Qed.

(** ** Lists, continued *)

Lemma filter_insert_neither {A} (P : A → Prop) `{!∀ x, Decision (P x)}
    (l : list A) i x y :
  l !! i = Some x → ¬ P x → ¬ P y → filter P (<[i := y]> l) = filter P l.
Proof.
  intros Hi Hx Hy. rewrite <- (take_drop_middle l i x Hi) at 2.
  rewrite insert_take_drop by eauto using lookup_lt_Some.
  by rewrite !filter_app, !filter_cons_False.
Qed.

Lemma filter_delete_not {A} (P : A → Prop) `{!∀ x, Decision (P x)}
    (l : list A) i x :
  l !! i = Some x → ¬ P x → filter P (delete i l) = filter P l.
Proof.
  intros Hi Hx. rewrite <- (take_drop_middle l i x Hi) at 2.
  by rewrite delete_take_drop, !filter_app, filter_cons_False.
Qed.

Lemma filter_all {A} (P : A → Prop) `{!∀ x, Decision (P x)} (l : list A) :
  Forall P l → filter P l = l.
Proof.
  induction 1 as [|x l Hx _ IH]; [done|]. by rewrite filter_cons_True, IH.
Qed.

Lemma Forall_sublist_of {A} (P : A → Prop) (l k : list A) :
  k `sublist_of` l → Forall P l → Forall P k.
Proof.
  intros Hs Hl. apply Forall_forall. intros x Hx.
  eapply Forall_forall; [done|]. by eapply elem_of_sublist.
Qed.

(** ** Every cart request is a step on the carts of its user *)

Lemma items_step_refl fresh ps its : items_step fresh ps its its.
Proof. by apply items_dropped. Qed.

Lemma Cart_findOne_item_lookup id userId (cs : list Cart) i c :
  Cart_findOne_item id userId cs = Some (i, c) →
  cs !! i = Some c ∧ c_user c = userId ∧ Exists (λ it, ci_id it = id) (c_items c).
Proof. by intros (? & [??] & _)%list_find_Some. Qed.

Lemma createCart_step fresh userId (w : World) :
  carts_step fresh userId (products w) (carts w) (carts (createCart userId w).2)
  ∧ products (createCart userId w).2 = products w
  ∧ users (createCart userId w).2 = users w.
Proof.
  unfold createCart.
  destruct (Cart_findOne None userId (carts w)) as [[i c]|]; simpl.
  - split; [apply carts_same|done].
  - split; [|done]. apply carts_inserted, items_step_refl.
Qed.

(** A text that spells its id as [toString()] does and is found on no line
    is the text of a product the cart has no line of. *)
Lemma findIndex_product_fresh productId (its : list CartItem) product_id :
  findIndex_product productId its = None →
  ObjectId_cast productId = Some product_id →
  canonical_id productId →
  product_id ∉ ci_product <$> its.
Proof.
  intros Hl Hcast Hcan (it & -> & Hin)%list_elem_of_fmap.
  unfold canonical_id in Hcan. rewrite Hcast in Hcan.
  apply list_find_None in Hl. rewrite Forall_forall in Hl.
  by apply (Hl it).
Qed.

Lemma addToCart_step fresh userId body (w : World) :
  (fresh = true → from_option canonical_id True (add_productId body)) →
  carts_step fresh userId (products w) (carts w) (carts (addToCart userId body w).2)
  ∧ products (addToCart userId body w).2 = products w
  ∧ users (addToCart userId body w).2 = users w.
Proof.
  intros Hfresh.
  destruct (addToCart_cases userId body w) as (Hps & Hus & Hcases).
  split; [|done].
  destruct Hcases as [[_ ->]|(productId & quantity & product_id & p & q & items'
    & Hpid & _ & Hcast & Hp & Hq & Hitems & _ & ->)]; [apply carts_same|].
  assert (add_productId body = Some productId) as Hbody.
  { by destruct (add_productId body) as [[]|]. }
  assert (items_step fresh (products w) (c_items (cart_of_add userId body w)) items')
    as Hstep.
  { destruct Hitems as [(j & line & Hl & _ & ->)|(lid & Hl & _ & _ & ->)].
    - destruct (findIndex_product_line _ _ _ _ _ Hl Hcast) as [Hj Hpl].
      eapply items_set; [done| |done]. by rewrite Hpl.
    - eapply items_pushed; [|done..].
      intros ->. eapply findIndex_product_fresh; [done..|].
      specialize (Hfresh eq_refl). by rewrite Hbody in Hfresh. }
  unfold cart_of_add in *.
  destruct (Cart_findOne (add_cartId body) userId (carts w)) as [[i c]|] eqn:Hc.
  - apply Cart_findOne_lookup in Hc as [Hi Hu]. by apply carts_saved.
  - by apply (carts_inserted _ _ _ _ _ items').
Qed.

Lemma getCart_step fresh userId cartId (w : World) :
  carts_step fresh userId (products w) (carts w) (carts (getCart userId cartId w).2)
  ∧ products (getCart userId cartId w).2 = products w
  ∧ users (getCart userId cartId w).2 = users w.
Proof.
  destruct (Cart_findOne cartId userId (carts w)) as [[i c]|] eqn:Hc.
  - rewrite (getCart_found _ _ _ _ _ Hc). simpl. split; [|done].
    apply Cart_findOne_lookup in Hc as [Hi Hu].
    apply carts_saved; [done..|]. apply items_dropped, sublist_filter.
  - unfold getCart. rewrite Hc. split; [apply carts_same|done].
Qed.

Lemma updateCartItem_step fresh userId id quantity (w : World) :
  carts_step fresh userId (products w) (carts w)
    (carts (updateCartItem userId id quantity w).2)
  ∧ products (updateCartItem userId id quantity w).2 = products w
  ∧ users (updateCartItem userId id quantity w).2 = users w.
Proof.
  destruct (decide (status (updateCartItem userId id quantity w).1 = 200)) as [Hr|Hr].
  - destruct (updateCartItem userId id quantity w) as [r w'] eqn:Hu. simpl in *.
    destruct (updateCartItem_ok _ _ _ _ _ _ Hu Hr)
      as (v & q & i & cart & j & line & p & -> & _ & Hq1 & Hc & Hl & Hp & Hq & ->).
    split; [|done]. simpl.
    apply Cart_findOne_item_lookup in Hc as (Hi & Hus & _).
    apply carts_saved; [done..|].
    apply list_find_Some in Hl as (Hj & _).
    by eapply items_set.
  - rewrite updateCartItem_failed by done. split; [apply carts_same|done].
Qed.

Lemma removeFromCart_step fresh userId id (w : World) :
  carts_step fresh userId (products w) (carts w) (carts (removeFromCart userId id w).2)
  ∧ products (removeFromCart userId id w).2 = products w
  ∧ users (removeFromCart userId id w).2 = users w.
Proof.
  unfold removeFromCart.
  destruct (Cart_findOne_item id userId (carts w)) as [[i c]|] eqn:Hc;
    [|split; [apply carts_same|done]].
  destruct (items_id id (c_items c)); [|split; [apply carts_same|done]].
  split; [|done]. simpl.
  apply Cart_findOne_item_lookup in Hc as (Hi & Hu & _).
  apply carts_saved; [done..|]. apply items_dropped, sublist_filter.
Qed.

Lemma clearCart_step fresh userId cartId (w : World) :
  carts_step fresh userId (products w) (carts w) (carts (clearCart userId cartId w).2)
  ∧ products (clearCart userId cartId w).2 = products w
  ∧ users (clearCart userId cartId w).2 = users w.
Proof.
  unfold clearCart.
  destruct (Cart_findOne cartId userId (carts w)) as [[i c]|] eqn:Hc;
    [|split; [apply carts_same|done]].
  split; [|done]. simpl.
  apply Cart_findOne_lookup in Hc as [Hi Hu].
  apply carts_saved; [done..|]. apply items_dropped, sublist_nil_l.
Qed.

Lemma deleteCart_step fresh userId cartId (w : World) :
  carts_step fresh userId (products w) (carts w) (carts (deleteCart userId cartId w).2)
  ∧ products (deleteCart userId cartId w).2 = products w
  ∧ users (deleteCart userId cartId w).2 = users w.
Proof.
  unfold deleteCart.
  destruct (Cart_findOne (Some cartId) userId (carts w)) as [[i c]|] eqn:Hc;
    [|split; [apply carts_same|done]].
  split; [|done]. simpl.
  apply Cart_findOne_lookup in Hc as [Hi Hu].
  by eapply carts_deleted.
Qed.

Lemma getCartSummary_same userId (w : World) :
  (getCartSummary userId w).2 = w.
Proof. unfold getCartSummary. by repeat case_match. Qed.

Lemma cart_request_step fresh userId req (w : World) :
  (fresh = true → canonical_request req) →
  carts_step fresh userId (products w) (carts w) (carts (cart_request userId req w).2)
  ∧ products (cart_request userId req w).2 = products w
  ∧ users (cart_request userId req w).2 = users w.
Proof.
  intros Hfresh. destruct req; simpl.
  - apply createCart_step.
  - by apply addToCart_step.
  - apply getCart_step.
  - apply updateCartItem_step.
  - apply removeFromCart_step.
  - apply clearCart_step.
  - rewrite getCartSummary_same. split; [apply carts_same|done].
  - apply deleteCart_step.
Qed.

(** ** What a step keeps *)

Lemma carts_step_others fresh userId ps cs cs' v :
  carts_step fresh userId ps cs cs' → v ≠ userId → carts_of v cs' = carts_of v cs.
Proof.
  intros Hs Hv. unfold carts_of.
  destruct Hs as [cs|cs i c its' Hi Hu _|cs oid its' _|cs i c Hi Hu].
  - done.
  - eapply filter_insert_neither; [done|..]; simpl; congruence.
  - rewrite filter_app, filter_cons_False by (simpl; congruence).
    by rewrite filter_nil, app_nil_r.
  - eapply filter_delete_not; [done|]. congruence.
Qed.

Lemma items_step_quantities_ok fresh ps (c : Cart) its' :
  items_step fresh ps (c_items c) its' → quantities_ok c →
  quantities_ok (set_items its' c).
Proof.
  unfold quantities_ok. simpl. intros Hs Hq.
  remember (c_items c) as its eqn:Hits. clear Hits c.
  destruct Hs as [its its' Hsub|its j line q p Hj Hp Hle|its lid pid q p _ Hp Hq'].
  - by eapply Forall_sublist_of.
  - apply Forall_insert; [done|]. simpl. lia.
  - apply Forall_app. split; [done|]. apply Forall_singleton. simpl. lia.
Qed.

Lemma items_step_lines_ok ps (c : Cart) its' :
  items_step true ps (c_items c) its' → lines_ok c → lines_ok (set_items its' c).
Proof.
  intros Hs [Hq Hnd]. split; [by eapply items_step_quantities_ok|]. simpl.
  remember (c_items c) as its eqn:Hits. clear Hits Hq c.
  destruct Hs as [its its' Hsub|its j line q p Hj Hp Hle|its lid pid q p Hnew Hp Hq'].
  - eapply sublist_NoDup; [done|]. by apply fmap_sublist.
  - rewrite list_fmap_insert. simpl.
    rewrite list_insert_id; [done|]. by rewrite list_lookup_fmap, Hj.
  - rewrite fmap_app. apply NoDup_app. split_and!; [done| |apply NoDup_singleton].
    intros x Hx ->%list_elem_of_singleton. by apply Hnew.
Qed.

Lemma carts_step_quantities_ok fresh userId ps cs cs' :
  carts_step fresh userId ps cs cs' → Forall quantities_ok cs →
  Forall quantities_ok cs'.
Proof.
  intros Hs Hcs.
  destruct Hs as [cs|cs i c its' Hi Hu Hit|cs oid its' Hit|cs i c Hi Hu].
  - done.
  - apply Forall_insert; [done|]. apply (items_step_quantities_ok fresh ps); [done|].
    by apply (Forall_lookup_1 _ _ _ _ Hcs Hi).
  - apply Forall_app. split; [done|]. apply Forall_singleton.
    apply (items_step_quantities_ok fresh ps (mkCart oid userId [])); [done|].
    constructor.
  - by apply Forall_delete.
Qed.

Lemma carts_step_lines_ok userId ps cs cs' :
  carts_step true userId ps cs cs' → Forall lines_ok cs → Forall lines_ok cs'.
Proof.
  intros Hs Hcs.
  destruct Hs as [cs|cs i c its' Hi Hu Hit|cs oid its' Hit|cs i c Hi Hu].
  - done.
  - apply Forall_insert; [done|]. apply (items_step_lines_ok ps); [done|].
    by apply (Forall_lookup_1 _ _ _ _ Hcs Hi).
  - apply Forall_app. split; [done|]. apply Forall_singleton.
    apply (items_step_lines_ok ps (mkCart oid userId [])); [done|].
    split; [constructor|]. simpl. constructor.
  - by apply Forall_delete.
Qed.

(** ** Creating a cart *)

(** X1.  After [createCart] the user has a cart, the one whose id the
    response names, and asking again answers "Cart already exists" with
    that id and changes nothing.  A user who has a cart gets no second one;
    a user who has none gets an empty cart at the end of the collection. *)
Theorem createCart_once userId (w : World) :
  let r := createCart userId w in
  ∃ message i cart,
    r.1 = ans_json (RCart message (c_id cart))
    ∧ Cart_findOne None userId (carts r.2) = Some (i, cart)
    ∧ createCart userId r.2
      = (ans_json (RCart "Cart already exists" (c_id cart)), r.2)
    ∧ (is_Some (Cart_findOne None userId (carts w)) → r.2 = w)
    ∧ (Cart_findOne None userId (carts w) = None →
       c_items cart = [] ∧ carts r.2 = carts w ++ [cart]).
Proof.
  cbv zeta.
  destruct (Cart_findOne None userId (carts w)) as [[i c]|] eqn:Hc.
  - assert (createCart userId w
            = (ans_json (RCart "Cart already exists" (c_id c)), w)) as Hr
      by (unfold createCart; by rewrite Hc).
    rewrite Hr. simpl. exists "Cart already exists", i, c.
    split_and!; done.
  - set (cart := mkCart (oid_counter w) userId []).
    assert (createCart userId w
            = (ans_json (RCart "Cart created" (c_id cart)),
               set_carts (carts w ++ [cart]) (new_ObjectId w).2)) as Hr
      by (unfold createCart; by rewrite Hc).
    rewrite Hr. simpl.
    exists "Cart created", (0 + length (carts w))%nat, cart.
    assert (Cart_findOne None userId (carts w ++ [cart])
            = Some ((0 + length (carts w))%nat, cart)) as Hf.
    { unfold Cart_findOne in *. rewrite list_find_app_r by done.
      simpl. by rewrite decide_True. }
    split_and!; try done.
    unfold createCart. cbn [carts set_carts]. by rewrite Hf.
Qed.

(** ** Users and their carts *)

Lemma cart_requests_snoc (w : World) reqs userId req :
  cart_requests w (reqs ++ [(userId, req)])
  = (cart_request userId req (cart_requests w reqs)).2.
Proof. unfold cart_requests. by rewrite fold_left_app. Qed.

(** X2.  The carts of a user are touched by that user's requests only:
    after any sequence of cart requests made by other users they are what
    they were, in the same order.  No cart request changes a product or a
    user. *)
Theorem cart_requests_of_others (w : World) reqs userId :
  Forall (λ ur, ur.1 ≠ userId) reqs →
  carts_of userId (carts (cart_requests w reqs)) = carts_of userId (carts w)
  ∧ products (cart_requests w reqs) = products w
  ∧ users (cart_requests w reqs) = users w.
Proof.
  induction reqs as [|[u req] reqs IH] using rev_ind; [done|].
  intros [Hreqs Hu]%Forall_app. apply Forall_inv in Hu. simpl in Hu.
  rewrite cart_requests_snoc.
  destruct (IH Hreqs) as (IHc & IHp & IHu).
  destruct (cart_request_step false u req (cart_requests w reqs))
    as (Hs & Hp & Hus); [done|].
  rewrite Hp, Hus. split_and!; [|done..].
  rewrite <- IHc. eapply carts_step_others; [done|]. intros ->. by apply Hu.
Qed.

(** ** Well-formed carts *)

Lemma createCheckoutSession_keeps env now userId email cartId (w : World) :
  carts (createCheckoutSession env now userId email cartId w).2 = carts w
  ∧ products (createCheckoutSession env now userId email cartId w).2 = products w
  ∧ users (createCheckoutSession env now userId email cartId w).2 = users w.
Proof. unfold createCheckoutSession. by repeat case_match. Qed.

(** The outcomes of [handlePaymentSuccess]: an answer other than 200 that
    changes nothing, or the answer 200 with the stock charged and the cart
    emptied. *)
Lemma handlePaymentSuccess_cases now sessionId (w : World) :
  let r := handlePaymentSuccess now sessionId w in
  (status r.1 ≠ 200 ∧ r.2 = w)
  ∨ ∃ sid session i cart ps stockUpdates,
      truthy_str sessionId = Some sid
      ∧ stripe_sessions_retrieve sid = inr session
      ∧ ss_payment_status session = "paid"
      ∧ Cart_findOne (Some (ss_metadata_cartId session))
          (ss_metadata_userId session) (carts w) = Some (i, cart)
      ∧ process_stock now (populate (products w) (c_items cart)) (products w) []
        = (ps, Some stockUpdates)
      ∧ r = (res_json (JPaid "Payment successful and order processed" sid
                         ("ECO-" +:+ pretty now) stockUpdates (length stockUpdates)
                         (num_div (ss_amount_total session) (num_of_Z 100))
                         (ss_currency session)),
             Cart_save (Some i) (set_items [] cart) (set_products ps w)).
Proof.
  cbv zeta. unfold handlePaymentSuccess.
  destruct (truthy_str sessionId) as [sid|] eqn:Hsid; [|by left].
  destruct (stripe_sessions_retrieve sid) as [msg|session] eqn:Hs; [by left|].
  destruct (String.eqb_spec (ss_payment_status session) "paid") as [Hpaid|];
    [|by left]. cbn [negb].
  destruct (Cart_findOne (Some (ss_metadata_cartId session))
              (ss_metadata_userId session) (carts w)) as [[i cart]|] eqn:Hc;
    [|by left].
  destruct (process_stock_spec now (products w) (c_items cart) (products w) [])
    as (ps & stockUpdates & Hps & _); [done|].
  rewrite Hps. right. by exists sid, session, i, cart, ps, stockUpdates.
Qed.

Lemma shop_request_quantities_ok req (w : World) :
  Forall quantities_ok (carts w) →
  Forall quantities_ok (carts (shop_request req w)).
Proof.
  intros Hw. destruct req as [userId req|env now userId email cartId|now sessionId];
    simpl.
  - destruct (cart_request_step false userId req w) as (Hs & _); [done|].
    by eapply carts_step_quantities_ok.
  - by destruct (createCheckoutSession_keeps env now userId email cartId w) as (-> & _).
  - destruct (handlePaymentSuccess_cases now sessionId w)
      as [[_ ->]|(sid & session & i & cart & ps & su & _ & _ & _ & Hc & _ & ->)];
      [done|]. simpl.
    apply Forall_insert; [done|]. constructor.
Qed.

Lemma shop_request_lines_ok req (w : World) :
  canonical_shop_request req →
  Forall lines_ok (carts w) → Forall lines_ok (carts (shop_request req w)).
Proof.
  intros Hreq Hw.
  destruct req as [userId req|env now userId email cartId|now sessionId]; simpl.
  - destruct (cart_request_step true userId req w) as (Hs & _); [done|].
    by eapply carts_step_lines_ok.
  - by destruct (createCheckoutSession_keeps env now userId email cartId w) as (-> & _).
  - destruct (handlePaymentSuccess_cases now sessionId w)
      as [[_ ->]|(sid & session & i & cart & ps & su & _ & _ & _ & Hc & _ & ->)];
      [done|]. simpl.
    apply Forall_insert; [done|]. split; simpl; constructor.
Qed.

(** X3.  Carts stay well-formed.  If each line of every cart asks for at
    least one unit, so does each line after any sequence of requests to the
    cart controller, checkouts and payment confirmations.  If moreover no
    two lines of a cart are for the same product, that holds afterwards
    too, provided every add request names its product in the spelling of
    [toString()], lower case: the handler looks for the line of a product
    by the text of the id. *)
Theorem shop_requests_keep_lines_ok (w : World) reqs :
  (Forall quantities_ok (carts w) →
   Forall quantities_ok (carts (shop_requests w reqs)))
  ∧ (Forall canonical_shop_request reqs → Forall lines_ok (carts w) →
     Forall lines_ok (carts (shop_requests w reqs))).
Proof.
  split.
  - revert w. induction reqs as [|req reqs IH]; intros w Hw; [done|].
    simpl. by apply IH, shop_request_quantities_ok.
  - revert w. induction reqs as [|req reqs IH]; intros w Hreqs Hw; [done|].
    apply Forall_cons in Hreqs as [Hreq Hreqs].
    simpl. by apply IH, shop_request_lines_ok.
Qed.

(** ** Removing a line *)

Lemma items_id_Exists id (its : list CartItem) :
  Exists (λ it, ci_id it = id) its → is_Some (items_id id its).
Proof.
  intros (it & Hit & Hid)%Exists_exists.
  destruct (list_find_elem_of (λ it, ci_id it = id) its it Hit Hid) as [[j x] Hx].
  unfold items_id. rewrite Hx. by eexists.
Qed.

Lemma items_pull_fresh id (its : list CartItem) :
  Forall (λ it, ci_id it ≠ id) its → items_pull id its = its.
Proof. apply filter_all. Qed.

(** X4.  Adding a product under a text that the cart has no line of and
    then removing the new line gives back the carts as they were.  The new
    line takes the next ObjectId, which no line in the store has; the
    quantity is a number from 1 to the stock, or a string that is stored as
    one. *)
Theorem addToCart_then_removeFromCart userId cartId productId quantity
    (w : World) i cart product_id p q :
  Cart_findOne cartId userId (carts w) = Some (i, cart) →
  findIndex_product productId (c_items cart) = None →
  ObjectId_cast productId = Some product_id →
  products w !! product_id = Some p →
  Cart_quantity quantity = Some q → q ≤ p_stock p →
  Forall (λ c, Forall (λ it, ci_id it ≠ oid_counter w) (c_items c)) (carts w) →
  let added :=
    addToCart userId (mkAddToCartBody cartId (Some productId) (Some quantity)) w in
  let removed := removeFromCart userId (oid_counter w) added.2 in
  added.1 = res_json (JItemAdded "Item added to cart" (c_id cart)
                        (length (c_items cart) + 1))
  ∧ carts added.2
    = <[i := set_items (c_items cart ++ [mkCartItem (oid_counter w) product_id q])
              cart]> (carts w)
  ∧ removed.1 = ans_json (RItemRemoved "Item removed from cart successfully"
                            (oid_counter w) (length (c_items cart)))
  ∧ carts removed.2 = carts w
  ∧ products removed.2 = products w.
Proof.
  intros Hc Hl Hcast Hp Hq Hle Hfresh. cbv zeta.
  pose proof (Cart_findOne_lookup _ _ _ _ _ Hc) as [Hi Hu].
  assert (Forall (λ it, ci_id it ≠ oid_counter w) (c_items cart)) as Hcart
    by (by apply (Forall_lookup_1 _ _ _ _ Hfresh Hi)).
  set (line := mkCartItem (oid_counter w) product_id q).
  assert (addToCart userId (mkAddToCartBody cartId (Some productId) (Some quantity)) w
          = (res_json (JItemAdded "Item added to cart" (c_id cart)
                         (length (c_items cart) + 1)),
             Cart_save (Some i) (set_items (c_items cart ++ [line]) cart)
               (new_ObjectId w).2)) as ->.
  { destruct (Cart_quantity_checks _ _ _ Hq Hle) as (Ht & Hle0 & _ & Hgt).
    unfold addToCart. cbn [add_productId add_quantity add_cartId].
    rewrite (ObjectId_cast_nonempty _ _ Hcast), Ht, Hle0, Hc, Hcast. cbn [negb].
    rewrite Hp, Hgt, Hl. cbn [new_ObjectId]. rewrite Hq.
    cbn [c_items set_items c_id]. by rewrite length_app. }
  cbn [fst snd]. set (cart' := set_items (c_items cart ++ [line]) cart).
  assert (Cart_findOne_item (oid_counter w) userId (<[i := cart']> (carts w))
          = Some (i, cart')) as Hf.
  { apply list_find_Some. split_and!.
    - apply list_lookup_insert_eq. by eapply lookup_lt_Some.
    - simpl. apply Exists_app. right. by constructor.
    - done.
    - intros j c Hj Hji [Hex _].
      rewrite list_lookup_insert_ne in Hj by lia.
      apply (Forall_lookup_1 _ _ _ _ Hfresh) in Hj.
      apply Exists_exists in Hex as (it & Hit & Hid).
      by apply (proj1 (Forall_forall _ _) Hj it). }
  assert (removeFromCart userId (oid_counter w)
            (Cart_save (Some i) cart' (new_ObjectId w).2)
          = (ans_json (RItemRemoved "Item removed from cart successfully"
                         (oid_counter w) (length (c_items cart))),
             Cart_save (Some i) (set_items (c_items cart) cart')
               (Cart_save (Some i) cart' (new_ObjectId w).2))) as ->.
  { unfold removeFromCart. cbn [Cart_save carts set_carts new_ObjectId snd].
    rewrite Hf.
    destruct (items_id_Exists (oid_counter w) (c_items cart'))
      as [[j x] ->]; [simpl; apply Exists_app; right; by constructor|].
    cbn [c_items cart' set_items]. unfold items_pull at 1 2.
    rewrite filter_app, filter_cons_False, filter_nil, app_nil_r
      by (simpl; by intros []).
    fold (items_pull (oid_counter w) (c_items cart)).
    by rewrite items_pull_fresh. }
  simpl. split_and!; [done..| |done].
  rewrite list_insert_insert_eq. apply list_insert_id.
  rewrite Hi. by destruct cart.
Qed.

Lemma omap_cons_Some {A B} (f : A → option B) x y (l : list A) :
  f x = Some y → omap f (x :: l) = y :: omap f l.
Proof. intros Hf. simpl. by rewrite Hf. Qed.

Lemma omap_cons_None {A B} (f : A → option B) x (l : list A) :
  f x = None → omap f (x :: l) = omap f l.
Proof. intros Hf. simpl. by rewrite Hf. Qed.

Lemma line_view_id ps it v : line_view ps it = Some v → v_id v = ci_id it.
Proof.
  unfold line_view. destruct (ps !! ci_product it); simpl; [|done].
  by intros [= <-].
Qed.

Lemma line_views_pull ps id (its : list CartItem) :
  omap (line_view ps) (items_pull id its)
  = filter (λ v, v_id v ≠ id) (omap (line_view ps) its).
Proof.
  unfold items_pull. induction its as [|it its IH]; [done|].
  rewrite filter_cons.
  destruct (line_view ps it) as [v|] eqn:Hv.
  - rewrite (omap_cons_Some _ _ _ _ Hv). apply line_view_id in Hv as Hid.
    destruct (decide (ci_id it ≠ id)) as [Hne|Hne].
    + rewrite (omap_cons_Some _ _ _ _ Hv), filter_cons_True, IH; [done|].
      by rewrite Hid.
    + rewrite filter_cons_False, IH; [done|]. by rewrite Hid.
  - rewrite (omap_cons_None _ _ _ Hv).
    destruct (decide (ci_id it ≠ id)); [|done].
    by rewrite (omap_cons_None _ _ _ Hv).
Qed.

(** X5.  After a line is removed, [getCart] lists what it listed before
    without that line, the other lines in their order. *)
Theorem removeFromCart_then_getCart userId cartId id (w : World) i cart :
  Cart_findOne_item id userId (carts w) = Some (i, cart) →
  Cart_findOne cartId userId (carts w) = Some (i, cart) →
  ∃ cartItems,
    (getCart userId cartId w).1 = res_json (JCartItems cartItems)
    ∧ a_status (removeFromCart userId id w).1 = 200
    ∧ (getCart userId cartId (removeFromCart userId id w).2).1
      = res_json (JCartItems (filter (λ v, v_id v ≠ id) cartItems)).
Proof.
  intros Hit Hc. exists (omap (line_view (products w)) (c_items cart)).
  rewrite (getCart_found _ _ _ _ _ Hc). split; [done|].
  unfold removeFromCart. rewrite Hit.
  destruct (items_id_Exists id (c_items cart)) as [[j x] ->].
  { by apply Cart_findOne_item_lookup in Hit as (_ & _ & ?). }
  simpl. split; [done|].
  erewrite getCart_found by (by apply Cart_findOne_insert).
  simpl. by rewrite line_views_pull.
Qed.

(** ** Clearing a cart *)

(** X6.  A cleared cart is empty for every reader of that cart: [getCart]
    with the same cart id lists nothing and writes nothing, a checkout of
    it is refused with "Cart is empty", and clearing again changes nothing.
    The summary reads the first cart of the user, whatever cart was
    cleared: it counts nothing when the cart cleared is that first cart, as
    it is when the request names no cart, and it is what it was when
    another cart of the user was cleared. *)
Theorem clearCart_then_empty env now email userId cartId (w : World) i cart :
  Cart_findOne cartId userId (carts w) = Some (i, cart) →
  let r := clearCart userId cartId w in
  r.1 = ans_json (RCart "Cart cleared successfully" (c_id cart))
  ∧ carts r.2 = <[i := set_items [] cart]> (carts w)
  ∧ getCart userId cartId r.2 = (res_json (JCartItems []), r.2)
  ∧ clearCart userId cartId r.2 = r
  ∧ (is_Some (truthy_str (STRIPE_SECRET_KEY env)) →
     createCheckoutSession env now userId email cartId r.2
     = (mkResponse 400 (JError "Cart is empty"), r.2))
  ∧ (cartId = None ∨ Cart_findOne None userId (carts w) = Some (i, cart) →
     getCartSummary userId r.2
     = (res_json (JSummary 0 (round2 (num_of_Z 0)) 0 (Some (c_id cart))), r.2))
  ∧ (∀ i' first,
       Cart_findOne None userId (carts w) = Some (i', first) → i' ≠ i →
       getCartSummary userId r.2 = ((getCartSummary userId w).1, r.2)).
Proof.
  intros Hc. cbv zeta.
  assert (clearCart userId cartId w
          = (ans_json (RCart "Cart cleared successfully" (c_id cart)),
             set_carts (<[i := set_items [] cart]> (carts w)) w)) as Hr
    by (unfold clearCart; by rewrite Hc).
  rewrite Hr. cbn [fst snd].
  pose proof (Cart_findOne_insert _ _ _ _ _ [] Hc) as Hc'.
  split_and!; [done..| | | | |].
  - erewrite getCart_found by done. simpl.
    by rewrite list_insert_insert_eq.
  - unfold clearCart. cbn [carts set_carts]. rewrite Hc'. simpl.
    by rewrite list_insert_insert_eq.
  - intros Hkey. apply createCheckoutSession_empty; [done|].
    right. by exists i, (set_items [] cart).
  - intros Hfirst.
    assert (Cart_findOne None userId (carts w) = Some (i, cart)) as Hf
      by (by destruct Hfirst as [->|?]).
    unfold getCartSummary. cbn [carts set_carts].
    by rewrite (Cart_findOne_insert _ _ _ _ _ [] Hf).
  - intros i' first Hfirst Hne.
    pose proof (Cart_findOne_lookup _ _ _ _ _ Hc) as [Hi Hu].
    assert (Cart_findOne None userId (<[i := set_items [] cart]> (carts w))
            = Some (i', first)) as Hf.
    { unfold Cart_findOne in *. apply list_find_insert_Some. left.
      split; [|done]. apply list_find_Some in Hfirst as (_ & _ & Hleast).
      destruct (decide (i < i')%nat) as [Hlt|]; [|lia].
      by destruct (Hleast i cart Hi Hlt). }
    unfold getCartSummary. cbn [carts set_carts products]. by rewrite Hf, Hfirst.
Qed.

(** ** The summary and the listing *)

(** X7.  The summary counts what [getCart] lists: its item count is the
    number of lines listed, its total quantity the sum of their quantities,
    its price the rounded sum of price times quantity over them.  The lines
    [getCart] drops from the stored cart are lines the summary did not
    count: the summary is the same before and after. *)
Theorem getCartSummary_counts_the_listing userId (w : World) i cart :
  Cart_findOne None userId (carts w) = Some (i, cart) →
  ∃ cartItems,
    (getCart userId None w).1 = res_json (JCartItems cartItems)
    ∧ getCartSummary userId w
      = (res_json (JSummary (sum_Z (v_quantity <$> cartItems))
                     (round2 (sum_num ((λ v, num_mul (v_price v) (num_of_Z (v_quantity v)))
                                         <$> cartItems)))
                     (length cartItems) (Some (c_id cart))), w)
    ∧ (getCartSummary userId (getCart userId None w).2).1
      = (getCartSummary userId w).1.
Proof.
  intros Hc. exists (omap (line_view (products w)) (c_items cart)).
  rewrite (getCart_found _ _ _ _ _ Hc). split; [done|]. simpl.
  split.
  - unfold getCartSummary. rewrite Hc. unfold round2, sum_num.
    rewrite <- validItems_of_views, <- !list_fmap_compose, length_fmap.
    rewrite (fold_left_fmap Z.add (λ item : CartItem * Product, ci_quantity item.1)).
    rewrite fold_left_add_sum_Z.
    rewrite (fold_left_fmap num_add
               (λ item : CartItem * Product,
                  num_mul (p_price item.2) (num_of_Z (ci_quantity item.1)))).
    done.
  - unfold getCartSummary. cbn [carts set_carts products].
    rewrite (Cart_findOne_insert _ _ _ _ _ _ Hc), Hc. simpl.
    by rewrite validItems_of_kept.
Qed.
(** ** The cart routes *)

(** What [addToCart] does to a cart it finds: nothing, or the quantity of
    a line is set, or a line is pushed for a text of the product id that
    is on no line of the cart. *)
Lemma addToCart_found userId body (w : World) i cart :
  Cart_findOne (add_cartId body) userId (carts w) = Some (i, cart) →
  carts (addToCart userId body w).2 = carts w
  ∨ (∃ j line q,
       carts (addToCart userId body w).2
       = <[i := set_items (<[j := set_quantity q line]> (c_items cart)) cart]> (carts w))
  ∨ (∃ productId product_id lid q,
       add_productId body = Some productId
       ∧ findIndex_product productId (c_items cart) = None
       ∧ carts (addToCart userId body w).2
         = <[i := set_items (c_items cart ++ [mkCartItem lid product_id q]) cart]>
             (carts w)).
Proof.
  intros Hc.
  destruct (addToCart_cases userId body w) as (_ & _ & Hcases).
  unfold cart_of_add in Hcases. rewrite Hc in Hcases.
  destruct Hcases as [[_ ?]|(productId & quantity & product_id & p & q & items'
    & Hpid & _ & _ & _ & _ & Hitems & _ & Hcarts)]; [by left|].
  right.
  destruct Hitems as [(j & line & _ & _ & ->)|(lid & Hl & _ & _ & ->)].
  - left. by exists j, line, q.
  - right. exists productId, product_id, lid, q. split; [|done].
    by destruct (add_productId body) as [[]|].
Qed.

(** X8.  The add-item route keeps the cart it checks within 50 lines: when
    the request goes to the cart of the user that the size check reads,
    that cart has afterwards at most 50 lines, or as many as it had if it
    had more. *)
Theorem addToCart_route_cart_size userId body (w : World) i cart :
  Cart_findOne None userId (carts w) = Some (i, cart) →
  Cart_findOne (add_cartId body) userId (carts w) = Some (i, cart) →
  ∃ cart',
    Cart_findOne None userId (carts (addToCart_route userId body w).2)
    = Some (i, cart')
    ∧ (length (c_items cart') ≤ length (c_items cart) `max` 50)%nat.
Proof.
  intros Hfirst Hc. unfold addToCart_route.
  destruct (validateObjectId body); [exists cart; split; [done|lia]|].
  destruct (validateCartData true body); [exists cart; split; [done|lia]|].
  destruct (validateProductExists body (products w));
    [exists cart; split; [done|lia]|].
  destruct (validateCartSize true userId body (carts w)) eqn:Hsize;
    [exists cart; split; [done|lia]|].
  destruct (addToCart_found _ _ _ _ _ Hc)
    as [->|[(j & line & q & ->)|(productId & product_id & lid & q & Hpid & Hl & ->)]].
  - exists cart; split; [done|lia].
  - eexists. split; [by apply Cart_findOne_insert|].
    simpl. rewrite length_insert. lia.
  - eexists. split; [by apply Cart_findOne_insert|].
    simpl. rewrite length_app. simpl.
    unfold validateCartSize in Hsize. rewrite Hfirst, Hpid, Hl in Hsize.
    destruct (Nat.leb_spec 50 (length (c_items cart))); [done|lia].
Qed.

(** X9.  The routes that change or remove a line change nothing for a line
    that is in none of the caller's carts.  When the [productId] of the
    body, if it has one, is 24 hexadecimal digits, they answer 403, and the
    update route answers 400 instead when the body fails its validation;
    when it is not, both routes answer 400 from [validateObjectId]. *)
Theorem cart_line_routes_refuse_foreign_lines userId id body (w : World) :
  Cart_findOne_item id userId (carts w) = None →
  (validateObjectId body = None →
   (∃ r, updateCartItem_route userId id body w = (r, w)
         ∧ (status r = 403 ∨ status r = 400 ∧ is_Some (validateCartData false body)))
   ∧ (∃ r, removeFromCart_route userId id body w = (r, w) ∧ a_status r = 403))
  ∧ (∀ r, validateObjectId body = Some r →
          status r = 400
          ∧ updateCartItem_route userId id body w = (r, w)
          ∧ removeFromCart_route userId id body w = (answer_of r, w)).
Proof.
  intros Hit.
  assert (∃ r, validateCartOwnership userId (add_cartId body) (Some id) (carts w)
               = Some r ∧ status r = 403) as (r & Hr & H403).
  { unfold validateCartOwnership. rewrite Hit.
    destruct (add_cartId body) as [cid|]; [|by eexists].
    destruct (bool_decide _); by eexists. }
  split.
  - intros Hid. split.
    + unfold updateCartItem_route. rewrite Hid.
      destruct (validateCartData false body) as [r'|] eqn:Hv.
      * exists r'. split; [done|]. right. split; [|done].
        unfold validateCartData in Hv. by destruct (bool_decide _); simplify_eq.
      * rewrite Hr. exists r. by split; [|left].
    + unfold removeFromCart_route. rewrite Hid, Hr. by exists (answer_of r).
  - intros r' Hid. split.
    + unfold validateObjectId in Hid. by repeat case_match; simplify_eq.
    + unfold updateCartItem_route, removeFromCart_route. by rewrite Hid.
Qed.

(** ** The cart check and the checkout *)

Lemma validate_step_split acc item :
  validate_step acc item
  = (acc.1 ++ option_list (validate_issue item),
     acc.2 ++ option_list (validate_valid item)).
Proof.
  destruct acc as [issues validItems], item as [it [p|]];
    unfold validate_step, validate_issue, validate_valid; simpl.
  - repeat case_match; simpl; by rewrite ?app_nil_r.
  - by rewrite app_nil_r.
Qed.

Lemma validate_fold pop acc :
  fold_left validate_step pop acc
  = (acc.1 ++ omap validate_issue pop, acc.2 ++ omap validate_valid pop).
Proof.
  revert acc. induction pop as [|item pop IH]; intros acc.
  - simpl. rewrite !app_nil_r. by destruct acc.
  - simpl fold_left. rewrite IH, validate_step_split. simpl.
    destruct (validate_issue item), (validate_valid item); simpl;
      by rewrite <- ?app_assoc, ?app_nil_r.
Qed.

Lemma omap_length_agree {A B C} (f : A → option B) (g : A → option C) (l : list A) :
  Forall (λ x, is_Some (f x) ↔ is_Some (g x)) l →
  length (omap f l) = length (omap g l).
Proof.
  induction 1 as [|x l [Hfg Hgf] _ IH]; [done|].
  destruct (f x) as [y|] eqn:Hf, (g x) as [z|] eqn:Hg.
  - by rewrite (omap_cons_Some _ _ _ _ Hf), (omap_cons_Some _ _ _ _ Hg),
      !length_cons, IH.
  - by destruct Hfg as [? [=]].
  - by destruct Hgf as [? [=]].
  - by rewrite (omap_cons_None _ _ _ Hf), (omap_cons_None _ _ _ Hg).
Qed.

Lemma validate_issue_advisory it p :
  1 ≤ ci_quantity it →
  (is_Some (validate_issue (it, p)) ↔ is_Some (advisory (it, p)))
  ∧ validate_valid (it, p)
    = match advisory (it, p) with
      | Some _ => None
      | None => retained_line (it, p)
      end.
Proof.
  intros Hq. unfold validate_issue, validate_valid, advisory, retained_line. simpl.
  destruct p as [p|]; [|done].
  destruct (Z.eqb_spec (p_stock p) 0), (Z.ltb_spec (p_stock p) (ci_quantity it));
    try done; lia.
Qed.

(** X10.  The cart check agrees with the checkout.  For a cart whose lines
    ask for at least one unit each, the [/validate] route reports as many
    issues as [createCheckoutSession] would, and so reports the cart valid
    exactly when the checkout would adjust nothing; the lines it counts as
    valid are the lines the checkout would keep unchanged. *)
Theorem validate_route_agrees_with_checkout userId (w : World) i cart :
  Cart_findOne None userId (carts w) = Some (i, cart) →
  c_items cart ≠ [] →
  Forall (λ it, 1 ≤ ci_quantity it) (c_items cart) →
  let pop := populate (products w) (c_items cart) in
  ∃ valid validItems totalPrice issues message,
    validate_route userId w
    = ans_json (RCartValidity valid (length (c_items cart)) validItems
                  totalPrice issues message)
    ∧ from_option length 0%nat issues = length (checkout_partition pop).2
    ∧ (valid = true ↔ (checkout_partition pop).2 = [])
    ∧ validItems
      = length (filter (λ item, advisory item = None) pop)
    ∧ (valid = true →
       (checkout_partition pop).1 = validItems_of pop
       ∧ validItems = length (c_items cart)).
Proof.
  intros Hc Hne Hq. cbv zeta. unfold validate_route. rewrite Hc.
  rewrite bool_decide_eq_false_2 by (by destruct (c_items cart)).
  rewrite validate_fold, checkout_partition_lines. cbn [fst snd app].
  set (pop := populate (products w) (c_items cart)).
  assert (Forall (λ item, 1 ≤ ci_quantity item.1) pop) as Hpop.
  { unfold pop, populate. by apply Forall_fmap. }
  assert (length (omap validate_issue pop) = length (omap advisory pop)) as Hlen.
  { apply omap_length_agree. eapply Forall_impl; [exact Hpop|].
    intros [it p] Hit. by apply validate_issue_advisory. }
  assert (length (omap validate_valid pop)
          = length (filter (λ item, advisory item = None) pop)) as Hvalid.
  { clear Hlen. induction Hpop as [|[it p] pop' Hit _ IH]; [done|].
    rewrite filter_cons.
    destruct (validate_issue_advisory it p Hit) as [_ Hv].
    destruct (advisory (it, p)) eqn:Ha.
    - by rewrite decide_False, (omap_cons_None _ _ _ Hv).
    - rewrite decide_True by done.
      assert (is_Some (retained_line (it, p))) as [x Hx].
      { revert Ha. unfold advisory, retained_line. simpl.
        destruct p as [p|]; [|done]. by repeat case_match. }
      rewrite Hx in Hv.
      by rewrite (omap_cons_Some _ _ _ _ Hv), !length_cons, IH. }
  eexists _, _, _, _, _. split; [done|]. split_and!.
  - case_bool_decide; simpl; [done|]. lia.
  - rewrite bool_decide_eq_true, <- !length_zero_iff_nil. lia.
  - done.
  - intros Hv%bool_decide_eq_true. rewrite Hlen in Hv.
    apply length_zero_iff_nil in Hv.
    rewrite Hvalid.
    assert (Forall (λ item, advisory item = None) pop) as Hall.
    { apply Forall_forall. intros item Hitem.
      destruct (advisory item) eqn:Ha; [|done].
      assert (length (omap advisory pop) ≠ 0)%nat; [|by rewrite Hv in *].
      clear -Hitem Ha. induction Hitem as [item pop'|item item' pop' ? IH].
      - by rewrite (omap_cons_Some _ _ _ _ Ha).
      - destruct (advisory item') eqn:Ha'.
        + by rewrite (omap_cons_Some _ _ _ _ Ha').
        + rewrite (omap_cons_None _ _ _ Ha'). by apply IH. }
    split.
    + clear -Hall. unfold validItems_of.
      induction Hall as [|[it p] pop' Ha _ IH]; [done|].
      destruct p as [p|]; [|done].
      assert (retained_line (it, Some p) = Some (it, p)) as Hr.
      { revert Ha. unfold advisory, retained_line. simpl. by repeat case_match. }
      rewrite (omap_cons_Some _ _ _ _ Hr), IH.
      symmetry. by apply omap_cons_Some.
    + rewrite filter_all by done.
      unfold pop, populate. by rewrite length_fmap.
Qed.
(** ** Payment confirmation, continued *)

(** X11.  A payment confirmation is all or nothing: either it answers 200,
    or it leaves the store as it was.  The stock of a product is never
    charged by a request that then fails, since every product a line was
    populated with is still there when the line is charged. *)
Theorem handlePaymentSuccess_all_or_nothing now sessionId (w : World) :
  let r := handlePaymentSuccess now sessionId w in
  (status r.1 = 200 ∨ r.2 = w)
  ∧ users r.2 = users w ∧ orders r.2 = orders w
  ∧ stripe_create_calls r.2 = stripe_create_calls w.
Proof.
  cbv zeta.
  destruct (handlePaymentSuccess_cases now sessionId w)
    as [[_ ->]|(sid & session & i & cart & ps & su & _ & _ & _ & _ & _ & ->)].
  - split; [by right|done].
  - split; [by left|done].
Qed.

(** X12.  Confirming the same payment again charges nothing more: after a
    confirmation answered 200 the cart of the session is empty, and a second
    confirmation of that session answers 200 with no stock update and
    leaves the store as the first one left it. *)
Theorem handlePaymentSuccess_replay now now' sessionId (w : World) :
  status (handlePaymentSuccess now sessionId w).1 = 200 →
  ∃ sid session,
    truthy_str sessionId = Some sid
    ∧ stripe_sessions_retrieve sid = inr session
    ∧ handlePaymentSuccess now' sessionId (handlePaymentSuccess now sessionId w).2
      = (res_json (JPaid "Payment successful and order processed" sid
                     ("ECO-" +:+ pretty now') [] 0
                     (num_div (ss_amount_total session) (num_of_Z 100))
                     (ss_currency session)),
         (handlePaymentSuccess now sessionId w).2).
Proof.
  intros H200.
  destruct (handlePaymentSuccess_cases now sessionId w)
    as [[Hn _]|(sid & session & i & cart & ps & su & Hsid & Hs & Hpaid & Hc & _ & Hr)];
    [done|].
  rewrite Hr. cbn [fst snd]. exists sid, session. split_and!; [done..|].
  unfold handlePaymentSuccess at 1. rewrite Hsid, Hs, Hpaid.
  cbn [String.eqb Ascii.eqb Bool.eqb negb carts Cart_save set_carts set_products].
  rewrite (Cart_findOne_insert _ _ _ _ _ [] Hc). simpl.
  by rewrite list_insert_insert_eq.
Qed.

(** ** Checkout, continued *)

(** The outcomes of a checkout on a cart that is found: nothing changes, or
    one session is asked of the payment processor, with a line item for
    each line kept. *)
Lemma createCheckoutSession_found env now userId email cartId (w : World) i cart :
  Cart_findOne cartId userId (carts w) = Some (i, cart) →
  let r := createCheckoutSession env now userId email cartId w in
  let validItems := omap retained_line (populate (products w) (c_items cart)) in
  (r.2 = w ∧ (is_Some (truthy_str (STRIPE_SECRET_KEY env)) → validItems = []))
  ∨ ∃ sd, sd_line_items sd = line_item <$> validItems
          ∧ r.2 = set_stripe_create_calls (stripe_create_calls w ++ [sd]) w.
Proof.
  intros Hc. cbv zeta. unfold createCheckoutSession.
  destruct (truthy_str (STRIPE_SECRET_KEY env)); [|left; split; [done|by intros [? [=]]]].
  rewrite Hc. case_bool_decide as Hlen.
  { left. split; [done|]. intros _.
    apply length_zero_iff_nil in Hlen. by rewrite Hlen. }
  rewrite checkout_partition_lines. case_bool_decide as Hv.
  { left. split; [done|]. intros _. by apply length_zero_iff_nil. }
  right. eexists (mkSessionData _ _ _ _ _ _ _ _). split; [done|].
  by destruct (stripe_sessions_create _).
Qed.

Lemma retained_line_bounds it p x :
  1 ≤ ci_quantity it → 0 ≤ p_stock p →
  retained_line (it, Some p) = Some x →
  x = (set_quantity (ci_quantity it `min` p_stock p) it, p)
  ∧ 1 ≤ ci_quantity it `min` p_stock p ≤ p_stock p.
Proof.
  intros Hq Hs. unfold retained_line. simpl.
  destruct (Z.ltb_spec (p_stock p) (ci_quantity it)).
  - destruct (Z.eqb_spec (p_stock p) 0); [done|]. intros [= <-].
    rewrite Z.min_r by lia. split; [done|lia].
  - intros [= <-]. rewrite Z.min_l by lia. split; [by destruct it|lia].
Qed.

Lemma retained_line_product it p x :
  retained_line (it, p) = Some x → ci_product x.1 = ci_product it.
Proof.
  unfold retained_line. simpl. destruct p as [p|]; [|done].
  by repeat case_match; intros [= <-].
Qed.

Lemma billed_cons ps it (its : list CartItem) id :
  billed ps (it :: its) id
  = match retained_line (it, ps !! ci_product it) with
    | Some x => if bool_decide (ci_product it = id) then ci_quantity x.1 else 0
    | None => 0
    end + billed ps its id.
Proof.
  unfold billed, populate. rewrite fmap_cons.
  destruct (retained_line (it, ps !! ci_product it)) as [x|] eqn:Hr.
  - rewrite (omap_cons_Some _ _ _ _ Hr), filter_cons.
    apply retained_line_product in Hr. rewrite Hr.
    case_bool_decide.
    + by rewrite decide_True.
    + by rewrite decide_False.
  - by rewrite (omap_cons_None _ _ _ Hr).
Qed.

Lemma billed_absent ps (its : list CartItem) id :
  id ∉ ci_product <$> its → billed ps its id = 0.
Proof.
  induction its as [|it its IH]; [done|].
  rewrite fmap_cons, not_elem_of_cons. intros [Hne Hnot].
  rewrite billed_cons, bool_decide_eq_false_2 by done.
  rewrite IH by done. by destruct (retained_line _).
Qed.

Lemma billed_one_line_per_product ps (its : list CartItem) id p :
  NoDup (ci_product <$> its) → Forall (λ it, 1 ≤ ci_quantity it) its →
  ps !! id = Some p → 0 ≤ p_stock p →
  billed ps its id ≤ p_stock p.
Proof.
  intros Hnd Hq Hp Hpos. induction Hq as [|it its Hit Hq IH]; [done|].
  rewrite fmap_cons in Hnd. apply NoDup_cons in Hnd as [Hnot Hnd].
  rewrite billed_cons. case_bool_decide as Hid.
  - rewrite billed_absent by (by rewrite <- Hid). rewrite Hid, Hp.
    destruct (retained_line (it, Some p)) as [x|] eqn:Hr; [|lia].
    apply retained_line_bounds in Hr as [-> Hb]; [|done..]. simpl. lia.
  - specialize (IH Hnd). by destruct (retained_line _).
Qed.

(** X13.  What a checkout bills.  A checkout request asks the payment
    processor for one session at most.  For a cart whose lines ask for at
    least one unit each, and a catalog without negative stock, the line
    items of that session are made, in the order of the cart, from the
    lines the loop keeps, each for the smaller of the quantity of its line
    and the stock of the product of its line, which is at least one: no
    line item is for more units than there are.  The bound is per line.
    Where no two lines of the cart are for the same product, the units
    billed for a product are at most its stock; two lines of one product
    are each held to the stock on their own. *)
Theorem checkout_line_items_within_stock env now userId email cartId
    (w : World) i cart :
  Cart_findOne cartId userId (carts w) = Some (i, cart) →
  Forall (λ it, 1 ≤ ci_quantity it) (c_items cart) →
  (∀ id p, products w !! id = Some p → 0 ≤ p_stock p) →
  ∃ sessions,
    stripe_create_calls (createCheckoutSession env now userId email cartId w).2
    = stripe_create_calls w ++ sessions
    ∧ (length sessions ≤ 1)%nat
    ∧ Forall (λ sd,
        sd_line_items sd
        = line_item <$> omap retained_line (populate (products w) (c_items cart))
        ∧ Forall (λ li, ∃ it p,
                    it ∈ c_items cart ∧ products w !! ci_product it = Some p
                    ∧ li = line_item (set_quantity (ci_quantity it `min` p_stock p) it, p)
                    ∧ 1 ≤ li_quantity li ≤ p_stock p)
                 (sd_line_items sd)) sessions
    ∧ (NoDup (ci_product <$> c_items cart) →
       ∀ id p, products w !! id = Some p →
               billed (products w) (c_items cart) id ≤ p_stock p).
Proof.
  intros Hc Hq Hstock.
  assert (NoDup (ci_product <$> c_items cart) →
          ∀ id p, products w !! id = Some p →
                  billed (products w) (c_items cart) id ≤ p_stock p) as Hbilled.
  { intros Hnd id p Hp. apply billed_one_line_per_product; [done..|].
    by eapply Hstock. }
  destruct (createCheckoutSession_found env now userId email cartId w i cart Hc)
    as [[-> _]|(sd & Hsd & ->)].
  - exists []. rewrite app_nil_r. split; [done|]. split; [simpl; lia|].
    split; [constructor|done].
  - exists [sd]. split; [done|]. split; [simpl; lia|]. split; [|done].
    apply Forall_singleton. split; [done|]. rewrite Hsd.
    apply Forall_fmap, Forall_forall. intros x Hx.
    apply list_elem_of_omap in Hx as (y & Hy & Hr).
    apply list_elem_of_fmap in Hy as (it & -> & Hit).
    destruct (products w !! ci_product it) as [p|] eqn:Hp; [|done].
    apply retained_line_bounds in Hr as [-> Hb].
    + by exists it, p.
    + by apply (proj1 (Forall_forall _ _) Hq).
    + by eapply Hstock.
Qed.

Lemma charged_only_line ps (its : list CartItem) it :
  NoDup (ci_product <$> its) → it ∈ its → stock_covers ps it = false →
  charged ps its (ci_product it) = 0.
Proof.
  intros Hnd Hit Hcov. induction its as [|it' its IH]; [by apply elem_of_nil in Hit|].
  rewrite fmap_cons in Hnd. apply NoDup_cons in Hnd as [Hnot Hnd].
  rewrite charged_cons.
  apply elem_of_cons in Hit as [<-|Hit].
  - rewrite Hcov, andb_false_r. by rewrite charged_absent.
  - rewrite bool_decide_eq_false_2, IH; [done..|].
    intros Heq. apply Hnot. rewrite Heq. by apply list_elem_of_fmap_2.
Qed.

(** X14.  A line the checkout clamps is billed but not taken from the
    stock.  When a line asks for more than the stock of its product, and
    that stock is not zero, the session bills the stock; the stored cart
    keeps the quantity asked, so the confirmation of the payment finds the
    line uncovered and leaves the stock of the product as it was. *)
Theorem clamped_line_billed_not_charged env now userId email cartId now' sid
    session (w : World) i j cart it p :
  is_Some (truthy_str (STRIPE_SECRET_KEY env)) →
  Cart_findOne cartId userId (carts w) = Some (i, cart) →
  NoDup (ci_product <$> c_items cart) →
  it ∈ c_items cart →
  products w !! ci_product it = Some p →
  0 < p_stock p < ci_quantity it →
  stripe_sessions_retrieve sid = inr session →
  Cart_findOne (Some (ss_metadata_cartId session)) (ss_metadata_userId session)
    (carts w) = Some (j, cart) →
  let checkout := createCheckoutSession env now userId email cartId w in
  let paid := handlePaymentSuccess now' (Some sid) checkout.2 in
  (∃ sd, stripe_create_calls checkout.2 = stripe_create_calls w ++ [sd]
         ∧ line_item (set_quantity (p_stock p) it, p) ∈ sd_line_items sd)
  ∧ carts checkout.2 = carts w
  ∧ ∃ p', products paid.2 !! ci_product it = Some p' ∧ p_stock p' = p_stock p.
Proof.
  intros Hkey Hc Hnd Hit Hp Hstock Hs Hcs. cbv zeta.
  assert (retained_line (it, Some p) = Some (set_quantity (p_stock p) it, p)) as Hr.
  { unfold retained_line. simpl.
    destruct (Z.ltb_spec (p_stock p) (ci_quantity it)); [|lia].
    destruct (Z.eqb_spec (p_stock p) 0); [lia|done]. }
  assert ((set_quantity (p_stock p) it, p)
          ∈ omap retained_line (populate (products w) (c_items cart))) as Hin.
  { apply list_elem_of_omap. exists (it, Some p). split; [|done].
    apply list_elem_of_fmap. exists it. by rewrite Hp. }
  destruct (createCheckoutSession_keeps env now userId email cartId w)
    as (Hcarts & Hprods & _).
  split_and!; [|done|].
  - destruct (createCheckoutSession_found env now userId email cartId w i cart Hc)
      as [[_ Hnil]|(sd & Hsd & ->)].
    + rewrite Hnil in Hin by done. by apply elem_of_nil in Hin.
    + exists sd. split; [done|]. rewrite Hsd. by apply list_elem_of_fmap_2.
  - set (w1 := (createCheckoutSession env now userId email cartId w).2) in *.
    destruct (handlePaymentSuccess_cases now' (Some sid) w1)
      as [[_ ->]|(sid' & session' & i' & cart' & ps & su & Hsid & Hs' & _ & Hc'
                  & Hps & ->)].
    { exists p. by rewrite Hprods. }
    assert (sid' = sid) as ->.
    { destruct sid as [|a sid]; simpl in Hsid; [done|congruence]. }
    rewrite Hs in Hs'. injection Hs' as <-.
    rewrite Hcarts, Hcs in Hc'. injection Hc' as <- <-.
    rewrite Hprods in Hps. cbn [snd products Cart_save set_carts set_products].
    destruct (process_stock_spec now' (products w) (c_items cart) (products w) [])
      as (ps' & su' & Hps' & _ & Hall); [done|].
    rewrite Hps in Hps'. injection Hps' as <- <-.
    specialize (Hall (ci_product it)). rewrite Hp in Hall.
    destruct Hall as (p' & Hp' & Hst & _). exists p'. split; [done|].
    rewrite Hst, charged_only_line; [lia|done..|].
    rewrite stock_covers_eq, Hp. destruct (Z.geb_spec (p_stock p) (ci_quantity it)); [lia|done].
Qed.
(** ** Registering, then logging in *)

Lemma User_findOne_inserted username (us : list User) u :
  User_findOne username us = None → u_username u = username →
  User_findOne username (us ++ [u]) = Some ((0 + length us)%nat, u).
Proof.
  intros Hnone Hu. unfold User_findOne in *.
  rewrite list_find_app_r by done. simpl. by rewrite decide_True.
Qed.

Lemma register_route_ok body (w : World) :
  status (register_route body w).1 = 200 →
  ∃ username password,
    validateAuth body = None
    ∧ truthy_str (ab_username body) = Some username
    ∧ truthy_str (ab_password body) = Some password
    ∧ User_findOne username (users w) = None
    ∧ let newUser :=
        mkUser (oid_counter w) username (bcrypt_hashSync password 8)
          (match truthy_str (ab_role body) with
           | Some role => role
           | None => "user"
           end) in
      register_route body w
      = (res_json (JRegistered "User registered" (u_id newUser) (u_role newUser)),
         set_users (users w ++ [newUser]) (new_ObjectId w).2).
Proof.
  unfold register_route.
  destruct (validateAuth body) as [r|] eqn:Hv.
  { unfold validateAuth in Hv. by repeat case_match; simplify_eq. }
  unfold register.
  destruct (truthy_str (ab_username body)) as [username|]; [|done].
  destruct (truthy_str (ab_password body)) as [password|]; [|done].
  destruct (User_findOne username (users w)) as [[]|] eqn:Hf; [done|].
  cbn [new_ObjectId]. destruct (User_validate _); [done|].
  intros _. by exists username, password.
Qed.

(** X15.  A user who has just registered can log in.  When the hash
    function accepts the password against its own hash and no lockout entry
    is recorded for the name, the login route answers the same body with a
    token for the user that the registration made, with the role it
    stored. *)
Theorem register_then_login body now now_sent (w : World) :
  status (register_route body w).1 = 200 →
  (∀ username password,
     truthy_str (ab_username body) = Some username →
     truthy_str (ab_password body) = Some password →
     bcrypt_compareSync password (bcrypt_hashSync password 8) = true
     ∧ accountLockouts w !! username = None) →
  ∃ username userId role,
    truthy_str (ab_username body) = Some username
    ∧ (register_route body w).1
      = res_json (JRegistered "User registered" userId role)
    ∧ (login_route now now_sent body (register_route body w).2).1
      = res_json (JLoggedIn "Login successful" (jwt_sign userId username role)
                    role userId username).
Proof.
  intros H200 Hok.
  destruct (register_route_ok body w H200)
    as (username & password & Hv & Hu & Hp & Hf & Hr).
  destruct (Hok username password Hu Hp) as [Hcmp Hlock].
  cbv zeta in Hr. rewrite Hr. cbn [fst snd].
  eexists username, _, _. split_and!; [done..|].
  unfold login_route, checkAccountLockout.
  cbn [accountLockouts set_users new_ObjectId snd]. rewrite Hu, Hlock, Hv.
  cbn [fst]. unfold login. rewrite Hu, Hp. cbn [users set_users].
  erewrite User_findOne_inserted by done.
  cbn [u_password u_id u_username u_role]. by rewrite Hcmp.
Qed.

(** ** Changing the password, then logging in *)

Lemma changePassword_route_ok userId body (w : World) :
  status (changePassword_route userId body w).1 = 200 →
  ∃ new i user,
    truthy_str (newPassword body) = Some new
    ∧ list_find (λ u, u_id u = userId) (users w) = Some (i, user)
    ∧ changePassword_route userId body w
      = (res_json (JMessage "Password changed successfully"),
         set_users (<[i := set_password (bcrypt_hashSync new 8) user]> (users w)) w).
Proof.
  unfold changePassword_route.
  destruct (changePassword_check body) as [r|] eqn:Hv.
  { unfold changePassword_check in Hv. by repeat case_match; simplify_eq. }
  unfold changePassword.
  destruct (truthy_str (currentPassword body)) as [current|]; [|done].
  destruct (truthy_str (newPassword body)) as [new|]; [|done].
  destruct (list_find _ (users w)) as [[i user]|] eqn:Hf; [|done].
  destruct (bcrypt_compareSync current (u_password user)); [|done]. cbn [negb].
  destruct (String.length new <? 6)%nat; [done|].
  intros _. by exists new, i, user.
Qed.

(** X16.  After a password change, a login under the user's name is
    decided by the new password alone: the password offered is compared
    with the hash of the new password, a match gives a token for the same
    user and role, and anything else is answered 401. *)
Theorem changePassword_then_login userId cbody (w : World) password role' :
  status (changePassword_route userId cbody w).1 = 200 →
  password ≠ "" →
  (∀ i user, list_find (λ u, u_id u = userId) (users w) = Some (i, user) →
             u_username user ≠ ""
             ∧ User_findOne (u_username user) (users w) = Some (i, user)) →
  ∃ new i user,
    truthy_str (newPassword cbody) = Some new
    ∧ list_find (λ u, u_id u = userId) (users w) = Some (i, user)
    ∧ login (mkAuthBody (Some (u_username user)) (Some password) role')
        (changePassword_route userId cbody w).2
      = if bcrypt_compareSync password (bcrypt_hashSync new 8)
        then res_json (JLoggedIn "Login successful"
                         (jwt_sign (u_id user) (u_username user) (u_role user))
                         (u_role user) (u_id user) (u_username user))
        else mkResponse 401 (JError "Invalid credentials").
Proof.
  intros H200 Hpw Hname.
  destruct (changePassword_route_ok userId cbody w H200)
    as (new & i & user & Hnew & Hf & ->).
  destruct (Hname i user Hf) as [Hne Hfind].
  exists new, i, user. split_and!; [done..|].
  unfold login. cbn [ab_username ab_password snd users set_users].
  rewrite !truthy_str_nonempty by done.
  unfold User_findOne in *.
  erewrite list_find_insert_same by done.
  cbn [u_password set_password u_id u_username u_role].
  by destruct (bcrypt_compareSync password (bcrypt_hashSync new 8)).
Qed.

(** ** The users over time *)

(** Past [validateAuth] and the environment check the route is
    [createAdmin] on the two strings of the body. *)
Lemma createAdmin_route_next body (w : World) :
  validateAuth body = None →
  ∃ username password,
    truthy_str (ab_username body) = Some username
    ∧ truthy_str (ab_password body) = Some password
    ∧ createAdmin_route (Some "true") body w = createAdmin username password w.
Proof.
  intros Hv. destruct (validateAuth_next body Hv) as (username & password & Hu & Hp).
  exists username, password. split_and!; [done..|].
  unfold createAdmin_route. by rewrite Hv, Hu, Hp.
Qed.

Lemma createAdmin_route_ok allow body (w : World) :
  a_status (createAdmin_route allow body w).1 = 200 →
  ∃ username password,
    allow = Some "true"
    ∧ validateAuth body = None
    ∧ truthy_str (ab_username body) = Some username
    ∧ truthy_str (ab_password body) = Some password
    ∧ User_findOne username (users w) = None
    ∧ let admin :=
        mkUser (oid_counter w) username (bcrypt_hashSync password 8) "admin" in
      createAdmin_route allow body w
      = (ans_json (RAdminCreated "Admin created successfully" username),
         set_users (users w ++ [admin]) (new_ObjectId w).2).
Proof.
  unfold createAdmin_route.
  destruct (validateAuth body) as [r|] eqn:Hv.
  { unfold validateAuth in Hv. by repeat case_match; simplify_eq. }
  case_bool_decide as Hallow; [|done]. cbn [negb].
  destruct (truthy_str (ab_username body)) as [username|]; [|done].
  destruct (truthy_str (ab_password body)) as [password|]; [|done].
  unfold createAdmin.
  destruct (User_findOne username (users w)) as [[]|] eqn:Hf; [done|].
  cbn [new_ObjectId]. destruct (User_validate _); [done|].
  intros _. by exists username, password.
Qed.

Lemma auth_request_users_step req (w : World) :
  users_step (users w) (users (auth_request req w))
  ∧ products (auth_request req w) = products w
  ∧ carts (auth_request req w) = carts w.
Proof.
  destruct req as [body|now now_sent body|userId body|allow body]; simpl.
  - destruct (decide (status (register_route body w).1 = 200)) as [H200|Hn].
    + destruct (register_route_ok body w H200)
        as (username & password & _ & _ & _ & Hf & Hr).
      cbv zeta in Hr. rewrite Hr. split; [|done]. by apply users_inserted.
    + assert (users (register_route body w).2 = users w
              ∧ products (register_route body w).2 = products w
              ∧ carts (register_route body w).2 = carts w) as (-> & -> & ->);
        [|split; [apply users_same|done]].
      revert Hn. unfold register_route, register, new_ObjectId.
      repeat case_match; simpl; try done; intros []; done.
  - assert (users (login_route now now_sent body w).2 = users w
            ∧ products (login_route now now_sent body w).2 = products w
            ∧ carts (login_route now now_sent body w).2 = carts w) as (-> & -> & ->);
      [|split; [apply users_same|done]].
    unfold login_route. by repeat case_match.
  - destruct (decide (status (changePassword_route userId body w).1 = 200)) as [H200|Hn].
    + destruct (changePassword_route_ok userId body w H200)
        as (new & i & user & _ & Hf & ->).
      split; [|done]. apply users_rehashed.
      by apply list_find_Some in Hf as (? & _).
    + assert ((changePassword_route userId body w).2 = w) as ->;
        [|split; [apply users_same|done]].
      revert Hn. unfold changePassword_route, changePassword.
      repeat case_match; simpl; try done; intros []; done.
  - destruct (decide (a_status (createAdmin_route allow body w).1 = 200)) as [H200|Hn].
    + destruct (createAdmin_route_ok allow body w H200)
        as (username & password & _ & _ & _ & _ & Hf & Hr).
      cbv zeta in Hr. rewrite Hr. split; [|done]. by apply users_inserted.
    + assert (users (createAdmin_route allow body w).2 = users w
              ∧ products (createAdmin_route allow body w).2 = products w
              ∧ carts (createAdmin_route allow body w).2 = carts w) as (-> & -> & ->);
        [|split; [apply users_same|done]].
      revert Hn. unfold createAdmin_route, createAdmin, new_ObjectId.
      repeat case_match; simpl; try done; intros []; done.
Qed.

Lemma users_step_keeps us us' :
  users_step us us' →
  (NoDup (u_username <$> us) → NoDup (u_username <$> us'))
  ∧ (account <$> us) `prefix_of` (account <$> us').
Proof.
  intros [us0|us0 u Hf|us0 i u hash Hi].
  - done.
  - split; [|rewrite fmap_app; by apply prefix_app_r].
    intros Hnd. rewrite fmap_app. apply NoDup_app.
    split_and!; [done| |apply NoDup_singleton].
    intros x (u' & Hx & Hu')%list_elem_of_fmap Hxu%list_elem_of_singleton.
    apply list_find_None in Hf. apply (proj1 (Forall_forall _ _) Hf u'); [done|].
    congruence.
  - rewrite !list_fmap_insert. simpl.
    rewrite !list_insert_id; [done|..]; by rewrite list_lookup_fmap, Hi.
Qed.

(** X17.  No auth request removes a user or changes the id, the name or the
    role of one: the accounts before any sequence of registrations, logins,
    password changes and admin creations are a prefix of the accounts
    after.  If the usernames were distinct before, they are distinct
    after.  The catalog and the carts stay as they were. *)
Theorem auth_requests_keep_accounts (w : World) reqs :
  NoDup (u_username <$> users w) →
  NoDup (u_username <$> users (auth_requests w reqs))
  ∧ (account <$> users w) `prefix_of` (account <$> users (auth_requests w reqs))
  ∧ products (auth_requests w reqs) = products w
  ∧ carts (auth_requests w reqs) = carts w.
Proof.
  revert w. induction reqs as [|req reqs IH]; intros w Hnd; [done|].
  simpl. destruct (auth_request_users_step req w) as (Hs & Hp & Hc).
  destruct (users_step_keeps _ _ Hs) as [Hnd' Hpre].
  destruct (IH _ (Hnd' Hnd)) as (? & ? & -> & ->).
  split_and!; [done| |done..]. by etrans.
Qed.

(** ** Checking a username *)

(** X18.  The username check agrees with the registration.  For a password
    of valid length, [check-username] answers that a name is available
    exactly when the register route would not answer 400 for it, and that
    it is not available exactly when the register route would answer
    "Username already taken". *)
Theorem check_username_agrees_with_register username password role (w : World) :
  validator_isLength password 6 100 = true →
  let body := mkAuthBody (Some username) (Some password) role in
  (check_username username w = ans_json (RAvailability true username)
   ↔ status (register_route body w).1 ≠ 400)
  ∧ (check_username username w = ans_json (RAvailability false username)
     ↔ (register_route body w).1 = mkResponse 400 (JError "Username already taken")).
Proof.
  intros Hpw. cbv zeta.
  assert (password ≠ "") as Hpne by (by intros ->).
  unfold check_username, register_route, validateAuth, register.
  cbn [ab_username ab_password ab_role].
  destruct username as [|a username]; [by split; split|].
  rewrite !(truthy_str_nonempty password) by done.
  set (name := String a username).
  rewrite !(truthy_str_nonempty name) by done.
  change (String.eqb name "") with false. cbn [orb].
  assert (((String.length name <? 3) || (20 <? String.length name))%nat
          = negb (validator_isLength name 3 20)) as ->.
  { unfold validator_isLength.
    destruct (Nat.ltb_spec (String.length name) 3),
      (Nat.leb_spec 3 (String.length name)),
      (Nat.ltb_spec 20 (String.length name)),
      (Nat.leb_spec (String.length name) 20); simpl; try done; lia. }
  destruct (validator_isLength name 3 20); cbn [negb];
    [|split; split; simpl; unfold ans_json, res_json; intros Hx; congruence].
  destruct (validator_isAlphanumeric name); cbn [negb];
    [|split; split; simpl; unfold ans_json, res_json; intros Hx; congruence].
  rewrite Hpw. cbn [negb].
  destruct (User_findOne name (users w)) as [[]|] eqn:Hf.
  - rewrite bool_decide_eq_false_2 by done. split; split; simpl; unfold ans_json, res_json; intros Hx; congruence.
  - rewrite bool_decide_eq_true_2 by done. cbn [new_ObjectId].
    destruct (User_validate _); split; split; simpl; unfold ans_json, res_json; intros Hx; congruence.
Qed.

(** ** The token check *)

Lemma split_on_no_space s : no_space s → split_on " " s = (s, []).
Proof.
  unfold no_space. induction s as [|a s IH]; [done|]. simpl.
  rewrite not_elem_of_cons. intros [Ha Hs]. rewrite IH by done.
  destruct (Ascii.eqb_spec a " "); [by subst|done].
Qed.

Lemma split_on_space scheme rest :
  no_space scheme →
  split_on " " (scheme +:+ String " " rest)
  = (scheme, (split_on " " rest).1 :: (split_on " " rest).2).
Proof.
  unfold no_space. induction scheme as [|a s IH]; simpl.
  - intros _. by destruct (split_on " " rest).
  - rewrite not_elem_of_cons. intros [Ha Hs]. rewrite IH by done.
    destruct (Ascii.eqb_spec a " "); [by subst|done].
Qed.

(** X19.  [verifyToken] reads the token after the first space of the
    header, whatever stands before it: for a scheme and a token without
    spaces, the header made of the two is accepted exactly when
    [jwt.verify] accepts the token, with its payload, and answered 403
    otherwise.  A header without a space is answered 401. *)
Theorem verifyToken_reads_second_word scheme token :
  no_space scheme → no_space token → token ≠ "" →
  verifyToken (Some (scheme +:+ " " +:+ token))
  = match jwt_verify token with
    | Some payload => inr payload
    | None => inl (mkResponse 403 (JError "Invalid or expired token."))
    end
  ∧ verifyToken (Some scheme)
    = inl (mkResponse 401 (JError "Access denied. Token missing.")).
Proof.
  intros Hs Ht Hne. unfold verifyToken, String_split. split.
  - rewrite truthy_str_nonempty by (by destruct scheme).
    change (" " +:+ token) with (String " " token).
    rewrite split_on_space, split_on_no_space by done.
    by destruct token.
  - destruct scheme as [|a s]; [done|].
    rewrite truthy_str_nonempty, split_on_no_space by done. done.
Qed.

(** ** Creating an admin *)

(** X20.  An admin is created only where the environment allows it, and
    can then log in as admin.  A create-admin request answered 200 was made
    with [ALLOW_ADMIN_CREATION] set to [true]; the user it adds has the role
    [admin], whatever role the body asks for, and when the hash function
    accepts the password against its own hash a login with the same body
    answers with a token for that role.  With any other setting the route
    changes nothing. *)
Theorem createAdmin_route_then_login allow body (w : World) :
  (a_status (createAdmin_route allow body w).1 = 200 →
   allow = Some "true"
   ∧ ∃ username password admin,
       truthy_str (ab_username body) = Some username
       ∧ truthy_str (ab_password body) = Some password
       ∧ users (createAdmin_route allow body w).2 = users w ++ [admin]
       ∧ u_username admin = username ∧ u_role admin = "admin"
       ∧ (bcrypt_compareSync password (bcrypt_hashSync password 8) = true →
          login body (createAdmin_route allow body w).2
          = res_json (JLoggedIn "Login successful"
                        (jwt_sign (u_id admin) username "admin")
                        "admin" (u_id admin) username)))
  ∧ (allow ≠ Some "true" → (createAdmin_route allow body w).2 = w).
Proof.
  split.
  - intros H200.
    destruct (createAdmin_route_ok allow body w H200)
      as (username & password & Hallow & Hv & Hu & Hp & Hf & Hr).
    cbv zeta in Hr. rewrite Hr. split; [done|].
    eexists username, password, _. split_and!; [done..|].
    intros Hcmp. unfold login. rewrite Hu, Hp. cbn [snd users set_users new_ObjectId].
    erewrite User_findOne_inserted by done.
    cbn [u_password u_id u_username u_role]. by rewrite Hcmp.
  - intros Hallow. unfold createAdmin_route.
    destruct (validateAuth body); [done|].
    by rewrite bool_decide_eq_false_2.
Qed.
(** ** Trimming *)

Lemma trim_start_headed l :
  match trim_start l with
  | a :: _ => is_space a = false
  | [] => True
  end.
Proof.
  induction l as [|a l IH]; [done|]. simpl.
  by destruct (is_space a) eqn:Ha; [|simpl].
Qed.

Lemma trim_start_id l :
  match l with a :: _ => is_space a = false | [] => True end →
  trim_start l = l.
Proof. destruct l as [|a l]; [done|]. simpl. by intros ->. Qed.

Lemma trim_start_suffix l : ∃ k, l = k ++ trim_start l.
Proof.
  induction l as [|a l [k IH]]; [by exists []|]. simpl.
  destruct (is_space a); [|by exists []].
  exists (a :: k). simpl. by rewrite <- IH.
Qed.

Lemma String_trim_idemp s : String_trim (String_trim s) = String_trim s.
Proof.
  unfold String_trim. rewrite list_ascii_of_string_of_list_ascii.
  set (t := trim_start (list_ascii_of_string s)).
  set (r := rev (trim_start (rev t))).
  assert (trim_start r = r) as ->.
  { apply trim_start_id.
    destruct (trim_start_suffix (rev t)) as [k Hk].
    assert (t = r ++ rev k) as Ht.
    { unfold r. rewrite <- rev_app_distr, <- Hk. by rewrite rev_involutive. }
    pose proof (trim_start_headed (list_ascii_of_string s)) as Hh.
    fold t in Hh. rewrite Ht in Hh. by destruct r. }
  unfold r at 1. rewrite rev_involutive.
  rewrite (trim_start_id (trim_start (rev t))) by apply trim_start_headed.
  done.
Qed.

(** ** The catalog under the admin routes *)

Lemma Product_validate_ok p : Product_validate p = None → product_ok p.
Proof.
  unfold Product_validate, Product_validate_paths, product_ok.
  destruct (String.eqb_spec (p_name p) ""); [done|].
  destruct (Nat.ltb_spec 100 (String.length (p_name p))); [done|].
  destruct (String.eqb_spec (p_description p) ""); [done|].
  destruct (Nat.ltb_spec 1000 (String.length (p_description p))); [done|].
  destruct (num_leb _ (p_price p)); [|done].
  case_bool_decide; [|done].
  destruct (image_validator (p_image p)); [|done].
  destruct (Z.ltb_spec (p_stock p) 0); [done|].
  intros _. split_and!; done || lia.
Qed.

Lemma option_union_None {A} (a b : option A) :
  a ∪ b = None → a = None ∧ b = None.
Proof. by destruct a, b. Qed.

Lemma Product_apply_ok ud p :
  Product_validate_update ud = None → product_ok p →
  product_ok (Product_apply ud p).
Proof.
  unfold Product_validate_update, product_ok, Product_apply.
  destruct ud as [name description price category image stock]. simpl.
  intros Hv (Hn & Hnl & Hd & Hdl & Hpr & Hc & Hi & Hs).
  apply option_union_None in Hv as [Hv Hstock].
  apply option_union_None in Hv as [Hv Himage].
  apply option_union_None in Hv as [Hv Hcategory].
  apply option_union_None in Hv as [Hv Hprice].
  apply option_union_None in Hv as [Hname Hdescription].
  assert (default (p_name p) name ≠ ""
          ∧ (String.length (default (p_name p) name) ≤ 100)%nat) as [??].
  { destruct name as [name|]; [|done]. simpl.
    destruct (String.eqb_spec name ""); [done|].
    destruct (Nat.ltb_spec 100 (String.length name)); [done|]. split; [done|lia]. }
  assert (default (p_description p) description ≠ ""
          ∧ (String.length (default (p_description p) description) ≤ 1000)%nat)
    as [??].
  { destruct description as [description|]; [|done]. simpl.
    destruct (String.eqb_spec description ""); [done|].
    destruct (Nat.ltb_spec 1000 (String.length description)); [done|].
    split; [done|lia]. }
  split_and!; try done.
  - destruct price as [price|]; [|done]. simpl.
    by destruct (num_leb _ price).
  - destruct category as [category|]; [|done]. simpl.
    by case_bool_decide.
  - destruct image as [image|]; [|done]. simpl.
    by destruct (image_validator image).
  - destruct stock as [stock|]; [|done]. simpl.
    destruct (Z.ltb_spec stock 0); [done|lia].
Qed.

Lemma addProduct_route_cases now now_saved body (w : World) :
  (products (addProduct_route now now_saved body w).2 = products w
   ∧ a_status (addProduct_route now now_saved body w).1 ≠ 201)
  ∨ ∃ name description price,
      truthy_str (pb_name body) = Some name
      ∧ truthy_str (pb_description body) = Some description
      ∧ pb_price body = Some price
      ∧ let product :=
          mkProduct (String_trim name) (String_trim description) price
            (match truthy_str (pb_category body) with
             | Some category => category
             | None => "General"
             end)
            (match truthy_str (pb_image body) with
             | Some image => image
             | None => ""
             end)
            (default 0 (pb_stock body)) now now_saved in
        product_ok product
        ∧ addProduct_route now now_saved body w
          = (mkAnswer 201 (RProductAdded "Product added successfully" product
                             (oid_counter w)),
             set_products (<[oid_counter w := product]> (products w))
               (new_ObjectId w).2).
Proof.
  unfold addProduct_route.
  destruct (validateProductData body) as [r|] eqn:Hv.
  { left. split; [done|]. unfold validateProductData in Hv.
    case_bool_decide; by simplify_eq. }
  unfold addProduct.
  destruct (truthy_str (pb_name body)) as [name|]; [|by left].
  destruct (truthy_str (pb_description body)) as [description|]; [|by left].
  destruct (pb_price body) as [price|]; [|by left].
  destruct (num_truthy price); [|by left].
  destruct (num_leb price (num_of_Z 0)); [by left|].
  destruct (match pb_stock body with Some _ => _ | None => _ end); [by left|].
  cbn [new_ObjectId]. rewrite !String_trim_idemp.
  destruct (Product_validate _) eqn:Hp; [by left|].
  right. exists name, description, price. split_and!; [done..| |done].
  by apply Product_validate_ok.
Qed.

Lemma deleteProduct_route_cases confirmDelete id (w : World) :
  (deleteProduct_route confirmDelete id w).2 = w
  ∧ a_status (deleteProduct_route confirmDelete id w).1 ≠ 200
  ∨ confirmDelete = Some "true" ∧ is_Some (products w !! id)
    ∧ deleteProduct_route confirmDelete id w
      = (ans_json (RProductDeleted "Product deleted successfully" id),
         set_products (delete id (products w)) w).
Proof.
  unfold deleteProduct_route. case_bool_decide as Hc; [|by left]. cbn [negb].
  unfold deleteProduct. destruct (products w !! id) eqn:Hp; [|by left].
  right. split_and!; [done|by eexists|done].
Qed.

Lemma product_request_ok req (w : World) :
  catalog_ok (products w) →
  catalog_ok (products (product_request req w))
  ∧ carts (product_request req w) = carts w
  ∧ users (product_request req w) = users w.
Proof.
  intros Hw. destruct req as [now now_saved body|id body|confirmDelete id]; simpl.
  - destruct (addProduct_route_cases now now_saved body w)
      as [[Hp _]|(name & description & price & _ & _ & _ & Hok & Hr)].
    + rewrite Hp. split; [done|].
      unfold addProduct_route, addProduct, new_ObjectId. by repeat case_match.
    + cbv zeta in Hr. rewrite Hr. split; [|done]. by apply map_Forall_insert_2.
  - destruct (updateProduct_route_cases id body w)
      as [[-> _]|(p & Hp & _ & Hv & ->)]; [done|].
    split; [|done]. apply map_Forall_insert_2; [|done].
    apply Product_apply_ok; [done|]. by apply (Hw id).
  - destruct (deleteProduct_route_cases confirmDelete id w)
      as [[-> _]|(_ & _ & ->)]; [done|].
    split; [|done]. by apply map_Forall_delete.
Qed.

(** X21.  The admin routes keep the catalog within the Product schema: if
    every product has a non-empty name of at most 100 characters, a
    non-empty description of at most 1000, a price of at least 0.01, a
    category of the list, a valid image and a stock that is not negative,
    then so has every product after any sequence of add, update and delete
    requests.  These requests change no cart and no user. *)
Theorem product_requests_keep_catalog_ok (w : World) reqs :
  catalog_ok (products w) →
  catalog_ok (products (product_requests w reqs))
  ∧ carts (product_requests w reqs) = carts w
  ∧ users (product_requests w reqs) = users w.
Proof.
  revert w. induction reqs as [|req reqs IH]; intros w Hw; [done|].
  simpl. destruct (product_request_ok req w Hw) as (Hok & Hc & Hu).
  destruct (IH _ Hok) as (? & -> & ->). done.
Qed.

(** X22.  A product that was added can be read back.  When the add route
    answers 201, the product it stored is the one [getProductById] returns
    for the id of the response; it has the name and the description of the
    body trimmed, the category [General] and the stock 0 where the body
    gives none, and it meets the constraints of the schema.  No other
    product changes. *)
Theorem addProduct_then_getProductById now now_saved body (w : World) :
  a_status (addProduct_route now now_saved body w).1 = 201 →
  ∃ product id name description,
    (addProduct_route now now_saved body w).1
    = mkAnswer 201 (RProductAdded "Product added successfully" product id)
    ∧ getProductById id (addProduct_route now now_saved body w).2
      = ans_json (RProduct id product)
    ∧ pb_name body = Some name ∧ p_name product = String_trim name
    ∧ pb_description body = Some description
    ∧ p_description product = String_trim description
    ∧ pb_price body = Some (p_price product)
    ∧ p_category product = default "General" (truthy_str (pb_category body))
    ∧ p_stock product = default 0 (pb_stock body)
    ∧ product_ok product
    ∧ ∀ id', id' ≠ id →
        products (addProduct_route now now_saved body w).2 !! id'
        = products w !! id'.
Proof.
  intros H201.
  destruct (addProduct_route_cases now now_saved body w)
    as [[_ ?]|(name & description & price & Hn & Hd & Hp & Hok & Hr)]; [done|].
  cbv zeta in Hr. rewrite Hr. cbn [fst snd].
  eexists _, (oid_counter w), name, description.
  assert (∀ o s, truthy_str o = Some s → o = Some s) as Htr.
  { intros [[]|] ?; simpl; congruence. }
  split_and!.
  - done.
  - unfold getProductById. cbn [products set_products].
    by rewrite lookup_insert_eq.
  - by apply Htr.
  - done.
  - by apply Htr.
  - done.
  - by rewrite Hp.
  - simpl. by destruct (truthy_str (pb_category body)).
  - done.
  - done.
  - intros id' Hid. cbn [products set_products].
    by rewrite lookup_insert_ne.
Qed.

(** X23.  A deleted product is gone for every reader, and nothing is
    deleted without the confirmation header.  After the delete route
    answers 200 for a product, [getProductById] answers 404 for it, adding
    it to a cart answers 404 however the id is spelled (for a quantity
    that is not falsy and not at most 0, as a number above 0 is), no line
    of it is listed by [getCart], and a second delete answers 404; the
    carts themselves are not touched by the delete.  A request whose header
    is not [true] changes nothing. *)
Theorem deleteProduct_then_gone confirmDelete id (w : World) :
  let r := deleteProduct_route confirmDelete id w in
  (a_status r.1 = 200 →
   confirmDelete = Some "true"
   ∧ carts r.2 = carts w
   ∧ getProductById id r.2 = ans_error 404 "Product not found"
   ∧ deleteProduct_route confirmDelete id r.2
     = (ans_error 404 "Product not found", r.2)
   ∧ (∀ userId cartId productId quantity,
        ObjectId_cast productId = Some id →
        truthy quantity = true → Numeric_leb (ToNumber quantity) 0 = false →
        let added :=
          addToCart userId
            (mkAddToCartBody cartId (Some productId) (Some quantity)) r.2 in
        added.1 = mkResponse 404 (JError "Product not found")
        ∧ carts added.2 = carts r.2)
   ∧ (∀ n, 0 < n →
        truthy (VNumber n) = true ∧ Numeric_leb (ToNumber (VNumber n)) 0 = false)
   ∧ (∀ userId cartId cartItems,
        (getCart userId cartId r.2).1 = res_json (JCartItems cartItems) →
        Forall (λ v, v_productId v ≠ id) cartItems))
  ∧ (confirmDelete ≠ Some "true" → r.2 = w).
Proof.
  cbv zeta. split.
  - intros H200.
    destruct (deleteProduct_route_cases confirmDelete id w)
      as [[_ ?]|(-> & _ & ->)]; [done|]. cbn [fst snd].
    assert (products (set_products (delete id (products w)) w) !! id = None) as Hgone
      by (cbn [products set_products]; apply lookup_delete_eq).
    split_and!; [done..| | | | |].
    + unfold getProductById. by rewrite Hgone.
    + unfold deleteProduct_route, deleteProduct.
      rewrite bool_decide_eq_true_2 by done. cbn [negb]. by rewrite Hgone.
    + intros userId cartId productId quantity Hcast Ht Hle. cbv zeta.
      unfold addToCart. cbn [add_productId add_quantity add_cartId].
      rewrite (ObjectId_cast_nonempty _ _ Hcast), Ht, Hle. cbn [negb].
      cbn [carts set_products].
      destruct (Cart_findOne cartId userId (carts w)) as [[i c]|];
        cbn [new_ObjectId products set_products]; rewrite Hcast;
        by rewrite lookup_delete_eq.
    + intros n Hn. simpl.
      destruct (Z.eqb_spec n 0); [lia|]. by destruct (Z.leb_spec n 0); [lia|].
    + intros userId cartId cartItems.
      set (w1 := set_products (delete id (products w)) w).
      destruct (Cart_findOne cartId userId (carts w1)) as [[i cart]|] eqn:Hc.
      * rewrite (getCart_found _ _ _ _ _ Hc). intros [= <-].
        apply Forall_forall. intros v (it & Hit & Hv)%list_elem_of_omap.
        unfold line_view in Hv.
        destruct (delete id (products w) !! ci_product it) as [p|] eqn:Hp;
          simpl in Hv; [|done].
        injection Hv as <-. simpl. intros Heq. rewrite Heq in Hp.
        by rewrite lookup_delete_eq in Hp.
      * unfold getCart. rewrite Hc. by intros [= <-].
  - intros Hc. unfold deleteProduct_route. by rewrite bool_decide_eq_false_2.
Qed.

(** ** Clearing through the route *)

(** X26.  The clear route empties a cart only with the confirmation header
    and only a cart of the caller.  Without the header [X-Confirm-Clear:
    true] nothing changes and the answer is 400, or 403 from the ownership
    check of the body.  The cart in the path is not checked for ownership
    by the middleware, yet a cart that is not the caller's is not found by
    the handler: nothing changes then either.  An answer 200 means that
    the header was there and that the cart found for the caller is now
    empty; the carts of every other user are as they were. *)
Theorem clearCart_route_guards userId cartId body confirmClear (w : World) :
  let r := clearCart_route userId cartId body confirmClear w in
  (confirmClear ≠ Some "true" →
   r.2 = w ∧ (a_status r.1 = 400 ∨ a_status r.1 = 403))
  ∧ (Cart_findOne cartId userId (carts w) = None →
     r.2 = w ∧ a_status r.1 ≠ 200)
  ∧ (a_status r.1 = 200 →
     confirmClear = Some "true"
     ∧ ∃ i cart, Cart_findOne cartId userId (carts w) = Some (i, cart)
                 ∧ c_user cart = userId
                 ∧ carts r.2 = <[i := set_items [] cart]> (carts w))
  ∧ (∀ v, v ≠ userId → carts_of v (carts r.2) = carts_of v (carts w)).
Proof.
  cbv zeta. unfold clearCart_route.
  destruct (validateObjectId body) as [r|] eqn:Hoid.
  { assert (status r = 400) as H400.
    { unfold validateObjectId in Hoid. by repeat case_match; simplify_eq. }
    cbn [fst snd answer_of a_status]. rewrite H400.
    split; [by intros _; split; [|left]|].
    split; [by intros _|]. split; [by intros [=]|done]. }
  destruct (validateCartOwnership userId (add_cartId body) None (carts w))
    as [r|] eqn:Hown.
  { assert (status r = 403) as H403.
    { unfold validateCartOwnership in Hown.
      destruct (match add_cartId body with Some _ => _ | None => _ end);
        by simplify_eq. }
    cbn [fst snd answer_of a_status]. rewrite H403.
    split; [by intros _; split; [|right]|].
    split; [by intros _|]. split; [by intros [=]|done]. }
  case_bool_decide as Hconfirm; cbn [negb].
  - unfold clearCart.
    destruct (Cart_findOne cartId userId (carts w)) as [[i cart]|] eqn:Hc;
      cbn [fst snd ans_json ans_error a_status Cart_save carts set_carts].
    + pose proof (Cart_findOne_lookup _ _ _ _ _ Hc) as [Hi Hu].
      split; [done|]. split; [by intros [=]|]. split.
      * intros _. split; [done|]. by exists i, cart.
      * intros v Hv. unfold carts_of.
        eapply filter_insert_neither; [done|..]; simpl; congruence.
    + split; [done|]. split; [by intros _|]. split; [by intros [=]|done].
  - cbn [fst snd answer_of a_status status].
    split; [by intros _; split; [|left]|].
    split; [by intros _|]. split; [by intros [=]|done].
Qed.

(** ** The stock bound under every cart request *)

Lemma items_step_within_stock fresh ps (c : Cart) its' :
  items_step fresh ps (c_items c) its' → within_stock ps c →
  within_stock ps (set_items its' c).
Proof.
  intros Hs Hc.
  inversion Hs as [its0 its1 Hsub|its0 j line q p Hj Hp Hle
                  |its0 lid pid q p Hnew Hp Hq]; subst.
  - intros it p Hin. apply Hc. by eapply elem_of_sublist.
  - eapply within_stock_set_quantity; [done..|lia].
  - eapply within_stock_push; [done..|lia].
Qed.

Lemma carts_step_within_stock fresh userId ps cs cs' :
  carts_step fresh userId ps cs cs' →
  Forall (within_stock ps) cs → Forall (within_stock ps) cs'.
Proof.
  intros Hs Hcs.
  destruct Hs as [cs|cs i c its' Hi Hu Hit|cs oid its' Hit|cs i c Hi Hu].
  - done.
  - apply Forall_insert; [done|]. apply (items_step_within_stock fresh); [done|].
    by apply (Forall_lookup_1 _ _ _ _ Hcs Hi).
  - apply Forall_app. split; [done|]. apply Forall_singleton.
    apply (items_step_within_stock fresh ps (mkCart oid userId [])); [done|].
    intros it p Hin. by apply elem_of_nil in Hin.
  - by apply Forall_delete.
Qed.

(** X24.  No sequence of cart requests, of any of the eight kinds, makes a
    line ask for more than the stock of its product: if every line of
    every cart is within the stock, so is every line after the requests. *)
Theorem cart_requests_within_stock (w : World) reqs :
  carts_within_stock w → carts_within_stock (cart_requests w reqs).
Proof.
  induction reqs as [|[u req] reqs IH] using rev_ind; [done|].
  intros Hw. rewrite cart_requests_snoc. unfold carts_within_stock.
  destruct (cart_request_step false u req (cart_requests w reqs))
    as (Hs & -> & _); [done|].
  eapply carts_step_within_stock; [done|]. by apply IH.
Qed.

(** ** Adding, then listing *)

(** The cart [addToCart] wrote to, when the request names no cart, is the
    cart of the user that is read without a cart id. *)
Lemma addToCart_first_cart userId productId quantity (w : World) :
  let body := mkAddToCartBody None (Some productId) (Some quantity) in
  status (addToCart userId body w).1 = 200 →
  ∃ i cart line product_id p,
    Cart_findOne None userId (carts (addToCart userId body w).2) = Some (i, cart)
    ∧ line ∈ c_items cart
    ∧ ObjectId_cast productId = Some product_id
    ∧ ci_product line = product_id
    ∧ Cart_quantity (quantity_assigned userId productId quantity w)
      = Some (ci_quantity line)
    ∧ products w !! product_id = Some p
    ∧ products (addToCart userId body w).2 = products w
    ∧ 1 ≤ ci_quantity line ≤ p_stock p.
Proof.
  cbv zeta. intros H200.
  destruct (addToCart_cases userId
              (mkAddToCartBody None (Some productId) (Some quantity)) w)
    as (Hps & _ & Hcases).
  destruct Hcases as [[? _]|(productId' & quantity' & product_id & p & q & items'
    & Hpid & Hqv & Hcast & Hp & Hq & Hitems & _ & Hcarts)]; [done|].
  cbn [add_productId add_quantity] in Hpid, Hqv.
  assert (productId' = productId) as ->
    by (destruct productId; simpl in Hpid; congruence).
  injection Hqv as <-.
  rewrite Hcarts. clear Hcarts.
  unfold cart_of_add, quantity_assigned in *. cbn [add_cartId] in *.
  destruct (Cart_findOne None userId (carts w)) as [[i c]|] eqn:Hc.
  - destruct Hitems as [(j & line & Hl & Hcq & ->)|(lid & Hl & Hcq & _ & ->)];
      rewrite Hl.
    + destruct (findIndex_product_line _ _ _ _ _ Hl Hcast) as [Hj Hpl].
      exists i, (set_items (<[j := set_quantity q line]> (c_items c)) c),
        (set_quantity q line), product_id, p.
      split; [by apply Cart_findOne_insert|].
      split_and!; try done; try apply Hq.
      simpl. apply list_elem_of_lookup. exists j.
      apply list_lookup_insert_eq. by eapply lookup_lt_Some.
    + exists i, (set_items (c_items c ++ [mkCartItem lid product_id q]) c),
        (mkCartItem lid product_id q), product_id, p.
      split; [by apply Cart_findOne_insert|].
      split_and!; try done; try apply Hq.
      simpl. apply elem_of_app. right. by apply list_elem_of_singleton.
  - destruct Hitems as [(j & line & Hl & _)|(lid & Hl & Hcq & _ & ->)]; [done|].
    exists (0 + length (carts w))%nat,
      (set_items [mkCartItem lid product_id q] (mkCart (oid_counter w) userId [])),
      (mkCartItem lid product_id q), product_id, p.
    split.
    { unfold Cart_findOne in *. rewrite list_find_app_r by done.
      simpl. by rewrite decide_True. }
    split_and!; try done; try apply Hq.
    simpl. by apply list_elem_of_singleton.
Qed.

(** X25.  What was added is listed.  After [addToCart] answers 200 for a
    request that names no cart, [getCart] lists a line of the product that
    the text of the request is cast to, with the product's name, price and
    stock.  Its quantity is the value the handler assigned, cast to a
    Number: the quantity asked where the cart had no line under that text,
    and else the quantity of that line with the quantity asked added by
    [+], which is the sum for a number and, for a string, the number that
    the digits of the old quantity followed by the string write.  The
    quantity listed is from 1 to the stock. *)
Theorem addToCart_then_getCart userId productId quantity (w : World) :
  let body := mkAddToCartBody None (Some productId) (Some quantity) in
  status (addToCart userId body w).1 = 200 →
  ∃ cartItems v product_id p,
    (getCart userId None (addToCart userId body w).2).1
    = res_json (JCartItems cartItems)
    ∧ v ∈ cartItems
    ∧ ObjectId_cast productId = Some product_id
    ∧ products w !! product_id = Some p
    ∧ v_productId v = product_id ∧ v_name v = p_name p
    ∧ v_price v = p_price p ∧ v_stock v = p_stock p
    ∧ Cart_quantity (quantity_assigned userId productId quantity w)
      = Some (v_quantity v)
    ∧ (∀ n, quantity_assigned userId productId quantity w = VNumber n →
            v_quantity v = n)
    ∧ 1 ≤ v_quantity v ≤ v_stock v.
Proof.
  cbv zeta. intros H200.
  destruct (addToCart_first_cart userId productId quantity w H200)
    as (i & cart & line & product_id & p & Hc & Hin & Hcast & Hpl & Hq & Hp & Hps
        & Hle).
  rewrite (getCart_found _ _ _ _ _ Hc). rewrite Hps. cbn [fst].
  exists (omap (line_view (products w)) (c_items cart)),
    (cartItem_view (line, p)), product_id, p.
  split; [done|]. split.
  { apply list_elem_of_omap. exists line. split; [done|].
    unfold line_view. by rewrite Hpl, Hp. }
  split_and!; try done; try apply Hle.
  intros n Hn. rewrite Hn in Hq. simpl.
  apply Cart_quantity_Some in Hq as [[= ->] _]. done.
Qed.

End Shop.

(** * Runs on IEEE-754 doubles *)

Abbreviation World_f := (@World float) (only parsing).

(** On doubles a Number that is not NaN and not at most 0 is truthy. *)
Lemma float_positive_truthy (n : float) :
  num_isNaN n = false → num_leb n (num_of_Z 0) = false → num_truthy n = true.
Proof.
  cbn [num_isNaN num_leb num_truthy num_of_Z float_JSNumber].
  intros Hnan Hle.
  rewrite Hnan, orb_false_r.
  rewrite FloatAxioms.leb_spec in Hle. rewrite FloatAxioms.eqb_spec.
  unfold SFleb, SFeqb in *.
  change (Prim2SF (float_of_Z 0)) with (Prim2SF 0) in Hle.
  by destruct (SFcompare (Prim2SF n) (Prim2SF 0)) as [[]|].
Qed.

Lemma demo_jwt_sign_nonempty id username role : demo_jwt_sign id username role ≠ "".
Proof. done. Qed.

(** ** Cart *)

(** X27 on a run: asking for 12 of a product with 10 in stock. *)
Lemma cart_quantity_bounded_by_stock_run :
  let w : World_f := shop in
  let body :=
    mkAddToCartBody None (Some "000000000000000000000001") (Some (VNumber 12)) in
  ObjectId_cast "000000000000000000000001" = Some 1%N
  ∧ products w !! 1%N = Some bag
  ∧ exceeds (VNumber 12) (p_stock (bag : @Product float))
  ∧ status (addToCart 7%N body w).1 = 400
  ∧ carts (addToCart 7%N body w).2 = carts w.
Proof.
  intros w body.
  assert (ObjectId_cast "000000000000000000000001" = Some 1%N) as Hcast
    by (vm_compute; reflexivity).
  assert (products w !! 1%N = Some bag) as Hp by (vm_compute; reflexivity).
  assert (exceeds (VNumber 12) (p_stock (bag : @Product float))) as Hq
    by reflexivity.
  split; [exact Hcast|]. split; [exact Hp|]. split; [exact Hq|].
  exact (proj1 (cart_quantity_bounded_by_stock w) 7%N None
           "000000000000000000000001" (VNumber 12) 1%N bag Hcast Hp
           (or_introl Hq)).
Defined.

(** C1 at an id in upper case.  The bag, 10 in stock, has the id that
    prints as [00000000000000000000000a], and alice's cart has 3 of it.
    Asking for 9 more under the text [00000000000000000000000A], which the
    pattern of the route lets through and [findById] resolves to the bag,
    is answered 200 and not 400: [findIndex] compares the text and finds no
    line, so a second line of the bag is stored, and the two lines ask for
    12 of a product with 10 in stock.  In lower case the same request is
    answered 400. *)
Lemma addToCart_upper_case_id :
  let w : World_f := shop_a [mkCartItem 101%N 10%N 3] in
  let upper :=
    mkAddToCartBody None (Some "00000000000000000000000A") (Some (VNumber 9)) in
  let lower :=
    mkAddToCartBody None (Some "00000000000000000000000a") (Some (VNumber 9)) in
  ObjectId_test "00000000000000000000000A" = true
  ∧ ObjectId_cast "00000000000000000000000A" = Some 10%N
  ∧ products w !! 10%N = Some bag
  ∧ p_stock (bag : @Product float) = 10
  ∧ addToCart_route 7%N upper w = addToCart 7%N upper w
  ∧ (addToCart 7%N upper w).1
    = res_json (JItemAdded "Item added to cart" 100%N 2)
  ∧ carts (addToCart 7%N upper w).2
    = [mkCart 100%N 7%N [mkCartItem 101%N 10%N 3; mkCartItem 200%N 10%N 9]]
  ∧ (addToCart 7%N lower w).1
    = mkResponse 400 (JError "Cannot add 9 more items. Maximum 10 available")
  ∧ carts (addToCart 7%N lower w).2 = carts w.
Proof. vm_compute. by split_and!. Qed.

(** A quantity sent as a string, which the validation of the route lets
    through, is not added but appended: with 1 bag in the cart, asking for
    ["1"] more is refused when 11 is above the stock, and stores 11 when it
    is not.  A string that makes no number with the digits in front of it
    ends in the error of [save]. *)
Example addToCart_string_quantity :
  let w : World_f := shop_a [mkCartItem 101%N 10%N 1] in
  let w20 : World_f :=
    set_products (<[10%N := mkProduct "Bag" "A cotton bag" 19.5%float "Eco Bags"
                              "" 20 0 0]> ∅) w in
  let body s :=
    mkAddToCartBody None (Some "00000000000000000000000a") (Some (VString s)) in
  (addToCart_route 7%N (body "1") w).1
  = mkResponse 400 (JError "Cannot add 1 more items. Maximum 10 available")
  ∧ (addToCart_route 7%N (body "1") w20).1
    = res_json (JItemAdded "Item added to cart" 100%N 1)
  ∧ carts (addToCart_route 7%N (body "1") w20).2
    = [mkCart 100%N 7%N [mkCartItem 101%N 10%N 11]]
  ∧ (addToCart_route 7%N (body " 5") w).1
    = mkResponse 500 (JCaught (ValidationError "quantity" (VString "1 5"))
                        "Failed to add item to cart")
  ∧ carts (addToCart_route 7%N (body " 5") w).2 = carts w.
Proof. vm_compute. by split_and!. Qed.

(** [Number(s)] on some strings. *)
Example StringToNumber_examples :
  StringToNumber "12" = NInt 12
  ∧ StringToNumber " 12 " = NInt 12
  ∧ StringToNumber "" = NInt 0
  ∧ StringToNumber "1e2" = NInt 100
  ∧ StringToNumber "2.50" = NBetween 2
  ∧ StringToNumber "-0.5" = NBetween (-1)
  ∧ StringToNumber "5." = NInt 5
  ∧ StringToNumber ".5e1" = NInt 5
  ∧ StringToNumber "0x1f" = NInt 31
  ∧ StringToNumber "0b101" = NInt 5
  ∧ StringToNumber "-0x10" = NNaN
  ∧ StringToNumber "1 2" = NNaN
  ∧ StringToNumber "+7" = NInt 7
  ∧ StringToNumber "twelve" = NNaN
  ∧ StringToNumber "-Infinity" = NInfinity true
  ∧ StringToNumber "1e400" = NInfinity false
  ∧ StringToNumber "1e-400" = NInt 0
  ∧ StringToNumber "4.9999999999999999999" = NInt 5
  ∧ StringToNumber "9007199254740993" = NInt 9007199254740992.
Proof. vm_compute. by split_and!. Qed.

(** The walk of the specification: 3 of a product with 10 in stock go into
    the cart, the summary counts 3, raising the line to 12 is refused. *)
Example cart_walk :
  let w : World_f := shop in
  let w1 :=
    (addToCart 7%N (mkAddToCartBody None (Some "000000000000000000000001")
                      (Some (VNumber 3))) w).2 in
  carts w1 = [mkCart 100%N 7%N [mkCartItem 101%N 1%N 3]]
  ∧ (getCartSummary 7%N w1).1 = res_json (JSummary 3 58.5%float 1 (Some 100%N))
  ∧ (updateCartItem 7%N 101%N (Some (VNumber 12)) w1).1
    = mkResponse 400 (JError "Insufficient stock. Only 10 items available")
  ∧ (updateCartItem 7%N 101%N (Some (VNumber 12)) w1).2 = w1.
Proof. vm_compute. by split_and!. Qed.

(** C5 on a run: the product of the first line was deleted. *)
Lemma getCart_drops_lines_run :
  let w : World_f :=
    set_products (delete 1%N catalog)
      (shop_with [mkCartItem 101%N 1%N 3; mkCartItem 102%N 2%N 2]) in
  Cart_findOne None 7%N (carts w)
  = Some (0%nat, mkCart 100%N 7%N [mkCartItem 101%N 1%N 3; mkCartItem 102%N 2%N 2])
  ∧ carts (getCart 7%N None w).2 = [mkCart 100%N 7%N [mkCartItem 102%N 2%N 2]]
  ∧ getCart 7%N None (getCart 7%N None w).2 = getCart 7%N None w.
Proof.
  intros w.
  assert (Cart_findOne None 7%N (carts w)
          = Some (0%nat, mkCart 100%N 7%N
                           [mkCartItem 101%N 1%N 3; mkCartItem 102%N 2%N 2]))
    as Hc by reflexivity.
  pose proof (getCart_drops_lines_of_deleted_products w 7%N None _ _ Hc)
    as (_ & Hw & _ & _ & Hagain).
  split; [exact Hc|]. split; [|exact Hagain].
  rewrite Hw. vm_compute. reflexivity.
Defined.

(** C6 on a run: 3 bags at 19.5 and 2 bottles at 5.25. *)
Lemma getCartSummary_totals_run :
  let w : World_f := shop_with [mkCartItem 101%N 1%N 3; mkCartItem 102%N 2%N 2] in
  Cart_findOne None 7%N (carts w)
  = Some (0%nat, mkCart 100%N 7%N [mkCartItem 101%N 1%N 3; mkCartItem 102%N 2%N 2])
  ∧ getCartSummary 7%N w = (res_json (JSummary 5 69%float 2 (Some 100%N)), w).
Proof.
  intros w.
  assert (Cart_findOne None 7%N (carts w)
          = Some (0%nat, mkCart 100%N 7%N
                           [mkCartItem 101%N 1%N 3; mkCartItem 102%N 2%N 2]))
    as Hc by reflexivity.
  pose proof (getCartSummary_totals w 7%N _ _ Hc) as (Hs & _ & _).
  split; [exact Hc|]. rewrite Hs. vm_compute. reflexivity.
Defined.

(** ** Checkout *)



(** C2 as the specification states it fails without a processor key: the
    only line of the cart is out of stock, and the answer is 500 without
    the advisories, not 400 with them. *)
Lemma checkout_all_dropped_unconfigured :
  let w : World_f := shop_with [mkCartItem 101%N 3%N 2] in
  let r := createCheckoutSession demo_sessions_create unconfigured 0 7%N None None w in
  omap retained_line (populate (products w) [mkCartItem 101%N 3%N 2]) = []
  ∧ r.1 = mkResponse 500 (JError "Stripe not configured")
  ∧ ¬ status r.1 = 400.
Proof. vm_compute. by split_and!. Qed.

(** C2 on a run with the key configured: 5 bottles asked, 3 in stock. *)
Lemma checkout_partitions_lines_run :
  let w : World_f := shop_with [mkCartItem 101%N 2%N 5] in
  let r := createCheckoutSession demo_sessions_create configured 0 7%N None None w in
  is_Some (truthy_str (STRIPE_SECRET_KEY configured))
  ∧ Cart_findOne None 7%N (carts w) = Some (0%nat, mkCart 100%N 7%N [mkCartItem 101%N 2%N 5])
  ∧ checkout_partition (populate (products w) [mkCartItem 101%N 2%N 5])
    = ([(mkCartItem 101%N 2%N 3, bottle)], ["Only 3 Bottle available"])
  ∧ carts r.2 = carts w
  ∧ r.1 = res_json (JCheckout "https://checkout.stripe.com/c/pay/cs_test_1"
                      "cs_test_1"
                      "Some items were adjusted due to stock availability"
                      (Some ["Only 3 Bottle available"])).
Proof.
  intros w r.
  assert (is_Some (truthy_str (STRIPE_SECRET_KEY configured))) as Hk by (by eexists).
  assert (Cart_findOne None 7%N (carts w)
          = Some (0%nat, mkCart 100%N 7%N [mkCartItem 101%N 2%N 5])) as Hc
    by reflexivity.
  pose proof (checkout_partitions_lines demo_sessions_create configured 0 7%N
                None None w _ _ Hk Hc ltac:(done)) as (Hpart & _ & _ & _ & Hcarts).
  split; [exact Hk|]. split; [exact Hc|].
  split; [|split; [exact Hcarts|]].
  - etrans; [exact Hpart|]. vm_compute. reflexivity.
  - vm_compute. reflexivity.
Defined.

(** ** Payment success *)

(** C3 as the specification states it fails on the guard of the loop: the
    cart asks for 5 bottles, 3 are in stock when the payment is confirmed,
    and the stock stays at 3 where the specification has it go to -2. *)
Lemma payment_success_keeps_uncovered_stock :
  let w : World_f := shop_with [mkCartItem 101%N 2%N 5] in
  let r := handlePaymentSuccess demo_sessions_retrieve 1700000000000
             (Some "cs_test_1") w in
  status r.1 = 200
  ∧ p_stock <$> products w !! 2%N = Some 3
  ∧ p_stock <$> products r.2 !! 2%N = Some 3
  ∧ ¬ p_stock <$> products r.2 !! 2%N = Some (3 - 5).
Proof. vm_compute. by split_and!. Qed.

(** C3 on a run: 2 bags of 10 are charged, 5 bottles of 3 are not. *)
Lemma payment_success_run :
  let cart := mkCart 100%N 7%N [mkCartItem 101%N 1%N 2; mkCartItem 102%N 2%N 5] in
  let w : World_f := shop_with (c_items cart) in
  let r := handlePaymentSuccess demo_sessions_retrieve 1700000000000
             (Some "cs_test_1") w in
  demo_sessions_retrieve "cs_test_1" = inr (demo_session (num := float))
  ∧ Cart_findOne (Some 100%N) 7%N (carts w) = Some (0%nat, cart)
  ∧ carts r.2 = [mkCart 100%N 7%N []]
  ∧ orders r.2 = []
  ∧ p_stock <$> products r.2 !! 1%N = Some 8
  ∧ p_stock <$> products r.2 !! 2%N = Some 3
  ∧ ∃ stockUpdates,
      r.1 = res_json (JPaid "Payment successful and order processed" "cs_test_1"
                        "ECO-1700000000000" stockUpdates 1 10.5%float "usd").
Proof.
  intros cart w r.
  assert (Cart_findOne (Some 100%N) 7%N (carts w) = Some (0%nat, cart)) as Hc
    by reflexivity.
  pose proof (payment_success_charges_covered_lines demo_sessions_retrieve
                1700000000000 "cs_test_1" demo_session w _ _
                ltac:(done) eq_refl eq_refl Hc)
    as ((stockUpdates & Hr & Hlen) & Hcarts & Horders & Hstock & _ & _).
  split; [reflexivity|]. split; [exact Hc|].
  split; [exact Hcarts|]. split; [exact Horders|].
  split; [|split].
  - pose proof (Hstock 1%N) as Hs.
    replace (products w !! 1%N) with (Some (bag (num := float))) in Hs
      by (vm_compute; reflexivity).
    destruct Hs as (p' & Hp' & Hst & _). subst r. rewrite Hp'. simpl.
    rewrite Hst. reflexivity.
  - pose proof (Hstock 2%N) as Hs.
    replace (products w !! 2%N) with (Some (bottle (num := float))) in Hs
      by (vm_compute; reflexivity).
    destruct Hs as (p' & Hp' & Hst & _). subst r. rewrite Hp'. simpl.
    rewrite Hst. reflexivity.
  - exists stockUpdates. etrans; [exact Hr|]. rewrite Hlen. vm_compute. reflexivity.
Defined.

(** ** Auth *)

(** C4 on a run: a request without credentials registers an admin. *)
Lemma register_role_from_body_run :
  let w : World_f := shop in
  let body := mkAuthBody (Some "mallory1") (Some "secret1") (Some "admin") in
  let r := register_route demo_hashSync demo_User_validate body w in
  User_findOne "mallory1" (users w) = None
  ∧ validateAuth (num := float) body = None
  ∧ r.1 = res_json (JRegistered "User registered" 100%N "admin")
  ∧ users r.2 = [alice; mkUser 100%N "mallory1" "$2a$08$secret1" "admin"].
Proof.
  intros w body r.
  assert (User_findOne "mallory1" (users w) = None) as Hfree by reflexivity.
  assert (validateAuth (num := float) body = None) as Hv by reflexivity.
  pose proof (register_role_from_body demo_hashSync demo_User_validate body w
                "mallory1" "secret1" eq_refl eq_refl Hfree)
    as (Hreg & _ & _ & _ & Hroute).
  split; [exact Hfree|]. split; [exact Hv|].
  subst r. rewrite (Hroute Hv), (Hreg eq_refl). by split.
Defined.

(** C9 on a run: after the five failures the right password is answered 423. *)
Lemma lockout_after_five_failures_run :
  let w : World_f := shop in
  let run := login_run demo_compareSync demo_jwt_sign w five_failures in
  status <$> run.1 = [401; 401; 401; 401; 401]
  ∧ accountLockouts run.2 !! "alice123" = Some (mkLockoutInfo 5 (5001 + 1800000))
  ∧ status (login_route demo_compareSync demo_jwt_sign 60000 60001
              (mkAuthBody (Some "alice123") (Some "secret1") None) run.2).1 = 423
  ∧ status (login_route demo_compareSync demo_jwt_sign 60000 60001
              (mkAuthBody (Some "alice123") (Some "secret1") None) w).1 = 200.
Proof.
  intros w run.
  assert (no_success "alice123" five_failures run.1) as Hns
    by (apply (bool_decide_unpack _); vm_compute; exact I).
  assert (5 ≤ length (failure_times "alice123" five_failures run.1))%nat as Hlen
    by (apply (bool_decide_unpack _); vm_compute; exact I).
  pose proof (lockout_after_five_failures demo_compareSync demo_jwt_sign
                "alice123" w five_failures demo_jwt_sign_nonempty
                ltac:(vm_compute; discriminate) Hns Hlen)
    as (t & info & Hlast & Hinfo & Hatt & Hlock & Hlocked & _).
  assert (Some t = Some 5001) as [= ->]
    by (rewrite <- Hlast; vm_compute; reflexivity).
  assert (Some (mkLockoutInfo 5 (5001 + 1800000)) = Some info) as [= <-]
    by (rewrite <- Hinfo; vm_compute; reflexivity).
  split; [vm_compute; reflexivity|].
  split; [exact Hinfo|].
  split; [|vm_compute; reflexivity].
  apply (Hlocked 60000 60001
           (mkAuthBody (Some "alice123") (Some "secret1") None) run.2 Hinfo eq_refl).
  reflexivity.
Defined.

(** C10 on a run. *)
Example changePassword_same_value_run :
  changePassword_route demo_hashSync demo_compareSync 7%N
    (mkChangePasswordBody (Some "secret1") (Some "secret1")) (shop : World_f)
  = (mkResponse 400
       (JError "New password must be different from current password"), shop).
Proof. reflexivity. Qed.

(** ** Catalog *)

(** C8 on a run: a new price and an empty image for the bag. *)
Lemma updateProduct_patch_run :
  let w : World_f := shop in
  let body := mkProductBody None None (Some 25.5%float) None (Some "") None in
  let r := updateProduct_route demo_URL_valid 1%N body w in
  status r.1 = 200
  ∧ products r.2 !! 1%N
    = Some (mkProduct "Bag" "A cotton bag" 25.5%float "Eco Bags" "" 10 0 0)
  ∧ products r.2 !! 2%N = Some bottle.
Proof.
  intros w body r.
  assert (status r.1 = 200) as H200 by (vm_compute; reflexivity).
  pose proof (updateProduct_patches_present_fields demo_URL_valid 1%N body w)
    as (_ & Hpatch & _).
  destruct (Hpatch float_positive_truthy H200) as (p & Hp & Hr).
  assert (Some p = Some bag) as [= ->]
    by (rewrite <- Hp; vm_compute; reflexivity).
  split; [exact H200|]. subst r. rewrite Hr. vm_compute. by split.
Defined.

(** ** More runs: carts *)

(** X2 on a run: bob adds, updates and clears; the cart of alice stays. *)
Lemma cart_requests_of_others_run :
  let w : World_f := shop_two in
  let reqs :=
    [(8%N, ReqAdd (mkAddToCartBody None (Some "000000000000000000000001")
                     (Some (VNumber 2))));
     (8%N, ReqUpdate 111%N (Some (VNumber 3)));
     (8%N, ReqClear None)] in
  carts (cart_requests w reqs)
  = [mkCart 100%N 7%N [mkCartItem 101%N 1%N 3]; mkCart 110%N 8%N []]
  ∧ carts_of 7%N (carts (cart_requests w reqs)) = carts_of 7%N (carts w).
Proof.
  intros w reqs. split; [vm_compute; reflexivity|].
  apply (cart_requests_of_others w reqs 7%N).
  repeat constructor; discriminate.
Defined.

(** X3 on a run: an add, with the quantity sent as a string, a checkout
    and the confirmation of the payment. *)
Lemma shop_requests_keep_lines_ok_run :
  let w : World_f := shop_two in
  let reqs :=
    [ByUser 7%N (ReqAdd (mkAddToCartBody None (Some "000000000000000000000002")
                           (Some (VString "1"))));
     Checkout configured 0 7%N None None;
     PaymentSuccess 1700000000000 (Some "cs_test_1")] in
  Forall canonical_shop_request reqs
  ∧ Forall lines_ok (carts w)
  ∧ carts (cart_request 7%N (ReqAdd (mkAddToCartBody None
                                       (Some "000000000000000000000002")
                                       (Some (VString "1")))) w).2
    = [mkCart 100%N 7%N [mkCartItem 101%N 1%N 3; mkCartItem 200%N 2%N 1];
       mkCart 110%N 8%N [mkCartItem 111%N 2%N 2]]
  ∧ Forall lines_ok
      (carts (shop_requests demo_sessions_create demo_sessions_retrieve w reqs)).
Proof.
  intros w reqs.
  assert (Forall canonical_shop_request reqs) as Hreqs.
  { apply Forall_cons. split; [vm_compute; reflexivity|]. by repeat constructor. }
  assert (Forall lines_ok (carts w)) as Hw.
  { repeat constructor; simpl; try lia; by intros ?%elem_of_nil. }
  split; [exact Hreqs|]. split; [exact Hw|]. split; [vm_compute; reflexivity|].
  exact (proj2 (shop_requests_keep_lines_ok demo_sessions_create
                  demo_sessions_retrieve w reqs) Hreqs Hw).
Defined.

(** X4 on a run: two bottles go into a cart of three bags and out again. *)
Lemma addToCart_then_removeFromCart_run :
  let w : World_f := shop_with [mkCartItem 101%N 1%N 3] in
  let added :=
    addToCart 7%N (mkAddToCartBody None (Some "000000000000000000000002")
                     (Some (VNumber 2))) w in
  carts added.2
  = [mkCart 100%N 7%N [mkCartItem 101%N 1%N 3; mkCartItem 200%N 2%N 2]]
  ∧ carts (removeFromCart 7%N 200%N added.2).2 = carts w.
Proof.
  intros w added.
  assert (Cart_findOne None 7%N (carts w)
          = Some (0%nat, mkCart 100%N 7%N [mkCartItem 101%N 1%N 3])) as Hc
    by reflexivity.
  assert (findIndex_product "000000000000000000000002" [mkCartItem 101%N 1%N 3]
          = None) as Hl by (vm_compute; reflexivity).
  assert (ObjectId_cast "000000000000000000000002" = Some 2%N) as Hcast
    by (vm_compute; reflexivity).
  assert (products w !! 2%N = Some bottle) as Hp by (vm_compute; reflexivity).
  assert (Cart_quantity (VNumber 2) = Some 2) as Hq by reflexivity.
  assert (2 ≤ p_stock (bottle : @Product float)) as Hle by (simpl; lia).
  pose proof (addToCart_then_removeFromCart 7%N None "000000000000000000000002"
                (VNumber 2) w _ _ 2%N bottle 2 Hc Hl Hcast Hp Hq Hle
                ltac:(repeat constructor; discriminate))
    as (_ & _ & _ & Hback & _).
  split; [vm_compute; reflexivity|exact Hback].
Defined.

(** X5 on a run: the line of the bags is removed, the bottles stay listed. *)
Lemma removeFromCart_then_getCart_run :
  let w : World_f := shop_with [mkCartItem 101%N 1%N 3; mkCartItem 102%N 2%N 2] in
  v_id <$> match json (getCart 7%N None w).1 with
           | JCartItems cartItems => cartItems
           | _ => []
           end = [101%N; 102%N]
  ∧ ∃ cartItems,
      (getCart 7%N None w).1 = res_json (JCartItems cartItems)
      ∧ (getCart 7%N None (removeFromCart 7%N 101%N w).2).1
        = res_json (JCartItems (filter (λ v, v_id v ≠ 101%N) cartItems)).
Proof.
  intros w. split; [vm_compute; reflexivity|].
  assert (Cart_findOne None 7%N (carts w)
          = Some (0%nat, mkCart 100%N 7%N
                           [mkCartItem 101%N 1%N 3; mkCartItem 102%N 2%N 2]))
    as Hc by reflexivity.
  destruct (removeFromCart_then_getCart 7%N None 101%N w _ _
              ltac:(vm_compute; reflexivity) Hc) as (cartItems & Hg & _ & Hr).
  by exists cartItems.
Defined.

(** X6 on a run: the cart of alice is cleared. *)
Lemma clearCart_then_empty_run :
  let w : World_f := shop_with [mkCartItem 101%N 1%N 3; mkCartItem 102%N 2%N 2] in
  let r := clearCart 7%N None w in
  carts r.2 = [mkCart 100%N 7%N []]
  ∧ getCart 7%N None r.2 = (res_json (JCartItems []), r.2)
  ∧ createCheckoutSession demo_sessions_create configured 0 7%N None None r.2
    = (mkResponse 400 (JError "Cart is empty"), r.2)
  ∧ (getCartSummary 7%N r.2).1 = res_json (JSummary 0 0%float 0 (Some 100%N)).
Proof.
  intros w r.
  assert (Cart_findOne None 7%N (carts w)
          = Some (0%nat, mkCart 100%N 7%N
                           [mkCartItem 101%N 1%N 3; mkCartItem 102%N 2%N 2]))
    as Hc by reflexivity.
  pose proof (clearCart_then_empty demo_sessions_create configured 0 None 7%N None
                w _ _ Hc) as (_ & Hcarts & Hget & _ & Hcheckout & Hsummary & _).
  split; [vm_compute; reflexivity|]. split; [exact Hget|].
  split; [apply Hcheckout; by eexists|].
  unfold r. rewrite (Hsummary (or_introl eq_refl)). vm_compute. reflexivity.
Defined.

(** X6 where the user has two carts: the second is cleared by its id, and
    the summary, which reads the first, still counts the three bags. *)
Example clearCart_second_cart :
  let w : World_f :=
    mkWorld [alice] catalog
      [mkCart 100%N 7%N [mkCartItem 101%N 1%N 3];
       mkCart 120%N 7%N [mkCartItem 121%N 2%N 2]] [] ∅ [] 200%N in
  let r := clearCart 7%N (Some 120%N) w in
  carts r.2 = [mkCart 100%N 7%N [mkCartItem 101%N 1%N 3]; mkCart 120%N 7%N []]
  ∧ (getCart 7%N (Some 120%N) r.2).1 = res_json (JCartItems [])
  ∧ (getCartSummary 7%N r.2).1 = res_json (JSummary 3 58.5%float 1 (Some 100%N))
  ∧ (getCartSummary 7%N w).1 = res_json (JSummary 3 58.5%float 1 (Some 100%N)).
Proof. vm_compute. by split_and!. Qed.

(** X7 on a run: three bags and two bottles, listed and counted. *)
Lemma getCartSummary_counts_the_listing_run :
  let w : World_f := shop_with [mkCartItem 101%N 1%N 3; mkCartItem 102%N 2%N 2] in
  (getCartSummary 7%N w).1 = res_json (JSummary 5 69%float 2 (Some 100%N))
  ∧ ∃ cartItems,
      (getCart 7%N None w).1 = res_json (JCartItems cartItems)
      ∧ getCartSummary 7%N w
        = (res_json (JSummary (sum_Z (v_quantity <$> cartItems))
                       (round2 (sum_num ((λ v, num_mul (v_price v)
                                                 (num_of_Z (v_quantity v)))
                                           <$> cartItems)))
                       (length cartItems) (Some 100%N)), w).
Proof.
  intros w. split; [vm_compute; reflexivity|].
  assert (Cart_findOne None 7%N (carts w)
          = Some (0%nat, mkCart 100%N 7%N
                           [mkCartItem 101%N 1%N 3; mkCartItem 102%N 2%N 2]))
    as Hc by reflexivity.
  destruct (getCartSummary_counts_the_listing 7%N w _ _ Hc)
    as (cartItems & Hg & Hs & _).
  exists cartItems. split; [exact Hg|exact Hs].
Defined.

(** ** More runs: cart routes *)

(** X8 on a run: a cart of fifty lines takes no line for a further product. *)
Lemma addToCart_route_cart_size_run :
  let w : World_f := shop_with fifty_lines in
  let body :=
    mkAddToCartBody None (Some "000000000000000000000001") (Some (VNumber 1)) in
  (addToCart_route 7%N body w).1
  = mkResponse 400 (JErrorMessage "Cart limit exceeded"
                      "You can have maximum 50 different items in your cart")
  ∧ ∃ cart',
      Cart_findOne None 7%N (carts (addToCart_route 7%N body w).2)
      = Some (0%nat, cart')
      ∧ (length (c_items cart') ≤ 50)%nat.
Proof.
  intros w body. split; [vm_compute; reflexivity|].
  assert (Cart_findOne None 7%N (carts w)
          = Some (0%nat, mkCart 100%N 7%N fifty_lines)) as Hc by reflexivity.
  destruct (addToCart_route_cart_size 7%N body w _ _ Hc Hc) as (cart' & Hf & Hlen).
  exists cart'. split; [exact Hf|]. exact Hlen.
Defined.

(** X9 on a run: alice names a line of the cart of bob. *)
Lemma cart_line_routes_refuse_foreign_lines_run :
  let w : World_f := shop_two in
  let body := mkAddToCartBody None None (Some (VNumber 1)) in
  Cart_findOne_item 111%N 8%N (carts w)
  = Some (1%nat, mkCart 110%N 8%N [mkCartItem 111%N 2%N 2])
  ∧ Cart_findOne_item 111%N 7%N (carts w) = None
  ∧ @validateObjectId float body = None
  ∧ ∃ r, removeFromCart_route 7%N 111%N body w = (r, w) ∧ a_status r = 403.
Proof.
  intros w body. split; [vm_compute; reflexivity|].
  assert (Cart_findOne_item 111%N 7%N (carts w) = None) as Hnone
    by (vm_compute; reflexivity).
  split; [exact Hnone|]. split; [reflexivity|].
  exact (proj2 (proj1 (cart_line_routes_refuse_foreign_lines 7%N 111%N body w Hnone)
                  eq_refl)).
Defined.

(** X10 on a run: five bottles asked, three in stock; one issue each. *)
Lemma validate_route_agrees_with_checkout_run :
  let w : World_f := shop_with [mkCartItem 101%N 1%N 3; mkCartItem 102%N 2%N 5] in
  let pop := populate (products w) [mkCartItem 101%N 1%N 3; mkCartItem 102%N 2%N 5] in
  (checkout_partition pop).2 = ["Only 3 Bottle available"]
  ∧ ∃ valid validItems totalPrice issues message,
      validate_route 7%N w
      = ans_json (RCartValidity valid 2 validItems totalPrice issues message)
      ∧ from_option length 0%nat issues = 1%nat
      ∧ validItems = 1%nat.
Proof.
  intros w pop. split; [vm_compute; reflexivity|].
  assert (Cart_findOne None 7%N (carts w)
          = Some (0%nat, mkCart 100%N 7%N
                           [mkCartItem 101%N 1%N 3; mkCartItem 102%N 2%N 5]))
    as Hc by reflexivity.
  destruct (validate_route_agrees_with_checkout 7%N w _ _ Hc ltac:(done)
              ltac:(repeat constructor; simpl; lia))
    as (valid & validItems & totalPrice & issues & message & Hr & Hi & _ & Hv & _).
  exists valid, validItems, totalPrice, issues, message.
  split; [exact Hr|]. split; [rewrite Hi|rewrite Hv]; vm_compute; reflexivity.
Defined.

(** ** More runs: payment *)

(** X12 on a run: the paid session is confirmed twice. *)
Lemma handlePaymentSuccess_replay_run :
  let w : World_f := shop_with [mkCartItem 101%N 1%N 3] in
  let r := handlePaymentSuccess demo_sessions_retrieve 1700000000000
             (Some "cs_test_1") w in
  status r.1 = 200
  ∧ p_stock <$> products r.2 !! 1%N = Some 7
  ∧ ∃ message sid orderId totalAmount currency,
      handlePaymentSuccess demo_sessions_retrieve 1700000000001
        (Some "cs_test_1") r.2
      = (res_json (JPaid message sid orderId [] 0 totalAmount currency), r.2).
Proof.
  intros w r.
  assert (status r.1 = 200) as H200 by (vm_compute; reflexivity).
  split; [exact H200|]. split; [vm_compute; reflexivity|].
  destruct (handlePaymentSuccess_replay demo_sessions_retrieve 1700000000000
              1700000000001 (Some "cs_test_1") w H200) as (sid & session & _ & _ & Hr).
  eexists _, _, _, _, _. exact Hr.
Defined.

Lemma catalog_stock (id : ObjectId) (p : @Product float) :
  catalog !! id = Some p → 0 ≤ p_stock p.
Proof.
  unfold catalog.
  intros [[_ <-]|[_ [[_ <-]|[_ [[_ <-]|[_ ?]]%lookup_insert_Some]]%lookup_insert_Some]]%lookup_insert_Some;
    simpl; try lia. done.
Qed.

(** X13 on a run: five bottles asked, three in stock, three billed. *)
Lemma checkout_line_items_within_stock_run :
  let w : World_f := shop_with [mkCartItem 101%N 2%N 5] in
  let r := createCheckoutSession demo_sessions_create configured 0 7%N None None w in
  (λ sd, li_quantity <$> sd_line_items sd) <$> stripe_create_calls r.2 = [[3]]
  ∧ billed (products w) [mkCartItem 101%N 2%N 5] 2%N = 3
  ∧ ∃ sessions,
      stripe_create_calls r.2 = stripe_create_calls w ++ sessions
      ∧ (length sessions ≤ 1)%nat
      ∧ Forall (λ sd, Forall (λ li, 1 ≤ li_quantity li ≤ 3) (sd_line_items sd))
               sessions
      ∧ billed (products w) [mkCartItem 101%N 2%N 5] 2%N ≤ 3.
Proof.
  intros w r. split; [vm_compute; reflexivity|].
  split; [vm_compute; reflexivity|].
  assert (Cart_findOne None 7%N (carts w)
          = Some (0%nat, mkCart 100%N 7%N [mkCartItem 101%N 2%N 5])) as Hc
    by reflexivity.
  assert (products w !! 2%N = Some bottle) as Hbottle by (vm_compute; reflexivity).
  destruct (checkout_line_items_within_stock demo_sessions_create configured 0
              7%N None None w _ _ Hc ltac:(repeat constructor; simpl; lia)
              catalog_stock) as (sessions & Hs & Hlen & Hall & Hbilled).
  exists sessions. split; [exact Hs|]. split; [exact Hlen|]. split.
  - eapply Forall_impl; [exact Hall|]. intros sd [_ Hsd].
    eapply Forall_impl; [exact Hsd|].
    intros li (it & p & Hit & Hp & _ & Hb).
    apply list_elem_of_singleton in Hit. subst it.
    assert (Some p = Some bottle) as [= ->] by (rewrite <- Hp; vm_compute; reflexivity).
    exact Hb.
  - apply (Hbilled ltac:(repeat constructor; by intros ?%elem_of_nil) 2%N bottle
             Hbottle).
Defined.

(** Without the condition of one line per product the bound is per line
    only: lines of 3 and of 9 bags, 10 in stock, are both billed. *)
Example checkout_two_lines_of_one_product :
  let w : World_f := shop_with [mkCartItem 101%N 1%N 3; mkCartItem 102%N 1%N 9] in
  let r := createCheckoutSession demo_sessions_create configured 0 7%N None None w in
  (λ sd, li_quantity <$> sd_line_items sd) <$> stripe_create_calls r.2 = [[3; 9]]
  ∧ billed (products w) [mkCartItem 101%N 1%N 3; mkCartItem 102%N 1%N 9] 1%N = 12.
Proof. vm_compute. by split_and!. Qed.

(** X14 on a run: three of the five bottles are billed, the stock stays 3. *)
Lemma clamped_line_billed_not_charged_run :
  let w : World_f := shop_with [mkCartItem 101%N 2%N 5] in
  let checkout :=
    createCheckoutSession demo_sessions_create configured 0 7%N None None w in
  let paid := handlePaymentSuccess demo_sessions_retrieve 1700000000000
                (Some "cs_test_1") checkout.2 in
  status paid.1 = 200
  ∧ ∃ p', products paid.2 !! 2%N = Some p' ∧ p_stock p' = 3.
Proof.
  intros w checkout paid. split; [vm_compute; reflexivity|].
  assert (Cart_findOne None 7%N (carts w)
          = Some (0%nat, mkCart 100%N 7%N [mkCartItem 101%N 2%N 5])) as Hc
    by reflexivity.
  destruct (clamped_line_billed_not_charged demo_sessions_create
              demo_sessions_retrieve configured 0 7%N None None 1700000000000
              "cs_test_1" demo_session w 0%nat 0%nat _ (mkCartItem 101%N 2%N 5)
              bottle ltac:(by eexists) Hc ltac:(apply NoDup_singleton)
              ltac:(by apply list_elem_of_singleton)
              ltac:(vm_compute; reflexivity) ltac:(simpl; lia)
              ltac:(reflexivity) ltac:(reflexivity))
    as (_ & _ & p' & Hp' & Hst).
  exists p'. split; [exact Hp'|exact Hst].
Defined.

(** ** More runs: auth *)

(** X15 on a run: bob registers and logs in. *)
Lemma register_then_login_run :
  let w : World_f := shop in
  let body := mkAuthBody (Some "bob456") (Some "hunter22") None in
  ∃ username userId role,
    (register_route demo_hashSync demo_User_validate body w).1
    = res_json (JRegistered "User registered" userId role)
    ∧ (login_route demo_compareSync demo_jwt_sign 1000 1001 body
         (register_route demo_hashSync demo_User_validate body w).2).1
      = res_json (JLoggedIn "Login successful" (demo_jwt_sign userId username role)
                    role userId username).
Proof.
  intros w body.
  destruct (register_then_login demo_hashSync demo_compareSync demo_jwt_sign
              demo_User_validate body 1000 1001 w
              ltac:(vm_compute; reflexivity)
              ltac:(intros ?? [= <-] [= <-]; split; vm_compute; reflexivity))
    as (username & userId & role & _ & Hr & Hl).
  by exists username, userId, role.
Defined.

(** X16 on a run: alice changes her password; the new one opens the
    account and the old one does not. *)
Lemma changePassword_then_login_run :
  let w : World_f := shop in
  let cbody := mkChangePasswordBody (Some "secret1") (Some "secret2") in
  let w1 := (changePassword_route demo_hashSync demo_compareSync 7%N cbody w).2 in
  status (login demo_compareSync demo_jwt_sign
            (mkAuthBody (Some "alice123") (Some "secret2") None) w1) = 200
  ∧ status (login demo_compareSync demo_jwt_sign
              (mkAuthBody (Some "alice123") (Some "secret1") None) w1) = 401.
Proof.
  intros w cbody w1.
  assert (∀ password, password ≠ "" →
            login demo_compareSync demo_jwt_sign
              (mkAuthBody (Some "alice123") (Some password) None) w1
            = if demo_compareSync password (demo_hashSync "secret2" 8)
              then res_json (JLoggedIn "Login successful"
                               (demo_jwt_sign 7%N "alice123" "user")
                               "user" 7%N "alice123")
              else mkResponse 401 (JError "Invalid credentials")) as Hlogin.
  { intros password Hpw.
    destruct (changePassword_then_login demo_hashSync demo_compareSync
                demo_jwt_sign 7%N cbody w password None
                ltac:(vm_compute; reflexivity) Hpw) as (new & i & user & Hn & Hf & Hl).
    { intros i user Hf.
      assert (Some (i, user) = Some (0%nat, alice : @User)) as [= -> ->]
        by (rewrite <- Hf; vm_compute; reflexivity).
      split; [done|vm_compute; reflexivity]. }
    assert (Some new = Some "secret2") as [= ->] by (rewrite <- Hn; reflexivity).
    assert (Some (i, user) = Some (0%nat, alice : @User)) as [= -> ->]
      by (rewrite <- Hf; vm_compute; reflexivity).
    exact Hl. }
  split; rewrite Hlogin by done; vm_compute; reflexivity.
Defined.

(** X17 on a run: a registration, a failed login, a password change and an
    admin creation. *)
Lemma auth_requests_keep_accounts_run :
  let w : World_f := shop in
  let reqs :=
    [AuthRegister (mkAuthBody (Some "bob456") (Some "hunter22") (Some "admin"));
     AuthLogin 1000 1001 (mkAuthBody (Some "alice123") (Some "letmein") None);
     AuthChangePassword 7%N (mkChangePasswordBody (Some "secret1") (Some "secret2"));
     AuthCreateAdmin (Some "true") (mkAuthBody (Some "carol789") (Some "topsecret") None)] in
  let w' := auth_requests demo_hashSync demo_compareSync demo_jwt_sign
              demo_User_validate w reqs in
  account <$> users w' = [(7%N, "alice123", "user"); (100%N, "bob456", "admin");
                          (101%N, "carol789", "admin")]
  ∧ NoDup (u_username <$> users w')
  ∧ (account <$> users w) `prefix_of` (account <$> users w').
Proof.
  intros w reqs w'. split; [vm_compute; reflexivity|].
  destruct (auth_requests_keep_accounts demo_hashSync demo_compareSync
              demo_jwt_sign demo_User_validate w reqs
              ltac:(apply NoDup_singleton)) as (Hnd & Hpre & _).
  split; [exact Hnd|exact Hpre].
Defined.

(** X18 on a run: the name of alice is taken, for both. *)
Lemma check_username_agrees_with_register_run :
  let w : World_f := shop in
  check_username "alice123" w = ans_json (RAvailability false "alice123")
  ∧ (register_route demo_hashSync demo_User_validate
       (mkAuthBody (Some "alice123") (Some "hunter22") None) w).1
    = mkResponse 400 (JError "Username already taken").
Proof.
  intros w.
  assert (check_username "alice123" w = ans_json (RAvailability false "alice123"))
    as Hc by (vm_compute; reflexivity).
  split; [exact Hc|].
  exact (proj1 (proj2 (check_username_agrees_with_register demo_hashSync
                         demo_User_validate "alice123" "hunter22" None w
                         ltac:(reflexivity))) Hc).
Defined.

(** X19 on a run: the token of alice, under two schemes, and no token. *)
Lemma verifyToken_reads_second_word_run :
  verifyToken (num := float) demo_jwt_verify (Some "Bearer jwt.alice123.user")
  = inr (mkTokenPayload 7%N "alice123" "user")
  ∧ verifyToken (num := float) demo_jwt_verify (Some "Token jwt.alice123.user")
    = inr (mkTokenPayload 7%N "alice123" "user")
  ∧ verifyToken (num := float) demo_jwt_verify (Some "Bearer")
    = inl (mkResponse 401 (JError "Access denied. Token missing.")).
Proof.
  assert (no_space "jwt.alice123.user") as Ht by (unfold no_space; compute_done).
  pose proof (verifyToken_reads_second_word (num := float) demo_jwt_verify "Bearer"
                "jwt.alice123.user" ltac:(unfold no_space; compute_done) Ht
                ltac:(discriminate)) as [Hb Hnone].
  pose proof (verifyToken_reads_second_word (num := float) demo_jwt_verify "Token"
                "jwt.alice123.user" ltac:(unfold no_space; compute_done) Ht
                ltac:(discriminate)) as [Hk _].
  split; [exact Hb|]. split; [exact Hk|exact Hnone].
Defined.

(** ** More runs: catalog *)

Lemma catalog_is_ok : catalog_ok demo_URL_valid (catalog : gmap ObjectId (@Product float)).
Proof.
  unfold catalog.
  repeat apply map_Forall_insert_2; [..|apply map_Forall_empty];
    (split_and!; [done|simpl; lia|done|simpl; lia|vm_compute; reflexivity
                 |compute_done|vm_compute; reflexivity|simpl; lia]).
Qed.

(** X21 on a run: a product is added, one updated, one deleted. *)
Lemma product_requests_keep_catalog_ok_run :
  let w : World_f := shop in
  let reqs :=
    [ProdAdd 5 6 (mkProductBody (Some "  Cup ") (Some "A bamboo cup") (Some 7.5%float)
                    None None (Some 4));
     ProdUpdate 1%N (mkProductBody None None None None None (Some 0));
     ProdDelete (Some "true") 3%N] in
  let w' := product_requests demo_URL_valid w reqs in
  p_name <$> products w' !! 100%N = Some "Cup"
  ∧ p_stock <$> products w' !! 1%N = Some 0
  ∧ products w' !! 3%N = None
  ∧ catalog_ok demo_URL_valid (products w').
Proof.
  intros w reqs w'. split_and!; [vm_compute; reflexivity..|].
  exact (proj1 (product_requests_keep_catalog_ok demo_URL_valid w reqs catalog_is_ok)).
Defined.

(** X22 on a run: a cup is added and read back. *)
Lemma addProduct_then_getProductById_run :
  let w : World_f := shop in
  let body := mkProductBody (Some "  Cup ") (Some "A bamboo cup") (Some 7.5%float)
                None None None in
  let r := addProduct_route demo_URL_valid 5 6 body w in
  getProductById 100%N r.2
  = ans_json (RProduct 100%N (mkProduct "Cup" "A bamboo cup" 7.5%float "General"
                                "" 0 5 6))
  ∧ ∃ product id,
      r.1 = mkAnswer 201 (RProductAdded "Product added successfully" product id)
      ∧ getProductById id r.2 = ans_json (RProduct id product).
Proof.
  intros w body r. split; [vm_compute; reflexivity|].
  assert (a_status r.1 = 201) as H201 by (vm_compute; reflexivity).
  destruct (addProduct_then_getProductById demo_URL_valid 5 6 body w H201)
    as (product & id & name & description & Hr & Hg & _).
  by exists product, id.
Defined.

(** ** More runs: adding *)

(** X24 on a run: every kind of request, by alice and by bob; the second
    add sends its quantity as a string. *)
Lemma cart_requests_within_stock_run :
  let w : World_f := shop_two in
  let reqs :=
    [(7%N, ReqAdd (mkAddToCartBody None (Some "000000000000000000000001")
                     (Some (VNumber 7))));
     (7%N, ReqAdd (mkAddToCartBody None (Some "000000000000000000000001")
                     (Some (VString "1"))));
     (8%N, ReqUpdate 111%N (Some (VNumber 4)));
     (8%N, ReqCreate); (7%N, ReqGet None); (7%N, ReqSummary);
     (8%N, ReqRemove 111%N); (7%N, ReqClear None); (8%N, ReqDelete 110%N)] in
  carts (cart_requests w reqs) = [mkCart 100%N 7%N []]
  ∧ carts_within_stock w
  ∧ carts_within_stock (cart_requests w reqs).
Proof.
  intros w reqs. split; [vm_compute; reflexivity|].
  assert (carts_within_stock w) as Hw.
  { repeat constructor; intros it p ->%list_elem_of_singleton Hp; simpl in *.
    - assert (Some p = Some bag) as [= ->] by (rewrite <- Hp; vm_compute; reflexivity).
      simpl. lia.
    - assert (Some p = Some bottle) as [= ->]
        by (rewrite <- Hp; vm_compute; reflexivity).
      simpl. lia. }
  split; [exact Hw|]. exact (cart_requests_within_stock w reqs Hw).
Defined.

(** X25 on a run: two more bags in a cart of three. *)
Lemma addToCart_then_getCart_run :
  let w : World_f := shop_with [mkCartItem 101%N 1%N 3] in
  let body :=
    mkAddToCartBody None (Some "000000000000000000000001") (Some (VNumber 2)) in
  status (addToCart 7%N body w).1 = 200
  ∧ ∃ cartItems v,
      (getCart 7%N None (addToCart 7%N body w).2).1 = res_json (JCartItems cartItems)
      ∧ v ∈ cartItems ∧ v_productId v = 1%N ∧ v_quantity v = 5.
Proof.
  intros w body.
  assert (status (addToCart 7%N body w).1 = 200) as H200 by (vm_compute; reflexivity).
  split; [exact H200|].
  destruct (addToCart_then_getCart 7%N "000000000000000000000001" (VNumber 2) w H200)
    as (cartItems & v & product_id & p & Hg & Hv & Hcast & _ & Hid & _ & _ & _ & _
        & Hn & _).
  assert (Some product_id = Some 1%N) as [= ->]
    by (rewrite <- Hcast; vm_compute; reflexivity).
  exists cartItems, v. split; [exact Hg|]. split; [exact Hv|].
  split; [exact Hid|]. apply Hn. vm_compute. reflexivity.
Defined.
